(** * libcamera: control transactions, the RkISP1 auto-exposure loop and
      request completion

    A shallow embedding of
    - [V4L2Device::listControls], [V4L2Device::setControls] and
      [V4L2Device::updateControls] (src/libcamera/v4l2_device.cpp),
    - [IPARkISP1] (the RkISP1 image processing algorithm module),
    - [VimcCameraData::bufferReady] (src/libcamera/pipeline/vimc/vimc.cpp),
    - the [IPU3Frames::Info] record (src/libcamera/pipeline/ipu3/frames.h),
    followed by the properties proved about them. *)

From Stdlib Require Import ZArith List Bool Lia QArith Qabs.
From Stdlib Require Import PrimFloat FloatOps SpecFloat Uint63.
From stdpp Require Import base option list gmap.

Local Open Scope Z_scope.

(** ** Common definitions *)

(** errno value used by the sources. *)
Definition EINVAL : Z := 22.

(** Two's complement and unsigned wrap-around of the C integer types. *)
Definition wrap_u32 (z : Z) : Z := z mod 2 ^ 32.
Definition wrap_s32 (z : Z) : Z := (z + 2 ^ 31) mod 2 ^ 32 - 2 ^ 31.
Definition wrap_s64 (z : Z) : Z := (z + 2 ^ 63) mod 2 ^ 64 - 2 ^ 63.
Definition wrap_u8 (z : Z) : Z := z mod 2 ^ 8.

(** [ControlType], the type tags named by the sources. *)
Inductive ControlType :=
| ControlTypeNone
| ControlTypeBool
| ControlTypeByte
| ControlTypeInteger32
| ControlTypeInteger64.

(** Modelled from the spec: [ControlValue] (controls.h and controls.cpp are
    not among the sources).  A value carries its type tag; the only array
    values the modelled code handles are byte arrays. *)
Inductive ControlValue :=
| CVNone
| CVBool (b : bool)
| CVByte (v : Z)
| CVInteger32 (v : Z)
| CVInteger64 (v : Z)
| CVByteArray (data : list Z).

Definition isArray (v : ControlValue) : bool :=
  match v with CVByteArray _ => true | _ => false end.

(** [get<int32_t>()] and [get<int64_t>()]: the accessor asserts that
    the value is a scalar of the type asked for and gives what is
    stored; [None] is the failed assertion, on a value of any other
    type. *)
Definition get_int32 (v : ControlValue) : option Z :=
  match v with CVInteger32 z => Some (wrap_s32 z) | _ => None end.

Definition get_int64 (v : ControlValue) : option Z :=
  match v with CVInteger64 z => Some (wrap_s64 z) | _ => None end.

(** [value.data()]: the bytes of the value's storage. *)
Definition data (v : ControlValue) : list Z :=
  match v with CVByteArray d => d | _ => [] end.

Record ControlId := { cid_id : Z; cid_type : ControlType }.

Record ControlInfo := { ci_min : ControlValue; ci_max : ControlValue; ci_def : ControlValue }.

(** [ControlInfoMap], looked up by numerical control id. *)
Abbreviation ControlInfoMap := (gmap Z (ControlId * ControlInfo)).

(** Modelled from the spec: [ControlList] (controls.cpp is not among the
    sources), an ordered mapping of control identifier to current value;
    [get] and [set] go by identifier, and [set] on a new identifier adds
    an entry.  Where a function walks a list it is handed, the list gives
    the entries in the order of that walk; [getControls], which walks a
    list it has filled itself, takes the order of its walk as a
    parameter. *)
Abbreviation ControlList := (list (Z * ControlValue)).

Fixpoint ControlList_get (ctrls : ControlList) (id : Z) : ControlValue :=
  match ctrls with
  | [] => CVNone
  | (k, v) :: rest => if decide (k = id) then v else ControlList_get rest id
  end.

Fixpoint ControlList_set (ctrls : ControlList) (id : Z) (value : ControlValue) : ControlList :=
  match ctrls with
  | [] => [(id, value)]
  | (k, v) :: rest =>
      if decide (k = id) then (k, value) :: rest
      else (k, v) :: ControlList_set rest id value
  end.

(** ** V4L2 devices (src/libcamera/v4l2_device.cpp) *)

Module V4L2.

(** Enumeration [v4l2_ctrl_type] of linux/videodev2.h. *)
Inductive v4l2_ctrl_type :=
| V4L2_CTRL_TYPE_INTEGER
| V4L2_CTRL_TYPE_BOOLEAN
| V4L2_CTRL_TYPE_MENU
| V4L2_CTRL_TYPE_BUTTON
| V4L2_CTRL_TYPE_INTEGER64
| V4L2_CTRL_TYPE_CTRL_CLASS
| V4L2_CTRL_TYPE_STRING
| V4L2_CTRL_TYPE_BITMASK
| V4L2_CTRL_TYPE_INTEGER_MENU
| V4L2_CTRL_TYPE_U8
| V4L2_CTRL_TYPE_U16
| V4L2_CTRL_TYPE_U32
| V4L2_CTRL_TYPE_AREA.

(** Control flags of linux/videodev2.h (the header is not among the
    sources; these are the kernel's values). *)
Definition V4L2_CTRL_FLAG_DISABLED : Z := 0x0001.
Definition V4L2_CTRL_FLAG_READ_ONLY : Z := 0x0004.
Definition V4L2_CTRL_FLAG_HAS_PAYLOAD : Z := 0x0100.

Record v4l2_query_ext_ctrl := {
  q_id : Z;
  q_type : v4l2_ctrl_type;
  q_minimum : Z;
  q_maximum : Z;
  q_default_value : Z;
  q_flags : Z;
  q_elems : Z;
}.

(** [struct v4l2_ext_control].  The members [value], [value64] and [p_u8]
    of its union are kept as separate fields, each read and written where
    the source reads and writes it; [p_u8] holds the bytes the pointer
    designates ([None] for the null pointer left by memset). *)
Record v4l2_ext_control := {
  id : Z;
  size : Z;
  value : Z;
  value64 : Z;
  p_u8 : option (list Z);
}.

(** What the driver stores for one element of a batch: the value members
    and the bytes behind [p_u8].  [id] and [size] are inputs of the ioctl
    and are not written. *)
Record v4l2_written := { w_value : Z; w_value64 : Z; w_payload : list Z }.

(** Result of ::ioctl(VIDIOC_S_EXT_CTRLS): whether the call returned a
    negative value, errno, the [error_idx] member and what the driver
    stored in element [i] of the array. *)
Record ioctl_reply := {
  failed : bool;
  errno : Z;
  error_idx : Z;
  written : nat -> v4l2_written;
}.

(** The kernel side of a device node. *)
Record Driver := {
  (** the controls VIDIOC_QUERY_EXT_CTRL reports to the loop of
      [listControls], in order, up to the first failure of the ioctl *)
  enumerated : list v4l2_query_ext_ctrl;
  s_ext_ctrls : list v4l2_ext_control -> ioctl_reply;
}.

Record V4L2Device := {
  driver : Driver;
  controlInfo_ : gmap Z v4l2_query_ext_ctrl;
  controls_ : ControlInfoMap;
}.

(** The device I/O a call issues, in order. *)
Inductive io_event :=
| VIDIOC_S_EXT_CTRLS (request : list v4l2_ext_control).

Definition v4l2CtrlType (ctrlType : v4l2_ctrl_type) : ControlType :=
  match ctrlType with
  | V4L2_CTRL_TYPE_U8 => ControlTypeByte
  | V4L2_CTRL_TYPE_BOOLEAN => ControlTypeBool
  | V4L2_CTRL_TYPE_INTEGER => ControlTypeInteger32
  | V4L2_CTRL_TYPE_INTEGER64 => ControlTypeInteger64
  | V4L2_CTRL_TYPE_MENU
  | V4L2_CTRL_TYPE_BUTTON
  | V4L2_CTRL_TYPE_BITMASK
  | V4L2_CTRL_TYPE_INTEGER_MENU => ControlTypeInteger32
  | _ => ControlTypeNone
  end.

Definition v4l2ControlId (ctrl : v4l2_query_ext_ctrl) : ControlId :=
  {| cid_id := q_id ctrl; cid_type := v4l2CtrlType (q_type ctrl) |}.

Definition v4l2ControlInfo (ctrl : v4l2_query_ext_ctrl) : ControlInfo :=
  match q_type ctrl with
  | V4L2_CTRL_TYPE_U8 =>
      {| ci_min := CVByte (wrap_u8 (q_minimum ctrl));
         ci_max := CVByte (wrap_u8 (q_maximum ctrl));
         ci_def := CVByte (wrap_u8 (q_default_value ctrl)) |}
  | V4L2_CTRL_TYPE_BOOLEAN =>
      {| ci_min := CVBool (negb (q_minimum ctrl =? 0));
         ci_max := CVBool (negb (q_maximum ctrl =? 0));
         ci_def := CVBool (negb (q_default_value ctrl =? 0)) |}
  | V4L2_CTRL_TYPE_INTEGER64 =>
      {| ci_min := CVInteger64 (wrap_s64 (q_minimum ctrl));
         ci_max := CVInteger64 (wrap_s64 (q_maximum ctrl));
         ci_def := CVInteger64 (wrap_s64 (q_default_value ctrl)) |}
  | _ =>
      {| ci_min := CVInteger32 (wrap_s32 (q_minimum ctrl));
         ci_max := CVInteger32 (wrap_s32 (q_maximum ctrl));
         ci_def := CVInteger32 (wrap_s32 (q_default_value ctrl)) |}
  end.

(** The switch of [listControls] on the control type. *)
Definition listed_type (t : v4l2_ctrl_type) : bool :=
  match t with
  | V4L2_CTRL_TYPE_INTEGER
  | V4L2_CTRL_TYPE_BOOLEAN
  | V4L2_CTRL_TYPE_MENU
  | V4L2_CTRL_TYPE_BUTTON
  | V4L2_CTRL_TYPE_INTEGER64
  | V4L2_CTRL_TYPE_BITMASK
  | V4L2_CTRL_TYPE_INTEGER_MENU
  | V4L2_CTRL_TYPE_U8 => true
  | _ => false
  end.

Definition is_ctrl_class (t : v4l2_ctrl_type) : bool :=
  match t with V4L2_CTRL_TYPE_CTRL_CLASS => true | _ => false end.

(** [emplace] keeps an entry that is already there. *)
Definition emplace {V} (k : Z) (v : V) (m : gmap Z V) : gmap Z V :=
  match m !! k with Some _ => m | None => <[k := v]> m end.

(** One round of the loop of [listControls], for the control the driver
    just reported. *)
Definition listControls_step
    (acc : gmap Z v4l2_query_ext_ctrl * ControlInfoMap) (ctrl : v4l2_query_ext_ctrl)
    : gmap Z v4l2_query_ext_ctrl * ControlInfoMap :=
  if is_ctrl_class (q_type ctrl)
     || negb (Z.land (q_flags ctrl) V4L2_CTRL_FLAG_DISABLED =? 0)
  then acc
  else if listed_type (q_type ctrl)
  then (emplace (q_id ctrl) ctrl acc.1,
        emplace (q_id ctrl) (v4l2ControlId ctrl, v4l2ControlInfo ctrl) acc.2)
  else acc.

(** [V4L2Device::listControls], as run by [open]: the loop emplaces
    into the member [controlInfo_], which keeps what it held, and into a
    local map that then replaces [controls_].  The local map is keyed by
    the address of a [ControlId] made for each control and looked up by
    id; the model keys it by id, which is the same for a driver that
    reports each id once. *)
Definition listControls (dev : V4L2Device) : V4L2Device :=
  let r := fold_left listControls_step (enumerated (driver dev)) (controlInfo_ dev, ∅) in
  {| driver := driver dev; controlInfo_ := r.1; controls_ := r.2 |}.

(** A device object as its constructor leaves it, on the given driver. *)
Definition unopened (drv : Driver) : V4L2Device :=
  {| driver := drv; controlInfo_ := ∅; controls_ := ∅ |}.

(** How the first loop of [setControls] ends: with what it filled in,
    on the early [return -EINVAL], or on the failed assertion of a value
    accessor. *)
Inductive filled (A : Type) :=
| Filled (a : A)
| Refused
| Aborted.
Arguments Filled {A} a.
Arguments Refused {A}.
Arguments Aborted {A}.

(** The body of the first loop of [setControls] for one entry, on the
    element zeroed by memset. *)
Definition fill_one (controls_ : ControlInfoMap) (entry : Z * ControlValue)
    : filled v4l2_ext_control :=
  let '(cid, cvalue) := entry in
  match controls_ !! cid with
  | None => Refused
  | Some (ctrlId, _) =>
      match cid_type ctrlId with
      | ControlTypeInteger64 =>
          match get_int64 cvalue with
          | Some v => Filled {| id := cid; size := 0; value := 0;
                                value64 := v; p_u8 := None |}
          | None => Aborted
          end
      | ControlTypeByte =>
          if isArray cvalue
          then Filled {| id := cid; size := Z.of_nat (length (data cvalue));
                         value := 0; value64 := 0; p_u8 := Some (data cvalue) |}
          else Refused
      | _ =>
          match get_int32 cvalue with
          | Some v => Filled {| id := cid; size := 0; value := v;
                                value64 := 0; p_u8 := None |}
          | None => Aborted
          end
      end
  end.

(** The first loop of [setControls]: it walks the list in order and stops
    at the first entry that is refused or whose value cannot be read. *)
Fixpoint fill_v4l2Ctrls (controls_ : ControlInfoMap) (ctrls : ControlList)
    : filled (list v4l2_ext_control) :=
  match ctrls with
  | [] => Filled []
  | entry :: rest =>
      match fill_one controls_ entry with
      | Filled c =>
          match fill_v4l2Ctrls controls_ rest with
          | Filled cs => Filled (c :: cs)
          | Refused => Refused
          | Aborted => Aborted
          end
      | Refused => Refused
      | Aborted => Aborted
      end
  end.

(** [V4L2Device::ioctl]: 0, or [-errno] when the system call fails. *)
Definition ioctl_ret (r : ioctl_reply) : Z :=
  if failed r then - errno r else 0.

(** The array after the ioctl. *)
Definition after_ioctl (r : ioctl_reply) (v4l2Ctrls : list v4l2_ext_control)
    : list v4l2_ext_control :=
  imap (fun i c =>
          {| id := id c; size := size c;
             value := w_value (written r i);
             value64 := w_value64 (written r i);
             p_u8 := match p_u8 c with
                     | Some _ => Some (w_payload (written r i))
                     | None => None
                     end |}) v4l2Ctrls.

(** The storage of the byte-array values of the list is what [p_u8]
    points to: what the driver stores there lands in the list at once. *)
Definition shared_storage (r : ioctl_reply) (v4l2Ctrls : list v4l2_ext_control)
    (ctrls : ControlList) : ControlList :=
  imap (fun i entry =>
          match v4l2Ctrls !! i with
          | Some c =>
              match p_u8 c with
              | Some _ => (entry.1, CVByteArray (w_payload (written r i)))
              | None => entry
              end
          | None => entry
          end) ctrls.

(** [V4L2Device::updateControls]; [None] is the failed ASSERT. *)
Fixpoint updateControls (controls_ : ControlInfoMap) (ctrls : ControlList)
    (v4l2Ctrls : list v4l2_ext_control) : option ControlList :=
  match v4l2Ctrls with
  | [] => Some ctrls
  | v4l2Ctrl :: rest =>
      let cid := id v4l2Ctrl in
      let cvalue := ControlList_get ctrls cid in
      match controls_ !! cid with
      | None => None
      | Some (ctrlId, _) =>
          let cvalue' :=
            match cid_type ctrlId with
            | ControlTypeInteger64 => CVInteger64 (value64 v4l2Ctrl)
            | ControlTypeByte => cvalue
            | _ => CVInteger32 (value v4l2Ctrl)
            end in
          updateControls controls_ (ControlList_set ctrls cid cvalue') rest
      end
  end.

(** [V4L2Device::setControls]: the returned integer, the list as the call
    leaves it and the device I/O issued; [None] is a failed assertion (of
    a value accessor in the first loop, or the ASSERT of
    [updateControls]). *)
Definition setControls (dev : V4L2Device) (ctrls : ControlList)
    : option (Z * ControlList * list io_event) :=
  match ctrls with
  | [] => Some (0, ctrls, [])
  | _ =>
      match fill_v4l2Ctrls (controls_ dev) ctrls with
      | Aborted => None
      | Refused => Some (- EINVAL, ctrls, [])
      | Filled v4l2Ctrls =>
          let reply := s_ext_ctrls (driver dev) v4l2Ctrls in
          let io := [VIDIOC_S_EXT_CTRLS v4l2Ctrls] in
          let ctrls1 := shared_storage reply v4l2Ctrls ctrls in
          let v4l2Ctrls1 := after_ioctl reply v4l2Ctrls in
          let ret := ioctl_ret reply in
          if decide (ret = 0)
          then
            match updateControls (controls_ dev) ctrls1 v4l2Ctrls1 with
            | Some ctrls2 => Some (ret, ctrls2, io)
            | None => None
            end
          else
            let errorIdx := error_idx reply in
            if decide (errorIdx = 0 ∨ errorIdx >= Z.of_nat (length v4l2Ctrls1))
            then Some (- EINVAL, ctrls1, io)
            else
              match updateControls (controls_ dev) ctrls1
                      (take (Z.to_nat errorIdx) v4l2Ctrls1) with
              | Some ctrls2 => Some (errorIdx, ctrls2, io)
              | None => None
              end
      end
  end.

(** *** Notions used to state the properties of [setControls] *)

(** The value of an entry is one the first loop can read for the control
    it finds under the entry's id: a 64-bit integer for a 64-bit control,
    a 32-bit integer for any other control that is not a byte control.
    (The loop reads nothing for an id it does not find, and only asks a
    byte control's value whether it is an array.) *)
Definition readable (controls_ : ControlInfoMap) (entry : Z * ControlValue) : Prop :=
  match controls_ !! entry.1 with
  | None => True
  | Some (ctrlId, _) =>
      match cid_type ctrlId with
      | ControlTypeInteger64 => is_Some (get_int64 entry.2)
      | ControlTypeByte => True
      | _ => is_Some (get_int32 entry.2)
      end
  end.

(** An entry passes the first loop: its id is known to the device and
    its value is what the loop reads for the control's type: a 64-bit
    integer for a 64-bit control, an array for a byte control, a 32-bit
    integer for any other control. *)
Definition valid_entry (controls_ : ControlInfoMap) (entry : Z * ControlValue) : Prop :=
  match controls_ !! entry.1 with
  | None => False
  | Some (ctrlId, _) =>
      match cid_type ctrlId with
      | ControlTypeInteger64 => is_Some (get_int64 entry.2)
      | ControlTypeByte => isArray entry.2 = true
      | _ => is_Some (get_int32 entry.2)
      end
  end.

(** The batch handed to the driver for a list that passes the first
    loop. *)
Definition batch (controls_ : ControlInfoMap) (ctrls : ControlList) : list v4l2_ext_control :=
  match fill_v4l2Ctrls controls_ ctrls with
  | Filled v4l2Ctrls => v4l2Ctrls
  | _ => []
  end.

(** The value an entry holds once the driver has applied it: what the
    driver stored in the member that belongs to the control's type. *)
Definition applied_value (controls_ : ControlInfoMap) (cid : Z) (w : v4l2_written)
    : ControlValue :=
  match controls_ !! cid with
  | Some (ctrlId, _) =>
      match cid_type ctrlId with
      | ControlTypeInteger64 => CVInteger64 (w_value64 w)
      | ControlTypeByte => CVByteArray (w_payload w)
      | _ => CVInteger32 (w_value w)
      end
  | None => CVNone
  end.

(** The driver left the bytes of the elements from index [i] on as they
    were handed in. *)
Definition keeps_from (r : ioctl_reply) (request : list v4l2_ext_control) (i : nat) : Prop :=
  forall j c bytes,
    (i <= j)%nat -> request !! j = Some c -> p_u8 c = Some bytes ->
    w_payload (written r j) = bytes.

(** The driver rejects the batch at index [i]: the call fails, [error_idx]
    is [i], and no element from [i] on was applied. *)
Definition rejects_at (r : ioctl_reply) (request : list v4l2_ext_control) (i : nat) : Prop :=
  failed r = true /\ errno r <> 0 /\ error_idx r = Z.of_nat i /\ keeps_from r request i.

(** The driver reports a generic failure: the call fails with an
    [error_idx] of 0 or beyond the batch, and nothing was applied. *)
Definition rejects_generic (r : ioctl_reply) (request : list v4l2_ext_control) : Prop :=
  failed r = true /\ errno r <> 0 /\
  (error_idx r = 0 \/ error_idx r >= Z.of_nat (length request)) /\
  keeps_from r request 0.

(** A control the device reports as read-only. *)
Definition read_only (dev : V4L2Device) (cid : Z) : Prop :=
  exists info, controlInfo_ dev !! cid = Some info /\
               Z.land (q_flags info) V4L2_CTRL_FLAG_READ_ONLY <> 0.

(** What one round of [updateControls] stores for an entry. *)
Definition update_entry (controls_ : ControlInfoMap) (entry : Z * ControlValue)
    (v4l2Ctrl : v4l2_ext_control) : Z * ControlValue :=
  match controls_ !! entry.1 with
  | Some (ctrlId, _) =>
      match cid_type ctrlId with
      | ControlTypeInteger64 => (entry.1, CVInteger64 (value64 v4l2Ctrl))
      | ControlTypeByte => entry
      | _ => (entry.1, CVInteger32 (value v4l2Ctrl))
      end
  | None => entry
  end.

(** The list with its leading entries updated from [v4l2Ctrls], entry by
    entry. *)
Fixpoint updated (controls_ : ControlInfoMap) (ctrls : ControlList)
    (v4l2Ctrls : list v4l2_ext_control) {struct v4l2Ctrls} : ControlList :=
  match v4l2Ctrls, ctrls with
  | v4l2Ctrl :: rest, entry :: entries =>
      update_entry controls_ entry v4l2Ctrl :: updated controls_ entries rest
  | _, _ => ctrls
  end.

End V4L2.

(** ** The RkISP1 image processing algorithm module *)

Module RkISP1.

(** Constants of linux/v4l2-controls.h and linux/rkisp1-config.h (the
    headers are not among the sources; these are the kernel's values). *)
Definition V4L2_CID_EXPOSURE : Z := 0x00980911.
Definition V4L2_CID_ANALOGUE_GAIN : Z := 0x009e0903.
Definition RKISP1_CIF_ISP_AE_MEAN_MAX_V10 : nat := 25.
Definition RKISP1_CIF_ISP_STAT_AUTOEXP : Z := 2.
Definition RKISP1_CIF_ISP_MODULE_AEC : Z := 0x4000.

(** Identifiers of the libcamera controls the module reads and reports. *)
Definition AeEnable : Z := 1.
Definition AeLocked : Z := 2.

(** [struct rkisp1_stat_buffer], with [params.ae.exp_mean] as [exp_mean]:
    an array of [__u8] cells. *)
Record rkisp1_stat_buffer := {
  meas_type : Z;
  exp_mean : list Z;
}.

Record rkisp1_params_cfg := {
  module_en_update : Z;
  module_ens : Z;
}.

(** What a mapped buffer holds. *)
Inductive memory :=
| StatBuffer (stats : rkisp1_stat_buffer)
| ParamBuffer (params : rkisp1_params_cfg).

Inductive RkISP1Operations :=
| ActionV4L2Set
| ActionParamFilled
| ActionMetadata.

Record RkISP1Action := { a_op : RkISP1Operations; a_controls : ControlList }.

Inductive RkISP1EventOp :=
| EventSignalStatBuffer
| EventQueueRequest
| EventOther (op : Z).

Record RkISP1Event := {
  e_op : RkISP1EventOp;
  e_frame : Z;
  e_bufferId : Z;
  e_controls : ControlList;
}.

(** The members of [IPARkISP1] that the modelled functions use. *)
Record IPARkISP1 := {
  buffersMemory_ : gmap Z memory;
  ctrls_ : ControlInfoMap;
  autoExposure_ : bool;
  exposure_ : Z;
  minExposure_ : Z;
  maxExposure_ : Z;
  gain_ : Z;
  minGain_ : Z;
  maxGain_ : Z;
}.

(** What [queueFrameAction] emitted, in order: frame and action. *)
Abbreviation actions := (list (Z * RkISP1Action)).

Inductive configure_outcome :=
| Returned (ret : Z) (s : IPARkISP1)
| ThrowsOutOfRange
| AssertFails.

(** [IPARkISP1::configure]; [entityControls.at(0)] throws
    std::out_of_range when the map has no entry for key 0, and
    [get<int32_t>()] fails its assertion on a range that is not made of
    32-bit integers. *)
Definition configure (s : IPARkISP1) (entityControls : gmap Z ControlInfoMap)
    : configure_outcome :=
  if decide (entityControls = ∅) then Returned (- EINVAL) s
  else
    match entityControls !! 0 with
    | None => ThrowsOutOfRange
    | Some at0 =>
        let s1 :=
          {| buffersMemory_ := buffersMemory_ s; ctrls_ := at0;
             autoExposure_ := autoExposure_ s;
             exposure_ := exposure_ s; minExposure_ := minExposure_ s;
             maxExposure_ := maxExposure_ s;
             gain_ := gain_ s; minGain_ := minGain_ s; maxGain_ := maxGain_ s |} in
        match at0 !! V4L2_CID_EXPOSURE with
        | None => Returned (- EINVAL) s1
        | Some itExp =>
            match at0 !! V4L2_CID_ANALOGUE_GAIN with
            | None => Returned (- EINVAL) s1
            | Some itGain =>
                match get_int32 (ci_min itExp.2), get_int32 (ci_max itExp.2),
                      get_int32 (ci_min itGain.2), get_int32 (ci_max itGain.2) with
                | Some expMin, Some expMax, Some gainMin, Some gainMax =>
                    let minExposure := Z.max (wrap_u32 expMin) 1 in
                    let maxExposure := wrap_u32 expMax in
                    let minGain := Z.max (wrap_u32 gainMin) 1 in
                    let maxGain := wrap_u32 gainMax in
                    Returned 0
                      {| buffersMemory_ := buffersMemory_ s; ctrls_ := at0;
                         autoExposure_ := true;
                         exposure_ := minExposure; minExposure_ := minExposure;
                         maxExposure_ := maxExposure;
                         gain_ := minGain; minGain_ := minGain; maxGain_ := maxGain |}
                | _, _, _, _ => AssertFails
                end
            end
        end
    end.

(** [IPARkISP1::setControls]. *)
Definition setControls (s : IPARkISP1) (frame : Z) : actions :=
  let ctrls := ControlList_set [] V4L2_CID_EXPOSURE (CVInteger32 (wrap_s32 (exposure_ s))) in
  let ctrls := ControlList_set ctrls V4L2_CID_ANALOGUE_GAIN (CVInteger32 (wrap_s32 (gain_ s))) in
  [(frame, {| a_op := ActionV4L2Set; a_controls := ctrls |})].

(** [IPARkISP1::metadataReady]. *)
Definition metadataReady (frame aeState : Z) : actions :=
  let ctrls : ControlList :=
    if aeState =? 0 then [] else ControlList_set [] AeLocked (CVBool (aeState =? 2)) in
  [(frame, {| a_op := ActionMetadata; a_controls := ctrls |})].

(** [IPARkISP1::start]. *)
Definition start (s : IPARkISP1) : Z * actions := (0, setControls s 0).

(** Conversions between the unsigned integer types and double. *)
Definition of_u32 (z : Z) : float := PrimFloat.of_uint63 (Uint63.of_Z (wrap_u32 z)).

(** [(uint64_t)x]: the value truncated toward zero; [None] when it is not
    representable (the conversion is then undefined). *)
Definition to_u64 (x : float) : option Z :=
  match Prim2SF x with
  | S754_zero _ => Some 0
  | S754_finite sign m e =>
      let t := if 0 <=? e then Z.shiftl (Z.pos m) e else Z.shiftr (Z.pos m) (- e) in
      if sign then (if t =? 0 then Some 0 else None)
      else if t <? 2 ^ 64 then Some t else None
  | _ => None
  end.

(** [std::clamp]. *)
Definition clamp (v lo hi : Z) : Z :=
  if v <? lo then lo else if hi <? v then hi else v.

(** The float literals [1.0f] and [0.05f], converted to double. *)
Definition one_f : float := 1%float.
Definition threshold_f : float := 0x1.99999ap-5%float.

Definition target : Z := 60.

(** The cells the loop reads: [exp_mean[i]] for [i] below the bound. *)
Definition ae_samples (stats : rkisp1_stat_buffer) : list Z :=
  map (fun i => wrap_u8 (nth i (exp_mean stats) 0)) (seq 0 RKISP1_CIF_ISP_AE_MEAN_MAX_V10).

(** The loop of [updateStatistics]: [value] and [num] after it. *)
Definition ae_accumulate (stats : rkisp1_stat_buffer) : Z * Z :=
  fold_left (fun acc x =>
               if x <=? 15 then acc
               else (wrap_u32 (acc.1 + x), wrap_u32 (acc.2 + 1)))
            (ae_samples stats) (0, 0).

(** [value /= num]: undefined for [num = 0]. *)
Definition ae_mean (stats : rkisp1_stat_buffer) : option Z :=
  let '(value, num) := ae_accumulate stats in
  if num =? 0 then None else Some (value / num).

Definition ae_factor (value : Z) : float :=
  PrimFloat.div (of_u32 target) (of_u32 value).

Definition ae_state (factor : float) : Z :=
  if PrimFloat.ltb (PrimFloat.abs (PrimFloat.sub factor one_f)) threshold_f then 2 else 1.

(** The first product computed on a frame of the cadence. *)
Definition ae_exposure (s : IPARkISP1) (factor : float) : float :=
  PrimFloat.div
    (PrimFloat.mul (PrimFloat.mul factor (of_u32 (exposure_ s))) (of_u32 (gain_ s)))
    (of_u32 (minGain_ s)).

(** The residual handed to the gain, once the new exposure is stored. *)
Definition ae_residual (s : IPARkISP1) (exposure : float) (newExposure : Z) : float :=
  PrimFloat.mul (PrimFloat.div exposure (of_u32 newExposure)) (of_u32 (minGain_ s)).

(** The body of [if (frame % 3 == 0)] up to the call of [setControls]. *)
Definition ae_update (s : IPARkISP1) (factor : float) : option IPARkISP1 :=
  let exposure := ae_exposure s factor in
  match to_u64 exposure with
  | None => None
  | Some e =>
      let newExposure := wrap_u32 (clamp e (minExposure_ s) (maxExposure_ s)) in
      match to_u64 (ae_residual s exposure newExposure) with
      | None => None
      | Some g =>
          let newGain := wrap_u32 (clamp g (minGain_ s) (maxGain_ s)) in
          Some {| buffersMemory_ := buffersMemory_ s; ctrls_ := ctrls_ s;
                  autoExposure_ := autoExposure_ s;
                  exposure_ := newExposure; minExposure_ := minExposure_ s;
                  maxExposure_ := maxExposure_ s;
                  gain_ := newGain; minGain_ := minGain_ s; maxGain_ := maxGain_ s |}
      end
  end.

(** [IPARkISP1::updateStatistics]; [None] when the behaviour is undefined
    (division by zero, unrepresentable conversion). *)
Definition updateStatistics (s : IPARkISP1) (frame : Z) (stats : rkisp1_stat_buffer)
    : option (IPARkISP1 * actions) :=
  if Z.land (meas_type stats) RKISP1_CIF_ISP_STAT_AUTOEXP =? 0
  then Some (s, metadataReady frame 0)
  else
    match ae_mean stats with
    | None => None
    | Some value =>
        let factor := ae_factor value in
        if frame mod 3 =? 0
        then
          match ae_update s factor with
          | None => None
          | Some s' =>
              Some (s', setControls s' (wrap_u32 (frame + 1))
                        ++ metadataReady frame (ae_state factor))
          end
        else Some (s, metadataReady frame (ae_state factor))
    end.

(** [IPARkISP1::queueRequest], on the parameters buffer [bufferId]. *)
Definition queueRequest (s : IPARkISP1) (frame bufferId : Z) (controls : ControlList)
    : IPARkISP1 * actions :=
  let contains := bool_decide (AeEnable ∈ controls.*1) in
  let enable := match ControlList_get controls AeEnable with CVBool b => b | _ => false end in
  let params :=
    if contains
    then {| module_en_update := RKISP1_CIF_ISP_MODULE_AEC;
            module_ens := if enable then RKISP1_CIF_ISP_MODULE_AEC else 0 |}
    else {| module_en_update := 0; module_ens := 0 |} in
  ({| buffersMemory_ := <[bufferId := ParamBuffer params]> (buffersMemory_ s);
      ctrls_ := ctrls_ s;
      autoExposure_ := if contains then enable else autoExposure_ s;
      exposure_ := exposure_ s; minExposure_ := minExposure_ s;
      maxExposure_ := maxExposure_ s;
      gain_ := gain_ s; minGain_ := minGain_ s; maxGain_ := maxGain_ s |},
   [(frame, {| a_op := ActionParamFilled; a_controls := [] |})]).

(** [IPARkISP1::processEvent]; [None] when the buffer is not mapped (null
    pointer) or does not hold what the event says. *)
Definition processEvent (s : IPARkISP1) (event : RkISP1Event)
    : option (IPARkISP1 * actions) :=
  match e_op event with
  | EventSignalStatBuffer =>
      match buffersMemory_ s !! e_bufferId event with
      | Some (StatBuffer stats) => updateStatistics s (e_frame event) stats
      | _ => None
      end
  | EventQueueRequest =>
      match buffersMemory_ s !! e_bufferId event with
      | Some _ => Some (queueRequest s (e_frame event) (e_bufferId event) (e_controls event))
      | None => None
      end
  | EventOther _ => Some (s, [])
  end.

(** *** Notions used to state the properties of the auto-exposure loop *)

(** The samples the loop keeps, and the sum of a list of samples. *)
Definition retained (stats : rkisp1_stat_buffer) : list Z :=
  filter (fun x => 15 < x) (ae_samples stats).

Definition total (l : list Z) : Z := foldr Z.add 0 l.

(** [|target / value - 1| < 0.05], over the rationals. *)
Definition within_tolerance (value : Z) : Prop :=
  Qlt (Qabs (Qminus (Qdiv (inject_Z target) (inject_Z value)) 1)) (5 # 100).

Definition within_toleranceb (value : Z) : bool :=
  negb (Qle_bool (5 # 100) (Qabs (Qminus (Qdiv (inject_Z target) (inject_Z value)) 1))).

(** The comparison made in double and the one over the rationals give the
    same answer for [value]. *)
Definition tolerance_agrees (value : Z) : bool :=
  Bool.eqb (ae_state (ae_factor value) =? 2) (within_toleranceb value).

(** The stored settings lie within the stored ranges. *)
Definition in_range (s : IPARkISP1) : Prop :=
  minExposure_ s <= exposure_ s <= maxExposure_ s /\
  minGain_ s <= gain_ s <= maxGain_ s.

(** The stored bounds are what [configure] can store (unsigned 32-bit,
    minima at least 1), and each setting lies within its range when the
    range is not empty. *)
Definition settings_inv (s : IPARkISP1) : Prop :=
  1 <= minExposure_ s /\ maxExposure_ s < 2 ^ 32 /\
  1 <= minGain_ s /\ maxGain_ s < 2 ^ 32 /\
  (minExposure_ s <= maxExposure_ s -> minExposure_ s <= exposure_ s <= maxExposure_ s) /\
  (minGain_ s <= maxGain_ s -> minGain_ s <= gain_ s <= maxGain_ s).

(** The action [metadataReady] emits for a non-zero [aeState]. *)
Definition metadata_action (frame : Z) (locked : bool) : Z * RkISP1Action :=
  (frame, {| a_op := ActionMetadata; a_controls := [(AeLocked, CVBool locked)] |}).


(** The states the module goes through after a successful [configure]. *)
Inductive reachable (entityControls : gmap Z ControlInfoMap) : IPARkISP1 -> Prop :=
| reach_configure s0 s :
    configure s0 entityControls = Returned 0 s ->
    reachable entityControls s
| reach_event s event s' acts :
    reachable entityControls s ->
    processEvent s event = Some (s', acts) ->
    reachable entityControls s'.

End RkISP1.

(** ** The IPU3 frame tracker (src/libcamera/pipeline/ipu3/frames.h) *)

Module IPU3.

(** Objects the tracker refers to by pointer are named by a handle. *)
Abbreviation Request := nat.
Abbreviation FrameBuffer := nat.

(** [IPU3Frames::Info]. *)
Record Info := {
  id : nat;
  request : Request;
  rawBuffer : FrameBuffer;
  paramBuffer : FrameBuffer;
  statBuffer : FrameBuffer;
  paramDequeued : bool;
  metadataProcessed : bool;
}.

(** The private members of [IPU3Frames]. *)
Record IPU3Frames := {
  availableParamBuffers_ : list FrameBuffer;
  availableStatBuffers_ : list FrameBuffer;
  frameInfo_ : gmap nat Info;
}.

(** Modelled from the spec: [IPU3Frames::tryComplete] (frames.cpp is not
    among the sources; frames.h only declares the function).  It "returns
    true iff the raw buffer has completed AND paramDequeued AND
    metadataProcessed are both set" and is "side-effect-free (the
    coordinator performs finalization separately)".  [completed] is the set
    of buffers the hardware has completed; the result pairs the returned
    boolean with the tracker as the call leaves it. *)
Definition tryComplete (completed : gset FrameBuffer) (frames : IPU3Frames) (info : Info)
    : bool * IPU3Frames :=
  (bool_decide (rawBuffer info ∈ completed)
   && paramDequeued info && metadataProcessed info, frames).

End IPU3.

(** ** The vimc pipeline handler (src/libcamera/pipeline/vimc/vimc.cpp) *)

Module Vimc.

(** A dequeued [FrameBuffer]: its own handle, the request it belongs to
    ([buffer->request()]) and [metadata().timestamp]. *)
Record FrameBuffer := {
  handle : nat;
  request : nat;
  timestamp : Z;
}.









(** *** Notions used to state the completion order *)




End Vimc.

(** ** Sample devices, lists and buffers *)

Module Samples.
Import V4L2.

Definition sample_ctrl (cid : Z) (t : v4l2_ctrl_type) (flags : Z) : v4l2_query_ext_ctrl :=
  {| q_id := cid; q_type := t; q_minimum := 0; q_maximum := 255;
     q_default_value := 0; q_flags := flags; q_elems := 1 |}.

(** A driver that limits integer values to 255, leaves byte arrays as
    they are, and answers every batch with the given failure status. *)
Definition limiting_reply (fails : bool) (err idx : Z) (request : list v4l2_ext_control)
    : ioctl_reply :=
  {| failed := fails; errno := err; error_idx := idx;
     written := fun j =>
       match request !! j with
       | Some c => {| w_value := Z.min (value c) 255;
                      w_value64 := Z.min (value64 c) 255;
                      w_payload := default [] (p_u8 c) |}
       | None => {| w_value := 0; w_value64 := 0; w_payload := [] |}
       end |}.

Definition sample_controls : list v4l2_query_ext_ctrl :=
  [ sample_ctrl 1 V4L2_CTRL_TYPE_INTEGER 0;
    sample_ctrl 2 V4L2_CTRL_TYPE_INTEGER 0;
    sample_ctrl 3 V4L2_CTRL_TYPE_INTEGER64 0;
    sample_ctrl 4 V4L2_CTRL_TYPE_U8 V4L2_CTRL_FLAG_HAS_PAYLOAD;
    sample_ctrl 5 V4L2_CTRL_TYPE_BOOLEAN 0;
    sample_ctrl 6 V4L2_CTRL_TYPE_INTEGER V4L2_CTRL_FLAG_READ_ONLY;
    sample_ctrl 7 V4L2_CTRL_TYPE_INTEGER V4L2_CTRL_FLAG_DISABLED ].

(** A device whose driver rejects every batch at index 2 (ERANGE). *)
Definition rejecting_at_2 : V4L2Device :=
  listControls (unopened {| enumerated := sample_controls;
                            s_ext_ctrls := limiting_reply true 34 2 |}).

(** A device whose driver refuses every batch as a whole (EACCES, with
    [error_idx] equal to the number of elements). *)
Definition refusing : V4L2Device :=
  listControls (unopened {| enumerated := sample_controls;
                            s_ext_ctrls := fun request =>
                              limiting_reply true 13 (Z.of_nat (length request)) request |}).

Definition five_entries : ControlList :=
  [ (1, CVInteger32 300); (2, CVInteger32 10); (3, CVInteger64 7);
    (4, CVByteArray [1; 2; 3]); (5, CVInteger32 1) ].

(** Four known ids and one the device does not have. *)
Definition one_unknown : ControlList :=
  [ (1, CVInteger32 300); (2, CVInteger32 10); (99, CVInteger32 0);
    (4, CVByteArray [1; 2; 3]); (5, CVInteger32 1) ].

(** A list naming the read-only control 6. *)
Definition with_read_only : ControlList :=
  [ (1, CVInteger32 300); (6, CVInteger32 10) ].


Import RkISP1.

Definition sample_info (lo hi : Z) : ControlInfo :=
  {| ci_min := CVInteger32 lo; ci_max := CVInteger32 hi; ci_def := CVInteger32 lo |}.

(** The controls of a sensor: exposure in [4, 1000], gain in [16, 255]. *)
Definition sensor_controls : ControlInfoMap :=
  <[V4L2_CID_EXPOSURE :=
      ({| cid_id := V4L2_CID_EXPOSURE; cid_type := ControlTypeInteger32 |},
       sample_info 4 1000)]>
  (<[V4L2_CID_ANALOGUE_GAIN :=
      ({| cid_id := V4L2_CID_ANALOGUE_GAIN; cid_type := ControlTypeInteger32 |},
       sample_info 16 255)]> ∅).

(** A sensor whose exposure control only takes the value 0. *)
Definition fixed_exposure_controls : ControlInfoMap :=
  <[V4L2_CID_EXPOSURE :=
      ({| cid_id := V4L2_CID_EXPOSURE; cid_type := ControlTypeInteger32 |},
       sample_info 0 0)]> sensor_controls.

(** Twenty regions at brightness 120, five below the floor. *)
Definition bright_stats : rkisp1_stat_buffer :=
  {| meas_type := RKISP1_CIF_ISP_STAT_AUTOEXP;
     exp_mean := replicate 20 120 ++ replicate 5 10 |}.

(** Every region at or below the floor. *)
Definition dark_stats : rkisp1_stat_buffer :=
  {| meas_type := RKISP1_CIF_ISP_STAT_AUTOEXP;
     exp_mean := replicate 24 10 ++ [15] |}.

(** The module before [configure], with [bright_stats] mapped as buffer
    1 and [dark_stats] as buffer 2. *)
Definition unconfigured : IPARkISP1 :=
  {| buffersMemory_ := <[1 := StatBuffer bright_stats]> (<[2 := StatBuffer dark_stats]> ∅);
     ctrls_ := ∅; autoExposure_ := false;
     exposure_ := 0; minExposure_ := 0; maxExposure_ := 0;
     gain_ := 0; minGain_ := 0; maxGain_ := 0 |}.

(** The module after [configure] with the given controls. *)
Definition configured_with (entityControls : gmap Z ControlInfoMap) : IPARkISP1 :=
  match configure unconfigured entityControls with
  | Returned _ s => s
  | _ => unconfigured
  end.

Definition stat_event (frame bufferId : Z) : RkISP1Event :=
  {| e_op := EventSignalStatBuffer; e_frame := frame; e_bufferId := bufferId;
     e_controls := [] |}.


(** The module after one more event. *)
Definition after_event (s : IPARkISP1) (event : RkISP1Event) : IPARkISP1 :=
  match processEvent s event with
  | Some (s', _) => s'
  | None => s
  end.




(** A frame of the IPU3 tracker and a tracker holding it. *)
Definition sample_info_record (pd mp : bool) : IPU3.Info :=
  {| IPU3.id := 7; IPU3.request := 1; IPU3.rawBuffer := 100;
     IPU3.paramBuffer := 200; IPU3.statBuffer := 300;
     IPU3.paramDequeued := pd; IPU3.metadataProcessed := mp |}.

Definition sample_frames : IPU3.IPU3Frames :=
  {| IPU3.availableParamBuffers_ := [201%nat; 202%nat];
     IPU3.availableStatBuffers_ := [301%nat; 302%nat];
     IPU3.frameInfo_ := {[ 7%nat := sample_info_record true true ]} |}.

End Samples.

(** ** Further notions for V4L2 devices *)

Module V4L2_notions.
Import V4L2.

(** The type tag a value carries. *)
Definition value_type (v : ControlValue) : ControlType :=
  match v with
  | CVNone => ControlTypeNone
  | CVBool _ => ControlTypeBool
  | CVByte _ | CVByteArray _ => ControlTypeByte
  | CVInteger32 _ => ControlTypeInteger32
  | CVInteger64 _ => ControlTypeInteger64
  end.

(** A control that [listControls] keeps: not a class, not disabled, of a
    type its switch accepts. *)
Definition kept (ctrl : v4l2_query_ext_ctrl) : Prop :=
  is_ctrl_class (q_type ctrl) = false /\
  Z.land (q_flags ctrl) V4L2_CTRL_FLAG_DISABLED = 0 /\
  listed_type (q_type ctrl) = true.

(** The control the loop of [listControls] lists under id [k] out of
    the controls seen: the first that it keeps. *)
Definition listed (seen : list v4l2_query_ext_ctrl) (k : Z) : option v4l2_query_ext_ctrl :=
  head (filter (fun q => kept q /\ q_id q = k) seen).

(** What the loop of [listControls] has in its two maps after a prefix
    of the enumeration, when [controlInfo_] held [before] at the start:
    the local map has the controls listed, [controlInfo_] what it held
    and, under the other ids, the controls listed. *)
Definition listing_inv (before : gmap Z v4l2_query_ext_ctrl)
    (seen : list v4l2_query_ext_ctrl)
    (acc : gmap Z v4l2_query_ext_ctrl * ControlInfoMap) : Prop :=
  forall k,
    acc.2 !! k = (fun q => (v4l2ControlId q, v4l2ControlInfo q)) <$> listed seen k /\
    acc.1 !! k = match before !! k with
                 | Some old => Some old
                 | None => listed seen k
                 end.

(** The two maps of a device describe the same controls: every control
    of [controls_] has its query structure in [controlInfo_] under the
    same id, and its [ControlInfo] is the one derived from it. *)
Definition in_sync (dev : V4L2Device) : Prop :=
  forall k ctrlId info,
    controls_ dev !! k = Some (ctrlId, info) ->
    cid_id ctrlId = k /\
    exists q, controlInfo_ dev !! k = Some q /\ info = v4l2ControlInfo q.

(** A device whose driver accepts every batch, limiting integers to 255. *)
Definition accepting : V4L2Device :=
  listControls (unopened {| enumerated := Samples.sample_controls;
                            s_ext_ctrls := Samples.limiting_reply false 0 0 |}).

(** The driver of [accepting] after a change of mode: control 1 now
    ranges up to 15, and control 2 is gone. *)
Definition changed_driver : Driver :=
  {| enumerated :=
       [ {| q_id := 1; q_type := V4L2_CTRL_TYPE_INTEGER; q_minimum := 0; q_maximum := 15;
            q_default_value := 0; q_flags := 0; q_elems := 1 |};
         Samples.sample_ctrl 3 V4L2_CTRL_TYPE_INTEGER64 0 ];
     s_ext_ctrls := Samples.limiting_reply false 0 0 |}.

(** The object of [accepting] after [close], which keeps the two maps,
    on the changed driver. *)
Definition closed : V4L2Device :=
  {| driver := changed_driver;
     controlInfo_ := controlInfo_ accepting;
     controls_ := controls_ accepting |}.

End V4L2_notions.

(** ** More of [V4L2Device] (src/libcamera/v4l2_device.cpp) *)

Module V4L2_more.
Import V4L2.

(** How [getControls] ends: with the list it returns and the batches it
    handed to the driver; on the failed ASSERT of [updateControls]; or on
    a lookup [controlInfo_[id]] of an id that [controlInfo_] lacks, which
    would add an entry to the map and is left out of the model. *)
Inductive get_outcome :=
| GetReturned (ctrls : ControlList) (io : list (list v4l2_ext_control))
| GetAssertFailed
| GetNotCovered.

(** The first loop of [getControls]: [None] is the early [return {}]. *)
Fixpoint get_collect (controls_ : ControlInfoMap) (ids : list Z) (ctrls : ControlList)
    : option ControlList :=
  match ids with
  | [] => Some ctrls
  | cid :: rest =>
      match controls_ !! cid with
      | None => None
      | Some _ => get_collect controls_ rest (ControlList_set ctrls cid CVNone)
      end
  end.

(** What the body of the second loop of [getControls] does with one
    entry: the entry as it leaves it (a payload control gets storage of
    [elems] bytes, whose content [reserved] stands for) and the element
    it fills in. *)
Inductive get_prepared :=
| Prepared (entry : Z * ControlValue) (v4l2Ctrl : v4l2_ext_control)
| UnsupportedPayload
| MissingInfo.

Definition get_prepare (controlInfo_ : gmap Z v4l2_query_ext_ctrl)
    (reserved : Z -> list Z) (entry : Z * ControlValue) : get_prepared :=
  match controlInfo_ !! entry.1 with
  | None => MissingInfo
  | Some info =>
      if Z.land (q_flags info) V4L2_CTRL_FLAG_HAS_PAYLOAD =? 0
      then Prepared entry
             {| id := entry.1; size := 0; value := 0; value64 := 0; p_u8 := None |}
      else
        match q_type info with
        | V4L2_CTRL_TYPE_U8 =>
            let bytes := reserved (q_elems info) in
            Prepared (entry.1, CVByteArray bytes)
              {| id := entry.1; size := Z.of_nat (length bytes);
                 value := 0; value64 := 0; p_u8 := Some bytes |}
        | _ => UnsupportedPayload
        end
  end.

(** The second loop of [getControls], over the entries of the list. *)
Fixpoint get_fill (controlInfo_ : gmap Z v4l2_query_ext_ctrl) (reserved : Z -> list Z)
    (ctrls : ControlList) : get_prepared + (ControlList * list v4l2_ext_control) :=
  match ctrls with
  | [] => inr ([], [])
  | entry :: rest =>
      match get_prepare controlInfo_ reserved entry with
      | Prepared entry' c =>
          match get_fill controlInfo_ reserved rest with
          | inr (entries, cs) => inr (entry' :: entries, c :: cs)
          | inl stop => inl stop
          end
      | stop => inl stop
      end
  end.

(** The element a vector is created with and memset leaves. *)
Definition zeroed : v4l2_ext_control :=
  {| id := 0; size := 0; value := 0; value64 := 0; p_u8 := None |}.

(** [V4L2Device::getControls].  [g_ext_ctrls] is the driver's answer to
    VIDIOC_G_EXT_CTRLS.  The first loop puts the ids into the list in the
    order requested; the second loop and [updateControls] walk the list
    in the container's own order, which [walk] gives for the entries put
    in; the list returned is in that order too.  The vector has one
    element per requested id; the second loop fills one per entry of the
    list, so that a repeated id leaves zeroed elements at the end. *)
Definition getControls (dev : V4L2Device)
    (g_ext_ctrls : list v4l2_ext_control -> ioctl_reply) (reserved : Z -> list Z)
    (walk : ControlList -> ControlList) (ids : list Z) : get_outcome :=
  match ids with
  | [] => GetReturned [] []
  | _ =>
      match walk <$> get_collect (controls_ dev) ids [] with
      | None => GetReturned [] []
      | Some ctrls =>
          match get_fill (controlInfo_ dev) reserved ctrls with
          | inl MissingInfo => GetNotCovered
          | inl _ => GetReturned [] []
          | inr (ctrls0, filled) =>
              let v4l2Ctrls :=
                filled ++ replicate (length ids - length ctrls)%nat zeroed in
              let reply := g_ext_ctrls v4l2Ctrls in
              let io := [v4l2Ctrls] in
              let ctrls1 := shared_storage reply v4l2Ctrls ctrls0 in
              let v4l2Ctrls1 := after_ioctl reply v4l2Ctrls in
              let ret := ioctl_ret reply in
              let finish vs :=
                match updateControls (controls_ dev) ctrls1 vs with
                | Some ctrls2 => GetReturned ctrls2 io
                | None => GetAssertFailed
                end in
              if decide (ret = 0) then finish v4l2Ctrls1
              else
                let errorIdx := error_idx reply in
                if decide (errorIdx = 0 ∨ errorIdx >= Z.of_nat (length v4l2Ctrls1))
                then GetReturned [] io
                else finish (take (Z.to_nat errorIdx) v4l2Ctrls1)
          end
      end
  end.

(** One round of the loop of [updateControlInfo], for the control stored
    under [k]; [query] is the driver's answer to VIDIOC_QUERY_EXT_CTRL
    for the structure it is handed ([None] when the ioctl fails).  The
    accumulator holds [controlInfo_] and the controls refreshed so far;
    [None] stands for a lookup [controlInfo_[id]] of an id the map lacks. *)
Definition updateControlInfo_step
    (query : v4l2_query_ext_ctrl -> option v4l2_query_ext_ctrl)
    (k : Z) (control : ControlId * ControlInfo)
    (acc : option (gmap Z v4l2_query_ext_ctrl * ControlInfoMap))
    : option (gmap Z v4l2_query_ext_ctrl * ControlInfoMap) :=
  match acc with
  | None => None
  | Some (controlInfo, refreshed) =>
      let cid := cid_id control.1 in
      match controlInfo !! cid with
      | None => None
      | Some ctrl =>
          match query ctrl with
          | None => Some (controlInfo, <[k := control]> refreshed)
          | Some ctrl' =>
              Some (<[cid := ctrl']> controlInfo,
                    <[k := (control.1, v4l2ControlInfo ctrl')]> refreshed)
          end
      end
  end.

(** [V4L2Device::updateControlInfo].  The source walks an unordered map;
    the model walks the controls in the order of [map_fold]. *)
Definition updateControlInfo (dev : V4L2Device)
    (query : v4l2_query_ext_ctrl -> option v4l2_query_ext_ctrl) : option V4L2Device :=
  match map_fold (updateControlInfo_step query) (Some (controlInfo_ dev, ∅)) (controls_ dev) with
  | None => None
  | Some (controlInfo, refreshed) =>
      Some {| driver := driver dev; controlInfo_ := controlInfo; controls_ := refreshed |}
  end.

(** *** Notions used to state the properties of [getControls] *)

(** The device describes control [cid] in both maps, and as a byte array
    exactly when the driver flags it as having a payload (which is then
    of type U8). *)
Definition payload_described (dev : V4L2Device) (cid : Z) : Prop :=
  exists ctrlId info q,
    controls_ dev !! cid = Some (ctrlId, info) /\
    controlInfo_ dev !! cid = Some q /\
    (Z.land (q_flags q) V4L2_CTRL_FLAG_HAS_PAYLOAD = 0 ->
     cid_type ctrlId <> ControlTypeByte) /\
    (Z.land (q_flags q) V4L2_CTRL_FLAG_HAS_PAYLOAD <> 0 ->
     q_type q = V4L2_CTRL_TYPE_U8 /\ cid_type ctrlId = ControlTypeByte).

(** The list [getControls] starts from: one empty value per id. *)
Definition unset (ids : list Z) : ControlList := (fun cid => (cid, CVNone)) <$> ids.

(** The ids in the order in which the list holding them is walked. *)
Definition walked (walk : ControlList -> ControlList) (ids : list Z) : list Z :=
  (walk (unset ids)).*1.

(** What a refresh leaves for a control whose stored query structure is
    [q]: the structure and the [ControlInfo] after the query. *)
Definition refreshed_query (query : v4l2_query_ext_ctrl -> option v4l2_query_ext_ctrl)
    (q : v4l2_query_ext_ctrl) : v4l2_query_ext_ctrl :=
  default q (query q).

Definition refreshed_control (query : v4l2_query_ext_ctrl -> option v4l2_query_ext_ctrl)
    (stored : option v4l2_query_ext_ctrl) (control : ControlId * ControlInfo)
    : ControlId * ControlInfo :=
  match stored ≫= query with
  | Some q' => (control.1, v4l2ControlInfo q')
  | None => control
  end.

(** The batch [getControls] hands to the driver for ids that pass its
    checks. *)
Definition get_batch (dev : V4L2Device) (reserved : Z -> list Z)
    (walk : ControlList -> ControlList) (ids : list Z) : list v4l2_ext_control :=
  match get_fill (controlInfo_ dev) reserved (walk (unset ids)) with
  | inr (_, filled) => filled
  | inl _ => []
  end.

(** A driver for VIDIOC_G_EXT_CTRLS that reports 7 for every integer and
    the bytes 9, 9 for every array, with the given failure status. *)
Definition reading_reply (fails : bool) (err idx : Z) (request : list v4l2_ext_control)
    : ioctl_reply :=
  {| failed := fails; errno := err; error_idx := idx;
     written := fun _ => {| w_value := 7; w_value64 := 7; w_payload := [9; 9] |} |}.

End V4L2_more.

(** ** The file descriptor and the frame start events of [V4L2Device] *)

Module V4L2_node.

Definition EBUSY : Z := 16.

(** Event type of linux/videodev2.h. *)
Definition V4L2_EVENT_FRAME_SYNC : Z := 4.

(** The members of [V4L2Device] behind [open], [close] and the frame
    start events.  [fdEventNotifier_] is [None] when the pointer does not
    designate a notifier (before [setFd], after [close]) and otherwise
    holds whether the notifier is enabled. *)
Record node := {
  fd_ : Z;
  fdEventNotifier_ : option bool;
  frameStartEnabled_ : bool;
}.

(** The constructor. *)
Definition constructed : node :=
  {| fd_ := -1; fdEventNotifier_ := None; frameStartEnabled_ := false |}.

(** [isOpen()]: the file descriptor is not -1. *)
Definition isOpen (d : node) : bool := negb (fd_ d =? -1).

(** [V4L2Device::setFd]. *)
Definition setFd (d : node) (fd : Z) : Z * node :=
  if isOpen d then (- EBUSY, d)
  else (0, {| fd_ := fd; fdEventNotifier_ := Some false;
              frameStartEnabled_ := frameStartEnabled_ d |}).

(** [V4L2Device::open]; [sys] is what the openat system call returns and
    [err] the errno it leaves, [dev] the maps of the object.  The third
    component is the maps as [listControls] leaves them, when the call
    gets that far. *)
Definition open (d : node) (dev : V4L2.V4L2Device) (sys err : Z)
    : Z * node * option V4L2.V4L2Device :=
  if isOpen d then (- EBUSY, d, None)
  else if sys <? 0 then (- err, d, None)
  else (0, (setFd d sys).2, Some (V4L2.listControls dev)).

(** [V4L2Device::close]. *)
Definition close (d : node) : node :=
  if isOpen d
  then {| fd_ := -1; fdEventNotifier_ := None; frameStartEnabled_ := frameStartEnabled_ d |}
  else d.

(** The requests [setFrameStartEnabled] issues. *)
Inductive event_request :=
| VIDIOC_SUBSCRIBE_EVENT
| VIDIOC_UNSUBSCRIBE_EVENT.

(** [V4L2Device::setFrameStartEnabled]; [ioctl_ret] is what
    [V4L2Device::ioctl] returns for the request (0 or a negative error).
    [None] when the notifier is used though there is none. *)
Definition setFrameStartEnabled (d : node) (enable : bool) (ioctl_ret : Z)
    : option (Z * node * list event_request) :=
  if Bool.eqb (frameStartEnabled_ d) enable then Some (0, d, [])
  else
    let request := if enable then VIDIOC_SUBSCRIBE_EVENT else VIDIOC_UNSUBSCRIBE_EVENT in
    if enable && negb (ioctl_ret =? 0) then Some (ioctl_ret, d, [request])
    else
      match fdEventNotifier_ d with
      | None => None
      | Some _ =>
          Some (ioctl_ret,
                {| fd_ := fd_ d; fdEventNotifier_ := Some enable;
                   frameStartEnabled_ := enable |},
                [request])
      end.

(** [V4L2Device::eventAvailable], run when the enabled notifier fires;
    [dq_ret] is what the ioctl VIDIOC_DQEVENT returns, [event_type] and
    [sequence] what it stored in the event.  The second component is the
    sequence number [frameStart] is emitted with, if it is. *)
Definition eventAvailable (d : node) (dq_ret event_type sequence : Z)
    : node * option Z :=
  let disabled := {| fd_ := fd_ d; fdEventNotifier_ := Some false;
                     frameStartEnabled_ := frameStartEnabled_ d |} in
  if dq_ret <? 0 then (disabled, None)
  else if negb (event_type =? V4L2_EVENT_FRAME_SYNC) then (disabled, None)
  else (d, Some sequence).

(** The notifier is enabled exactly when frame start events are. *)
Definition armed (d : node) : Prop :=
  fdEventNotifier_ d = Some (frameStartEnabled_ d).

End V4L2_node.

(** ** Further notions for the RkISP1 module *)

Module RkISP1_notions.
Import RkISP1.

(** The module with its auto-exposure flag replaced. *)
Definition with_autoExposure (s : IPARkISP1) (enabled : bool) : IPARkISP1 :=
  {| buffersMemory_ := buffersMemory_ s; ctrls_ := ctrls_ s;
     autoExposure_ := enabled;
     exposure_ := exposure_ s; minExposure_ := minExposure_ s;
     maxExposure_ := maxExposure_ s;
     gain_ := gain_ s; minGain_ := minGain_ s; maxGain_ := maxGain_ s |}.

(** The comparison made in double declares convergence for [value]
    exactly when [value] lies between 58 and 63. *)
Definition band_agrees (value : Z) : bool :=
  Bool.eqb (ae_state (ae_factor value) =? 2) ((58 <=? value) && (value <=? 63)).

(** The sensor settings of the module: everything but the mapped buffers,
    the control map and the auto-exposure flag. *)
Definition settings (s : IPARkISP1) : Z * Z * Z * Z * Z * Z :=
  (exposure_ s, minExposure_ s, maxExposure_ s, gain_ s, minGain_ s, maxGain_ s).

(** The controls-to-apply action for the stored settings of [s]. *)
Definition set_action (s : IPARkISP1) (frame : Z) : Z * RkISP1Action :=
  (frame, {| a_op := ActionV4L2Set;
             a_controls := [ (V4L2_CID_EXPOSURE, CVInteger32 (wrap_s32 (exposure_ s)));
                             (V4L2_CID_ANALOGUE_GAIN, CVInteger32 (wrap_s32 (gain_ s))) ] |}).

End RkISP1_notions.

(** ** The IMX477 camera helper (cam_helper_imx477.cpp) *)

Module Imx477.
Import RkISP1.

(** [static_cast<uint32_t>(x)]: the value truncated toward zero, [None]
    when it is not representable. *)
Definition to_u32 (x : float) : option Z :=
  match to_u64 x with
  | Some t => if t <? 2 ^ 32 then Some t else None
  | None => None
  end.

(** [CamHelperImx477::GainCode]. *)
Definition GainCode (gain : float) : option Z :=
  to_u32 (PrimFloat.sub (of_u32 1024) (PrimFloat.div (of_u32 1024) gain)).

(** [CamHelperImx477::Gain]; the subtraction is made on 32-bit unsigned
    integers. *)
Definition Gain (gain_code : Z) : float :=
  PrimFloat.div 1024%float (of_u32 (wrap_u32 (1024 - gain_code))).

(** [CamHelperImx477::GetDelays]: exposure, gain and vblank delays. *)
Definition GetDelays : Z * Z * Z := (2, 2, 3).

(** The round trip of a gain code through [Gain] and [GainCode] gives
    the code back or the code below it. *)
Definition code_round_trip (gain_code : Z) : bool :=
  match GainCode (Gain gain_code) with
  | Some c => (c =? gain_code) || (c =? gain_code - 1)
  | None => false
  end.

(** [MdParser::Status]. *)
Inductive Status := OK | NOTFOUND | ERROR.

Definition EXPHI_REG : Z := 0x0202.
Definition EXPLO_REG : Z := 0x0203.
Definition GAINHI_REG : Z := 0x0204.
Definition GAINLO_REG : Z := 0x0205.

Definition EXPHI_INDEX : nat := 0.
Definition EXPLO_INDEX : nat := 1.
Definition GAINHI_INDEX : nat := 2.
Definition GAINLO_INDEX : nat := 3.

(** An array of four [int]. *)
Record int4 := { i0 : Z; i1 : Z; i2 : Z; i3 : Z }.

Definition get4 (a : int4) (i : nat) : Z :=
  match i with
  | O => i0 a
  | 1%nat => i1 a
  | 2%nat => i2 a
  | _ => i3 a
  end.

Definition set4 (a : int4) (i : nat) (v : Z) : int4 :=
  match i with
  | O => {| i0 := v; i1 := i1 a; i2 := i2 a; i3 := i3 a |}
  | 1%nat => {| i0 := i0 a; i1 := v; i2 := i2 a; i3 := i3 a |}
  | 2%nat => {| i0 := i0 a; i1 := i1 a; i2 := v; i3 := i3 a |}
  | _ => {| i0 := i0 a; i1 := i1 a; i2 := i2 a; i3 := v |}
  end.

Definition all_unset : int4 := {| i0 := -1; i1 := -1; i2 := -1; i3 := -1 |}.

(** [MdParserImx477], with the members of its base class that [Parse]
    uses. *)
Record MdParserImx477 := {
  reset_ : bool;
  bits_per_pixel_ : Z;
  num_lines_ : Z;
  buffer_size_bytes_ : Z;
  reg_offsets_ : int4;
  reg_values_ : int4;
}.

(** [buffer[offset]]: a byte of the span; [None] outside it. *)
Definition byte_at (buffer : list Z) (offset : Z) : option Z :=
  if offset <? 0 then None
  else wrap_u8 <$> buffer !! Z.to_nat offset.

(** The loop of [Parse] that reads the register values, from index [i]
    on. *)
Fixpoint read_values (buffer : list Z) (offsets values : int4) (i n : nat) : option int4 :=
  match n with
  | O => Some values
  | S n' =>
      if get4 offsets i =? -1 then read_values buffer offsets values (S i) n'
      else
        match byte_at buffer (get4 offsets i) with
        | None => None
        | Some b => read_values buffer offsets (set4 values i b) (S i) n'
        end
  end.

(** [MdParserImx477::Parse].  [findRegs] is the search of the base class
    (md_parser_smia.cpp is not among the sources): handed the buffer, the
    register addresses and the offsets array, it returns its status as an
    integer and the offsets array as it leaves it.  [None] when an assert
    fails or a read falls outside the buffer. *)
Definition Parse (findRegs : list Z -> list Z -> int4 -> Z * int4)
    (p : MdParserImx477) (buffer : list Z) : option (Status * MdParserImx477) :=
  let with_offsets offsets :=
    {| reset_ := reset_ p; bits_per_pixel_ := bits_per_pixel_ p;
       num_lines_ := num_lines_ p; buffer_size_bytes_ := buffer_size_bytes_ p;
       reg_offsets_ := offsets; reg_values_ := reg_values_ p |} in
  let finish try_again offsets :=
    match read_values buffer offsets (reg_values_ p) 0 4 with
    | None => None
    | Some values =>
        Some (OK, {| reset_ := try_again; bits_per_pixel_ := bits_per_pixel_ p;
                     num_lines_ := num_lines_ p;
                     buffer_size_bytes_ := buffer_size_bytes_ p;
                     reg_offsets_ := offsets; reg_values_ := values |})
    end in
  if reset_ p then
    if (bits_per_pixel_ p =? 0) || ((num_lines_ p =? 0) && (buffer_size_bytes_ p =? 0))
    then None
    else
      let '(ret, offsets) :=
        findRegs buffer [EXPHI_REG; EXPLO_REG; GAINHI_REG; GAINLO_REG] all_unset in
      if 0 <? ret then finish true offsets
      else if ret <? 0 then Some (ERROR, with_offsets offsets)
      else finish false offsets
  else finish false (reg_offsets_ p).

(** [MdParserImx477::GetExposureLines] and [GetGainCode]: the status and
    the value stored through the reference when the status is [OK]. *)
Definition GetExposureLines (p : MdParserImx477) : Status * option Z :=
  if (get4 (reg_offsets_ p) EXPHI_INDEX =? -1) || (get4 (reg_offsets_ p) EXPLO_INDEX =? -1)
  then (NOTFOUND, None)
  else (OK, Some (wrap_u32 (get4 (reg_values_ p) EXPHI_INDEX * 256
                            + get4 (reg_values_ p) EXPLO_INDEX))).

Definition GetGainCode (p : MdParserImx477) : Status * option Z :=
  if (get4 (reg_offsets_ p) GAINHI_INDEX =? -1) || (get4 (reg_offsets_ p) GAINLO_INDEX =? -1)
  then (NOTFOUND, None)
  else (OK, Some (wrap_u32 (get4 (reg_values_ p) GAINHI_INDEX * 256
                            + get4 (reg_values_ p) GAINLO_INDEX))).

(** A search that finds the four registers at offsets 4, 6, 8 and 10. *)
Definition sample_findRegs (buffer regs : list Z) (offsets : int4) : Z * int4 :=
  (0, {| i0 := 4; i1 := 6; i2 := 8; i3 := 10 |}).

Definition sample_parser : MdParserImx477 :=
  {| reset_ := true; bits_per_pixel_ := 10; num_lines_ := 2; buffer_size_bytes_ := 0;
     reg_offsets_ := all_unset; reg_values_ := {| i0 := 0; i1 := 0; i2 := 0; i3 := 0 |} |}.

Definition sample_metadata : list Z := [10; 2; 2; 85; 3; 85; 232; 85; 1; 85; 44; 85].

(** The parser after [sample_metadata] has been parsed. *)
Definition sample_parsed : MdParserImx477 :=
  {| reset_ := false; bits_per_pixel_ := 10; num_lines_ := 2; buffer_size_bytes_ := 0;
     reg_offsets_ := {| i0 := 4; i1 := 6; i2 := 8; i3 := 10 |};
     reg_values_ := {| i0 := 3; i1 := 232; i2 := 1; i3 := 44 |} |}.

End Imx477.

(** ** [IPARkISP1]: mapping and unmapping buffers *)

Module RkISP1_buffers.

(** [FrameBuffer::Plane]: the file descriptor and the length. *)
Record Plane := { plane_fd : Z; plane_length : Z }.

(** [IPABuffer]. *)
Record IPABuffer := { b_id : Z; b_planes : list Plane }.

(** The calls made to the system, in order: [Mmap] with the length and
    file descriptor passed and the address returned, [Munmap] with the
    address and length passed. *)
Inductive mem_call :=
| Mmap (len fd addr : Z)
| Munmap (addr len : Z).

Definition MAP_FAILED : Z := -1.

(** The two maps of [IPARkISP1]: the planes each [FrameBuffer] was built
    from, and the address of its mapping (0 for a null pointer). *)
Record buffer_maps := {
  buffers_ : gmap Z (list Plane);
  buffersMemory_ : gmap Z Z;
}.

Definition no_buffers : buffer_maps := {| buffers_ := ∅; buffersMemory_ := ∅ |}.

(** One round of the loop of [IPARkISP1::mapBuffers].  [mmap] stands for
    the system call: handed the calls made so far, the length and the
    file descriptor, it gives the address returned.  [None] when
    [planes()[0]] is read from a buffer without planes, and when the
    mapping fails: the message is logged as Fatal, which ends the
    process. *)
Definition mapBuffers_step (mmap : list mem_call -> Z -> Z -> Z)
    (m : buffer_maps) (io : list mem_call) (buffer : IPABuffer)
    : option (buffer_maps * list mem_call) :=
  let bufs := V4L2.emplace (b_id buffer) (b_planes buffer) (buffers_ m) in
  match bufs !! b_id buffer with
  | None => None
  | Some planes =>
      match head planes with
      | None => None
      | Some p0 =>
          let addr := mmap io (plane_length p0) (plane_fd p0) in
          if addr =? MAP_FAILED then None
          else Some ({| buffers_ := bufs;
                        buffersMemory_ := <[b_id buffer := addr]> (buffersMemory_ m) |},
                     io ++ [Mmap (plane_length p0) (plane_fd p0) addr])
      end
  end.

(** [IPARkISP1::mapBuffers]. *)
Fixpoint mapBuffers (mmap : list mem_call -> Z -> Z -> Z)
    (m : buffer_maps) (io : list mem_call) (buffers : list IPABuffer)
    : option (buffer_maps * list mem_call) :=
  match buffers with
  | [] => Some (m, io)
  | buffer :: rest =>
      match mapBuffers_step mmap m io buffer with
      | None => None
      | Some (m', io') => mapBuffers mmap m' io' rest
      end
  end.

(** One round of the loop of [IPARkISP1::unmapBuffers];
    [buffersMemory_[id]] is a null pointer when the map has no entry. *)
Definition unmapBuffers_step (m : buffer_maps) (io : list mem_call) (id : Z)
    : option (buffer_maps * list mem_call) :=
  match buffers_ m !! id with
  | None => Some (m, io)
  | Some planes =>
      match head planes with
      | None => None
      | Some p0 =>
          let addr := default 0 (buffersMemory_ m !! id) in
          Some ({| buffers_ := delete id (buffers_ m);
                   buffersMemory_ := delete id (buffersMemory_ m) |},
                io ++ [Munmap addr (plane_length p0)])
      end
  end.

(** [IPARkISP1::unmapBuffers]. *)
Fixpoint unmapBuffers (m : buffer_maps) (io : list mem_call) (ids : list Z)
    : option (buffer_maps * list mem_call) :=
  match ids with
  | [] => Some (m, io)
  | id :: rest =>
      match unmapBuffers_step m io id with
      | None => None
      | Some (m', io') => unmapBuffers m' io' rest
      end
  end.

(** *** Notions used to state the properties *)

(** The two maps have the same ids, and every buffer has a plane. *)
Definition consistent (m : buffer_maps) : Prop :=
  forall k,
    (is_Some (buffers_ m !! k) <-> is_Some (buffersMemory_ m !! k)) /\
    buffers_ m !! k <> Some [].

(** The second call unmaps what the first mapped. *)
Definition undoes (c1 c2 : mem_call) : Prop :=
  match c1, c2 with
  | Mmap len _ addr, Munmap addr' len' => addr = addr' /\ len = len'
  | _, _ => False
  end.

(** The addresses passed to [munmap] in a list of calls. *)
Definition unmapped (io : list mem_call) : list Z :=
  omap (fun c => match c with Munmap addr _ => Some addr | Mmap _ _ _ => None end) io.

(** A system that hands out a new address at each call. *)
Definition sample_mmap (io : list mem_call) (len fd : Z) : Z :=
  4096 * (1 + Z.of_nat (length io)).

Definition sample_buffers : list IPABuffer :=
  [ {| b_id := 1; b_planes := [ {| plane_fd := 10; plane_length := 4096 |} ] |};
    {| b_id := 2; b_planes := [ {| plane_fd := 11; plane_length := 8192 |} ] |} ].

End RkISP1_buffers.

(** ** The vimc pipeline: configurations *)

Module Vimc_config.

(** [CameraConfiguration::Status]. *)
Inductive Status := Valid | Adjusted | Invalid.

(** [Transform::Identity]; a transform is kept as the value of its
    enumerator. *)
Definition Identity : Z := 0.

(** The pixel formats and media bus codes the sources name (values of
    drm_fourcc.h, media-bus-format.h and videodev2.h). *)
Definition RGB888 : Z := 0x34324752.
Definition BGR888 : Z := 0x34324742.
Definition MEDIA_BUS_FMT_BGR888_1X24 : Z := 0x1013.
Definition MEDIA_BUS_FMT_RGB888_1X24 : Z := 0x100a.
Definition MEDIA_BUS_FMT_SGRBG8_1X8 : Z := 0x3002.
Definition V4L2_PIX_FMT_SGRBG8 : Z := 0x47425247.
Definition V4L2_SEL_TGT_CROP : Z := 0.

Definition KERNEL_VERSION (a b c : Z) : Z := Z.shiftl a 16 + Z.shiftl b 8 + c.

(** The static map [pixelformats], in the order of its keys. *)
Definition pixelformats : list (Z * Z) :=
  [ (BGR888, MEDIA_BUS_FMT_RGB888_1X24); (RGB888, MEDIA_BUS_FMT_BGR888_1X24) ].

(** [pixelformats.find(format)]. *)
Definition pixelformats_find (format : Z) : option Z :=
  snd <$> find (fun entry => entry.1 =? format) pixelformats.

Record Size := { width : Z; height : Z }.

Definition Size_eqb (a b : Size) : bool :=
  (width a =? width b) && (height a =? height b).

Record SizeRange := { sr_min : Size; sr_max : Size }.

Record Rectangle := { r_x : Z; r_y : Z; r_size : Size }.

(** [StreamConfiguration]; [formats] is the map handed to its
    constructor, [stream] tells whether [setStream] was called. *)
Record StreamConfiguration := {
  pixelFormat : Z;
  size : Size;
  stride : Z;
  frameSize : Z;
  bufferCount : Z;
  stream : bool;
  formats : gmap Z (list SizeRange);
}.

(** [CameraConfiguration]: the transform and the vector [config_]. *)
Record CameraConfiguration := {
  transform : Z;
  config_ : list StreamConfiguration;
}.

(** [V4L2DeviceFormat], with [planes[0].bpl] and [planes[0].size]. *)
Record V4L2DeviceFormat := {
  fourcc : Z;
  f_size : Size;
  bpl : Z;
  plane_size : Z;
}.

Record V4L2SubdeviceFormat := {
  mbus_code : Z;
  sf_size : Size;
}.

(** The calls [configure] makes, with the structure handed in. *)
Inductive dev_call :=
| SensorSetFormat (f : V4L2SubdeviceFormat)
| DebayerSetFormat (pad : Z) (f : V4L2SubdeviceFormat)
| ScalerSetFormat (pad : Z) (f : V4L2SubdeviceFormat)
| ScalerSetSelection (pad target : Z) (r : Rectangle)
| VideoSetFormat (f : V4L2DeviceFormat)
| RawSetFormat (f : V4L2DeviceFormat).

(** The devices of [VimcCameraData].  Each call is handed the calls made
    before it and the structure passed by pointer, and gives the value
    returned and the structure as the device leaves it. *)
Record VimcCameraData := {
  version : Z;
  toV4L2PixelFormat : Z -> Z;
  tryFormat : V4L2DeviceFormat -> Z * V4L2DeviceFormat;
  sensor_setFormat : list dev_call -> V4L2SubdeviceFormat -> Z * V4L2SubdeviceFormat;
  debayer_setFormat : list dev_call -> Z -> V4L2SubdeviceFormat -> Z * V4L2SubdeviceFormat;
  scaler_setFormat : list dev_call -> Z -> V4L2SubdeviceFormat -> Z * V4L2SubdeviceFormat;
  scaler_setSelection : list dev_call -> Z -> Z -> Rectangle -> Z * Rectangle;
  video_setFormat : list dev_call -> V4L2DeviceFormat -> Z * V4L2DeviceFormat;
  raw_setFormat : list dev_call -> V4L2DeviceFormat -> Z * V4L2DeviceFormat;
}.

(** The two statements of [validate] that clamp one dimension to the
    device limits and align it down to a multiple of 6, in unsigned
    arithmetic. *)
Definition aligned (limit v : Z) : Z :=
  let clamped := Z.max 48 (Z.min limit v) in
  wrap_u32 (clamped - clamped mod 6).

(** [VimcCameraConfiguration::validate]: the status returned and the
    configuration as it is left.  A default-constructed
    [V4L2DeviceFormat] has zeroed planes. *)
Definition validate (data : VimcCameraData) (c : CameraConfiguration)
    : Status * CameraConfiguration :=
  match config_ c with
  | [] => (Invalid, c)
  | cfg :: rest =>
      let status1 := if transform c =? Identity then Valid else Adjusted in
      let status2 := match rest with [] => status1 | _ :: _ => Adjusted end in
      let known := bool_decide (is_Some (formats cfg !! pixelFormat cfg)) in
      let format1 := if known then pixelFormat cfg else BGR888 in
      let status3 := if known then status2 else Adjusted in
      let size1 := {| width := aligned 4096 (width (size cfg));
                      height := aligned 2160 (height (size cfg)) |} in
      let status4 := if Size_eqb size1 (size cfg) then status3 else Adjusted in
      let format := {| fourcc := toV4L2PixelFormat data format1; f_size := size1;
                       bpl := 0; plane_size := 0 |} in
      let '(ret, format') := tryFormat data format in
      if ret =? 0 then
        (status4,
         {| transform := Identity;
            config_ := [ {| pixelFormat := format1; size := size1;
                            stride := bpl format'; frameSize := plane_size format';
                            bufferCount := 4; stream := stream cfg;
                            formats := formats cfg |} ] |})
      else
        (Invalid,
         {| transform := Identity;
            config_ := [ {| pixelFormat := format1; size := size1;
                            stride := stride cfg; frameSize := frameSize cfg;
                            bufferCount := 4; stream := stream cfg;
                            formats := formats cfg |} ] |})
  end.

(** The loop of [generateConfiguration] over [pixelformats]. *)
Definition supported_formats (version : Z) : gmap Z (list SizeRange) :=
  foldl (fun (acc : gmap Z (list SizeRange)) (pixelformat : Z * Z) =>
           if (version <? KERNEL_VERSION 5 7 0) && negb (pixelformat.1 =? BGR888)
           then acc
           else <[pixelformat.1 :=
                    [ {| sr_min := {| width := 48; height := 48 |};
                         sr_max := {| width := 4096; height := 2160 |} |} ]]> acc)
        ∅ pixelformats.

(** [PipelineHandlerVimc::generateConfiguration]; a role is kept as the
    value of its enumerator.  A new [CameraConfiguration] has the identity transform
    and no entry; a new [StreamConfiguration] has zeroed members. *)
Definition generateConfiguration (data : VimcCameraData) (roles : list Z)
    : CameraConfiguration :=
  let config := {| transform := Identity; config_ := [] |} in
  match roles with
  | [] => config
  | _ :: _ =>
      let cfg := {| pixelFormat := BGR888;
                    size := {| width := 1920; height := 1080 |};
                    stride := 0; frameSize := 0; bufferCount := 4; stream := false;
                    formats := supported_formats (version data) |} in
      (validate data {| transform := transform config;
                        config_ := config_ config ++ [cfg] |}).2
  end.

(** [PipelineHandlerVimc::configure]: the value returned, the
    configuration and the calls made.  [None] when the configuration is
    empty ([at(0)] throws) and when the pixel format is not a key of
    [pixelformats] (the end iterator is dereferenced). *)
Definition configure (data : VimcCameraData) (c : CameraConfiguration)
    : option (Z * CameraConfiguration * list dev_call) :=
  match config_ c with
  | [] => None
  | cfg :: rest =>
      let third := {| width := width (size cfg) / 3; height := height (size cfg) / 3 |} in
      let subformat0 := {| mbus_code := MEDIA_BUS_FMT_SGRBG8_1X8; sf_size := third |} in
      let io1 := [SensorSetFormat subformat0] in
      let '(ret1, subformat1) := sensor_setFormat data [] subformat0 in
      if negb (ret1 =? 0) then Some (ret1, c, io1) else
      let io2 := io1 ++ [DebayerSetFormat 0 subformat1] in
      let '(ret2, subformat2) := debayer_setFormat data io1 0 subformat1 in
      if negb (ret2 =? 0) then Some (ret2, c, io2) else
      match pixelformats_find (pixelFormat cfg) with
      | None => None
      | Some code =>
          let subformat3 := {| mbus_code := code; sf_size := sf_size subformat2 |} in
          let io3 := io2 ++ [DebayerSetFormat 1 subformat3] in
          let '(ret3, subformat4) := debayer_setFormat data io2 1 subformat3 in
          if negb (ret3 =? 0) then Some (ret3, c, io3) else
          let io4 := io3 ++ [ScalerSetFormat 0 subformat4] in
          let '(ret4, subformat5) := scaler_setFormat data io3 0 subformat4 in
          if negb (ret4 =? 0) then Some (ret4, c, io4) else
          let crop := {| r_x := 0; r_y := 0; r_size := sf_size subformat5 |} in
          let with_crop := KERNEL_VERSION 5 6 0 <=? version data in
          let io5 := if with_crop
                     then io4 ++ [ScalerSetSelection 0 V4L2_SEL_TGT_CROP crop] else io4 in
          let ret5 := if with_crop
                      then (scaler_setSelection data io4 0 V4L2_SEL_TGT_CROP crop).1 else 0 in
          if negb (ret5 =? 0) then Some (ret5, c, io5) else
          let subformat6 := {| mbus_code := mbus_code subformat5; sf_size := size cfg |} in
          let io6 := io5 ++ [ScalerSetFormat 1 subformat6] in
          let '(ret6, _) := scaler_setFormat data io5 1 subformat6 in
          if negb (ret6 =? 0) then Some (ret6, c, io6) else
          let format := {| fourcc := toV4L2PixelFormat data (pixelFormat cfg);
                           f_size := size cfg; bpl := 0; plane_size := 0 |} in
          let io7 := io6 ++ [VideoSetFormat format] in
          let '(ret7, format') := video_setFormat data io6 format in
          if negb (ret7 =? 0) then Some (ret7, c, io7) else
          if negb (Size_eqb (f_size format') (size cfg))
             || negb (fourcc format' =? toV4L2PixelFormat data (pixelFormat cfg))
          then Some (- EINVAL, c, io7) else
          let raw := {| fourcc := V4L2_PIX_FMT_SGRBG8; f_size := third;
                        bpl := bpl format'; plane_size := plane_size format' |} in
          let io8 := io7 ++ [RawSetFormat raw] in
          let '(ret8, _) := raw_setFormat data io7 raw in
          if negb (ret8 =? 0) then Some (ret8, c, io8) else
          Some (0,
                {| transform := transform c;
                   config_ := {| pixelFormat := pixelFormat cfg; size := size cfg;
                                 stride := stride cfg; frameSize := frameSize cfg;
                                 bufferCount := bufferCount cfg; stream := true;
                                 formats := formats cfg |} :: rest |},
                io8)
      end
  end.

(** *** Notions used to state the properties *)

(** A size [validate] leaves as it is. *)
Definition settled (s : Size) : Prop :=
  48 <= width s <= 4092 /\ width s mod 6 = 0 /\
  48 <= height s <= 2160 /\ height s mod 6 = 0.

(** Devices that accept every format as it is. *)
Definition accepting_devices (version : Z) : VimcCameraData :=
  {| version := version;
     toV4L2PixelFormat := fun f => f;
     tryFormat := fun f => (0, {| fourcc := fourcc f; f_size := f_size f;
                                  bpl := 3 * width (f_size f);
                                  plane_size := 3 * width (f_size f) * height (f_size f) |});
     sensor_setFormat := fun _ f => (0, f);
     debayer_setFormat := fun _ _ f => (0, f);
     scaler_setFormat := fun _ _ f => (0, f);
     scaler_setSelection := fun _ _ _ r => (0, r);
     video_setFormat := fun _ f => (0, f);
     raw_setFormat := fun _ f => (0, f) |}.

(** A configuration an application could ask for. *)
Definition requested : CameraConfiguration :=
  {| transform := 3;
     config_ := [ {| pixelFormat := 0x56595559;
                     size := {| width := 5000; height := 1001 |};
                     stride := 0; frameSize := 0; bufferCount := 7; stream := false;
                     formats := supported_formats (KERNEL_VERSION 5 10 0) |} ] |}.

End Vimc_config.

(** * Properties *)

(** ** Control lists *)

Lemma ControlList_set_fresh (pre post : ControlList) cid v v' :
  cid ∉ pre.*1 ->
  ControlList_set (pre ++ (cid, v) :: post) cid v' = pre ++ (cid, v') :: post.
Proof.
  induction pre as [|[k w] pre IH]; intros Hfresh; simpl.
  - by rewrite decide_True.
  - rewrite fmap_cons in Hfresh. apply not_elem_of_cons in Hfresh as [Hne Hpre].
    simpl in Hne. rewrite decide_False by congruence. by rewrite IH.
Qed.

Lemma ControlList_get_fresh (pre post : ControlList) cid v :
  cid ∉ pre.*1 ->
  ControlList_get (pre ++ (cid, v) :: post) cid = v.
Proof.
  induction pre as [|[k w] pre IH]; intros Hfresh; simpl.
  - by rewrite decide_True.
  - rewrite fmap_cons in Hfresh. apply not_elem_of_cons in Hfresh as [Hne Hpre].
    simpl in Hne. rewrite decide_False by congruence. by apply IH.
Qed.

(** ** [V4L2Device::setControls] *)

Module V4L2_properties.
Import V4L2.

Lemma fill_one_valid cs entry :
  valid_entry cs entry <-> exists c, fill_one cs entry = Filled c.
Proof.
  destruct entry as [cid v]. unfold valid_entry, fill_one. simpl.
  destruct (cs !! cid) as [[ctrlId info]|]; [|split; [done|by intros [? ?]]].
  destruct (cid_type ctrlId);
    try (destruct (get_int32 v); split; [eauto|eauto|by intros [? ?]|by intros [? ?]]).
  - destruct (isArray v); split; eauto; try done. by intros [? ?].
  - destruct (get_int64 v); split; [eauto|eauto|by intros [? ?]|by intros [? ?]].
Qed.

Lemma fill_one_readable cs entry :
  readable cs entry <-> fill_one cs entry <> Aborted.
Proof.
  destruct entry as [cid v]. unfold readable, fill_one. simpl.
  destruct (cs !! cid) as [[ctrlId info]|]; [|done].
  destruct (cid_type ctrlId);
    try (destruct (get_int32 v); split; [done|eauto|by intros [? ?]|done]).
  - by destruct (isArray v).
  - destruct (get_int64 v); split; [done|eauto|by intros [? ?]|done].
Qed.

Lemma fill_one_id cs entry c :
  fill_one cs entry = Filled c -> id c = entry.1.
Proof.
  destruct entry as [cid v]. unfold fill_one.
  destruct (cs !! cid) as [[ctrlId info]|]; [|done].
  destruct (cid_type ctrlId);
    try (destruct (get_int32 v); [|done]; intros [= <-]; done).
  - destruct (isArray v); [|done]. by intros [= <-].
  - destruct (get_int64 v); [|done]. by intros [= <-].
Qed.

(** The element built for an entry points into the entry's storage
    exactly when the control is a byte control. *)
Lemma fill_one_p_u8 cs entry c :
  fill_one cs entry = Filled c ->
  exists ctrlId info,
    cs !! entry.1 = Some (ctrlId, info) /\
    match cid_type ctrlId with
    | ControlTypeByte => p_u8 c = Some (data entry.2) /\ entry.2 = CVByteArray (data entry.2)
    | _ => p_u8 c = None
    end.
Proof.
  destruct entry as [cid v]. unfold fill_one. simpl.
  destruct (cs !! cid) as [[ctrlId info]|]; [|done].
  intros H. exists ctrlId, info. split; [done|].
  destruct (cid_type ctrlId);
    try (destruct (get_int32 v); [|done]; by injection H as <-).
  - destruct v; simpl in *; try done. by injection H as <-.
  - destruct (get_int64 v); [|done]. by injection H as <-.
Qed.

(** A list naming an id the device does not know does not get through
    the first loop. *)
Lemma fill_unknown cs (ctrls : ControlList) :
  (exists entry, entry ∈ ctrls /\ cs !! entry.1 = None) ->
  fill_v4l2Ctrls cs ctrls = Refused \/ fill_v4l2Ctrls cs ctrls = Aborted.
Proof.
  intros (entry & Hin & Hnone).
  induction ctrls as [|e ctrls IH]; [by apply elem_of_nil in Hin|].
  apply elem_of_cons in Hin as [<-|Hin]; simpl.
  - destruct entry as [cid v]; simpl in *. unfold fill_one. rewrite Hnone. by left.
  - destruct (fill_one cs e); [|by left|by right].
    destruct (IH Hin) as [-> | ->]; [by left|by right].
Qed.

(** The first loop meets no failed assertion on a list of readable
    values. *)
Lemma fill_readable cs (ctrls : ControlList) :
  Forall (readable cs) ctrls -> fill_v4l2Ctrls cs ctrls <> Aborted.
Proof.
  induction 1 as [|e ctrls He _ IH]; [done|]. simpl.
  apply fill_one_readable in He.
  destruct (fill_one cs e); [|done|done].
  by destruct (fill_v4l2Ctrls cs ctrls).
Qed.

Lemma fill_valid cs (ctrls : ControlList) :
  Forall (valid_entry cs) ctrls <-> exists req, fill_v4l2Ctrls cs ctrls = Filled req.
Proof.
  induction ctrls as [|e ctrls IH]; simpl.
  - split; [eauto|constructor].
  - rewrite Forall_cons, fill_one_valid, IH.
    destruct (fill_one cs e), (fill_v4l2Ctrls cs ctrls); split;
      try (intros [[? ?] [? ?]]; done); try (intros [? ?]; done); eauto.
Qed.

Lemma fill_lookup cs (ctrls : ControlList) req :
  fill_v4l2Ctrls cs ctrls = Filled req ->
  length req = length ctrls /\
  forall j entry, ctrls !! j = Some entry ->
    exists c, req !! j = Some c /\ fill_one cs entry = Filled c.
Proof.
  revert req. induction ctrls as [|e ctrls IH]; simpl; intros req.
  - intros [= <-]. split; [done|]. intros j entry Hj. by rewrite lookup_nil in Hj.
  - destruct (fill_one cs e) as [c| |] eqn:Hc; [|done|done].
    destruct (fill_v4l2Ctrls cs ctrls) as [cs'| |]; [|done|done].
    intros [= <-]. destruct (IH _ eq_refl) as [Hlen Hlk]. split; [simpl; lia|].
    intros [|j] entry Hj; simpl in *.
    + injection Hj as <-. eauto.
    + by apply Hlk.
Qed.

Lemma fill_ids cs (ctrls : ControlList) req :
  fill_v4l2Ctrls cs ctrls = Filled req -> id <$> req = ctrls.*1.
Proof.
  revert req. induction ctrls as [|e ctrls IH]; simpl; intros req.
  - by intros [= <-].
  - destruct (fill_one cs e) as [c| |] eqn:Hc; [|done|done].
    destruct (fill_v4l2Ctrls cs ctrls) as [cs'| |]; [|done|done].
    intros [= <-]. rewrite !fmap_cons, (IH _ eq_refl). f_equal. by eapply fill_one_id.
Qed.

Lemma after_ioctl_ids r req : id <$> after_ioctl r req = id <$> req.
Proof.
  unfold after_ioctl. apply list_eq. intros j.
  rewrite !list_lookup_fmap, list_lookup_imap. by destruct (req !! j).
Qed.

Lemma shared_storage_ids r req (ctrls : ControlList) :
  (shared_storage r req ctrls).*1 = ctrls.*1.
Proof.
  unfold shared_storage. apply list_eq. intros j.
  rewrite !list_lookup_fmap, list_lookup_imap.
  destruct (ctrls !! j) as [e|]; [|done]. simpl.
  destruct (req !! j) as [c|]; [|done]. by destruct (p_u8 c).
Qed.

(** [updateControls] visits the entries the elements came from: with
    distinct ids, the round for element [k] rewrites entry [k]. *)
Lemma updateControls_prefix cs (pre post : ControlList) vs :
  NoDup (pre ++ post).*1 ->
  id <$> vs = take (length vs) post.*1 ->
  Forall (fun e => is_Some (cs !! e.1)) post ->
  updateControls cs (pre ++ post) vs = Some (pre ++ updated cs post vs).
Proof.
  revert pre post. induction vs as [|v vs IH]; intros pre post Hnd Hids Hknown; [done|].
  destruct post as [|[cid cv] post]; [done|].
  simpl in Hids. injection Hids as Hid Hids.
  apply Forall_cons in Hknown as [[[ctrlId info] Hc] Hknown]. simpl in Hc.
  assert (cid ∉ pre.*1) as Hfresh.
  { rewrite fmap_app in Hnd. apply NoDup_app in Hnd as (_ & Hd & _).
    intros Hin. apply (Hd _ Hin). rewrite fmap_cons. left. }
  simpl. rewrite Hid, Hc, ControlList_get_fresh, ControlList_set_fresh by done.
  unfold update_entry. simpl. rewrite Hc.
  set (cv' := match cid_type ctrlId with
              | ControlTypeInteger64 => CVInteger64 (value64 v)
              | ControlTypeByte => cv
              | _ => CVInteger32 (value v)
              end).
  rewrite (cons_middle (cid, cv') pre post), app_assoc.
  rewrite IH.
  - rewrite <- app_assoc. simpl. subst cv'. by destruct (cid_type ctrlId).
  - rewrite <- app_assoc. simpl. by rewrite !fmap_app, fmap_cons in *.
  - done.
  - done.
Qed.

Lemma updated_length cs (ctrls : ControlList) vs :
  length (updated cs ctrls vs) = length ctrls.
Proof.
  revert ctrls. induction vs as [|v vs IH]; intros [|e ctrls]; simpl; auto.
Qed.

Lemma updated_lookup_lt cs (ctrls : ControlList) vs j e v :
  ctrls !! j = Some e -> vs !! j = Some v ->
  updated cs ctrls vs !! j = Some (update_entry cs e v).
Proof.
  revert ctrls j. induction vs as [|v0 vs IH]; intros [|e0 ctrls] [|j]; simpl; try done.
  - by intros [= ->] [= ->].
  - apply IH.
Qed.

Lemma updated_lookup_ge cs (ctrls : ControlList) vs j :
  (length vs <= j)%nat -> updated cs ctrls vs !! j = ctrls !! j.
Proof.
  revert ctrls j. induction vs as [|v0 vs IH]; intros [|e0 ctrls] [|j]; simpl; try done.
  - lia.
  - intros ?. apply IH. lia.
Qed.

Lemma shared_storage_length r req (ctrls : ControlList) :
  length (shared_storage r req ctrls) = length ctrls.
Proof. apply length_imap. Qed.

(** What the list holds right after the ioctl. *)
Lemma shared_storage_lookup cs r (ctrls : ControlList) req j cid v :
  fill_v4l2Ctrls cs ctrls = Filled req ->
  ctrls !! j = Some (cid, v) ->
  exists ctrlId info,
    cs !! cid = Some (ctrlId, info) /\
    shared_storage r req ctrls !! j =
      Some (cid, match cid_type ctrlId with
                 | ControlTypeByte => CVByteArray (w_payload (written r j))
                 | _ => v
                 end).
Proof.
  intros Hfill Hj. destruct (fill_lookup _ _ _ Hfill) as [_ Hlk].
  destruct (Hlk _ _ Hj) as (c & Hc & Hone).
  destruct (fill_one_p_u8 _ _ _ Hone) as (ctrlId & info & Hcs & Hp). simpl in *.
  exists ctrlId, info. split; [done|].
  unfold shared_storage. rewrite list_lookup_imap, Hj. simpl. rewrite Hc.
  destruct (cid_type ctrlId); try (by rewrite Hp).
  destruct Hp as [-> _]. done.
Qed.

(** Entries whose bytes the driver kept are as before the ioctl. *)
Lemma shared_storage_keeps cs r (ctrls : ControlList) req i j :
  fill_v4l2Ctrls cs ctrls = Filled req ->
  keeps_from r req i -> (i <= j)%nat ->
  shared_storage r req ctrls !! j = ctrls !! j.
Proof.
  intros Hfill Hkeep Hij. destruct (fill_lookup _ _ _ Hfill) as [_ Hlk].
  unfold shared_storage. rewrite list_lookup_imap.
  destruct (ctrls !! j) as [[cid v]|] eqn:Hj; [|done]. simpl.
  destruct (Hlk _ _ Hj) as (c & Hc & Hone). rewrite Hc.
  destruct (p_u8 c) as [bytes|] eqn:Hp; [|done].
  rewrite (Hkeep _ _ _ Hij Hc Hp).
  destruct (fill_one_p_u8 _ _ _ Hone) as (ctrlId & info & Hcs & Hty). simpl in *.
  destruct (cid_type ctrlId); try congruence.
  destruct Hty as [Hp' Hv]. rewrite Hp in Hp'. injection Hp' as ->. by rewrite <- Hv.
Qed.

Lemma after_ioctl_lookup r req j c :
  req !! j = Some c ->
  exists c', after_ioctl r req !! j = Some c' /\
             value c' = w_value (written r j) /\
             value64 c' = w_value64 (written r j).
Proof.
  intros Hc. unfold after_ioctl. rewrite list_lookup_imap, Hc. simpl. eauto.
Qed.

Lemma valid_known cs (ctrls : ControlList) :
  Forall (valid_entry cs) ctrls -> Forall (fun e => is_Some (cs !! e.1)) ctrls.
Proof.
  intros H. eapply Forall_impl; [exact H|].
  intros e. unfold valid_entry. destruct (cs !! e.1); [eauto|done].
Qed.

(** C1.  For a non-empty list with distinct ids that all pass the checks,
    when the driver rejects the batch at an index [i] with
    [0 < i < length], [setControls] returns [i], every entry below [i]
    holds the value the driver applied, and every entry from [i] on is as
    it was; the batch is the only device I/O. *)
Theorem setControls_partial_failure (dev : V4L2Device) (ctrls : ControlList) (i : nat) :
  NoDup ctrls.*1 ->
  Forall (valid_entry (controls_ dev)) ctrls ->
  (0 < i < length ctrls)%nat ->
  let request := batch (controls_ dev) ctrls in
  let reply := s_ext_ctrls (driver dev) request in
  rejects_at reply request i ->
  exists ctrls',
    setControls dev ctrls = Some (Z.of_nat i, ctrls', [VIDIOC_S_EXT_CTRLS request]) /\
    length ctrls' = length ctrls /\
    (forall j cid v, (j < i)%nat -> ctrls !! j = Some (cid, v) ->
       ctrls' !! j = Some (cid, applied_value (controls_ dev) cid (written reply j))) /\
    (forall j, (i <= j)%nat -> ctrls' !! j = ctrls !! j).
Proof.
  intros Hnd Hvalid Hi.
  destruct (proj1 (fill_valid _ _) Hvalid) as [req Hfill].
  assert (batch (controls_ dev) ctrls = req) as Hb by (unfold batch; by rewrite Hfill).
  cbv zeta. rewrite Hb. set (reply := s_ext_ctrls (driver dev) req).
  intros (Hfail & Herrno & Hidx & Hkeep).
  destruct (fill_lookup _ _ _ Hfill) as [Hlen Hlk].
  set (ctrls1 := shared_storage reply req ctrls).
  set (vs1 := after_ioctl reply req).
  assert (length vs1 = length ctrls) as Hlen1.
  { unfold vs1, after_ioctl. by rewrite length_imap. }
  assert (updateControls (controls_ dev) ctrls1 (take i vs1)
          = Some (updated (controls_ dev) ctrls1 (take i vs1))) as Hupd.
  { apply (updateControls_prefix _ [] ctrls1).
    - simpl. unfold ctrls1. by rewrite shared_storage_ids.
    - rewrite length_take_le by lia. unfold ctrls1, vs1.
      by rewrite fmap_take, after_ioctl_ids, shared_storage_ids, (fill_ids _ _ _ Hfill).
    - apply Forall_forall. intros e He.
      assert (e.1 ∈ ctrls.*1) as Hin.
      { unfold ctrls1 in He. rewrite <- (shared_storage_ids reply req).
        by apply list_elem_of_fmap_2. }
      apply list_elem_of_fmap in Hin as (e0 & -> & He0).
      by apply (proj1 (Forall_forall _ _) (valid_known _ _ Hvalid)). }
  exists (updated (controls_ dev) ctrls1 (take i vs1)).
  split; [|split; [|split]].
  - unfold setControls. rewrite Hfill. cbv zeta. fold reply ctrls1 vs1.
    destruct ctrls as [|e0 ctrls0]; [simpl in Hi; lia|].
    unfold ioctl_ret. rewrite Hfail.
    rewrite decide_False by lia. rewrite Hidx, Hlen1.
    rewrite decide_False by lia. by rewrite Nat2Z.id, Hupd.
  - unfold ctrls1. by rewrite updated_length, shared_storage_length.
  - intros j cid v Hj Hcj.
    destruct (shared_storage_lookup _ reply _ _ _ _ _ Hfill Hcj)
      as (ctrlId & info & Hcs & Hst).
    destruct (Hlk _ _ Hcj) as (c & Hc & _).
    destruct (after_ioctl_lookup reply _ _ _ Hc) as (c' & Hc' & Hv & Hv64).
    rewrite (updated_lookup_lt _ _ _ _ _ c' Hst) by (by rewrite lookup_take_lt).
    unfold update_entry, applied_value. simpl. rewrite Hcs.
    destruct (cid_type ctrlId); by rewrite ?Hv, ?Hv64.
  - intros j Hj. rewrite updated_lookup_ge by (rewrite length_take_le; lia).
    unfold ctrls1. by apply (shared_storage_keeps (controls_ dev) _ _ _ i).
Qed.

(** C3, as the code has it.  A list naming an id the device does not know
    never reaches the driver: when its values are of the type the first
    loop reads, [setControls] returns [-EINVAL] with no device I/O and
    the list untouched; and whatever its values, a call that returns has
    returned [-EINVAL], issued no device I/O and left the list
    untouched. *)
Theorem setControls_unknown_id (dev : V4L2Device) (ctrls : ControlList) :
  (exists entry, entry ∈ ctrls /\ controls_ dev !! entry.1 = None) ->
  (Forall (readable (controls_ dev)) ctrls ->
   setControls dev ctrls = Some (- EINVAL, ctrls, [])) /\
  (forall ret ctrls' io,
     setControls dev ctrls = Some (ret, ctrls', io) ->
     ret = - EINVAL /\ ctrls' = ctrls /\ io = []).
Proof.
  intros Hex.
  assert (ctrls <> []) as Hne.
  { intros ->. destruct Hex as (e & He & _). by apply elem_of_nil in He. }
  unfold setControls. destruct ctrls as [|e0 ctrls0] eqn:Hctrls; [done|].
  rewrite <- Hctrls in *. split.
  - intros Hread. apply fill_readable in Hread.
    by destruct (fill_unknown _ _ Hex) as [-> | Hab].
  - intros ret ctrls' io.
    destruct (fill_unknown _ _ Hex) as [-> | ->]; [|done]. by intros [= <- <- <-].
Qed.

(** C4.  When the driver fails a batch with an [error_idx] of 0 or at
    least the number of elements, [setControls] returns [-EINVAL] and the
    list is as it was. *)
Theorem setControls_generic_failure (dev : V4L2Device) (ctrls : ControlList) :
  ctrls <> [] ->
  Forall (valid_entry (controls_ dev)) ctrls ->
  let request := batch (controls_ dev) ctrls in
  rejects_generic (s_ext_ctrls (driver dev) request) request ->
  setControls dev ctrls = Some (- EINVAL, ctrls, [VIDIOC_S_EXT_CTRLS request]).
Proof.
  intros Hne Hvalid.
  destruct (proj1 (fill_valid _ _) Hvalid) as [req Hfill].
  assert (batch (controls_ dev) ctrls = req) as Hb by (unfold batch; by rewrite Hfill).
  cbv zeta. rewrite Hb. intros (Hfail & Herrno & Hidx & Hkeep).
  unfold setControls. rewrite Hfill. cbv zeta.
  destruct ctrls as [|e0 ctrls0] eqn:Hctrls; [done|]. rewrite <- Hctrls in *.
  unfold ioctl_ret. rewrite Hfail.
  rewrite decide_False by lia.
  assert (length (after_ioctl (s_ext_ctrls (driver dev) req) req) = length req) as ->.
  { unfold after_ioctl. by rewrite length_imap. }
  rewrite decide_True by done.
  do 3 f_equal. apply list_eq. intros j.
  apply (shared_storage_keeps (controls_ dev) _ _ _ 0%nat); [done|done|lia].
Qed.

(** The sample driver keeps every byte array. *)
Lemma limiting_reply_keeps fails err idx req i :
  keeps_from (Samples.limiting_reply fails err idx req) req i.
Proof. intros j c bytes _ Hc Hp. simpl. by rewrite Hc, Hp. Qed.

(** The scenario of the specification: rejection at index 2 of 5. *)
Example setControls_rejected_at_2_of_5 :
  setControls Samples.rejecting_at_2 Samples.five_entries
  = Some (2,
          [ (1, CVInteger32 255); (2, CVInteger32 10); (3, CVInteger64 7);
            (4, CVByteArray [1; 2; 3]); (5, CVInteger32 1) ],
          [VIDIOC_S_EXT_CTRLS
             (batch (controls_ Samples.rejecting_at_2) Samples.five_entries)]).
Proof. vm_compute. reflexivity. Qed.

(** The scenario of the specification: one unknown id among five. *)
Example setControls_one_unknown_of_5 :
  setControls Samples.rejecting_at_2 Samples.one_unknown
  = Some (- EINVAL, Samples.one_unknown, []).
Proof. vm_compute. reflexivity. Qed.

Lemma setControls_partial_failure_witness :
  let dev := Samples.rejecting_at_2 in
  let ctrls := Samples.five_entries in
  let request := batch (controls_ dev) ctrls in
  let reply := s_ext_ctrls (driver dev) request in
  NoDup ctrls.*1 /\
  Forall (valid_entry (controls_ dev)) ctrls /\
  (0 < 2 < length ctrls)%nat /\
  rejects_at reply request 2 /\
  exists ctrls',
    setControls dev ctrls = Some (2, ctrls', [VIDIOC_S_EXT_CTRLS request]) /\
    length ctrls' = length ctrls /\
    (forall j cid v, (j < 2)%nat -> ctrls !! j = Some (cid, v) ->
       ctrls' !! j = Some (cid, applied_value (controls_ dev) cid (written reply j))) /\
    (forall j, (2 <= j)%nat -> ctrls' !! j = ctrls !! j).
Proof.
  intros dev ctrls request reply.
  assert (NoDup ctrls.*1) as Hnd by (apply (bool_decide_unpack _); vm_compute; reflexivity).
  assert (Forall (valid_entry (controls_ dev)) ctrls) as Hvalid
    by (repeat (constructor; [vm_compute; eauto|]); constructor).
  assert ((0 < 2 < length ctrls)%nat) as Hi by (simpl; lia).
  assert (rejects_at reply request 2) as Hrej.
  { split; [done|]. split; [done|]. split; [done|]. apply limiting_reply_keeps. }
  split; [exact Hnd|]. split; [exact Hvalid|]. split; [exact Hi|]. split; [exact Hrej|].
  exact (setControls_partial_failure dev ctrls 2 Hnd Hvalid Hi Hrej).
Defined.

Lemma setControls_unknown_id_witness :
  (exists entry, entry ∈ Samples.one_unknown
                 /\ controls_ Samples.rejecting_at_2 !! entry.1 = None) /\
  Forall (readable (controls_ Samples.rejecting_at_2)) Samples.one_unknown /\
  setControls Samples.rejecting_at_2 Samples.one_unknown
  = Some (- EINVAL, Samples.one_unknown, []).
Proof.
  assert (exists entry, entry ∈ Samples.one_unknown
                        /\ controls_ Samples.rejecting_at_2 !! entry.1 = None) as Hex.
  { exists (99, CVInteger32 0). split; [|vm_compute; reflexivity].
    unfold Samples.one_unknown. set_solver. }
  assert (Forall (readable (controls_ Samples.rejecting_at_2)) Samples.one_unknown)
    as Hread by (repeat (constructor; [vm_compute; eauto|]); constructor).
  split; [exact Hex|]. split; [exact Hread|].
  exact (proj1 (setControls_unknown_id Samples.rejecting_at_2 Samples.one_unknown Hex)
           Hread).
Defined.

(** C3 as stated fails: control 6 is read-only, [listControls] keeps it,
    and a list naming it is handed to the driver. *)
Lemma setControls_read_only_reaches_driver :
  ~ (forall (dev : V4L2Device) (ctrls : ControlList),
       (exists entry, entry ∈ ctrls /\
          (controls_ dev !! entry.1 = None \/ read_only dev entry.1)) ->
       setControls dev ctrls = Some (- EINVAL, ctrls, [])).
Proof.
  intros H. specialize (H Samples.refusing Samples.with_read_only).
  assert (setControls Samples.refusing Samples.with_read_only
          = Some (- EINVAL, Samples.with_read_only, [])) as Heq.
  { apply H. exists (6, CVInteger32 10). split.
    - unfold Samples.with_read_only. set_solver.
    - right. eexists. split; [vm_compute; reflexivity|]. vm_compute. discriminate. }
  vm_compute in Heq. discriminate Heq.
Qed.

Lemma setControls_generic_failure_witness :
  let dev := Samples.refusing in
  let ctrls := Samples.five_entries in
  let request := batch (controls_ dev) ctrls in
  ctrls <> [] /\
  Forall (valid_entry (controls_ dev)) ctrls /\
  rejects_generic (s_ext_ctrls (driver dev) request) request /\
  setControls dev ctrls = Some (- EINVAL, ctrls, [VIDIOC_S_EXT_CTRLS request]).
Proof.
  intros dev ctrls request.
  assert (ctrls <> []) as Hne by done.
  assert (Forall (valid_entry (controls_ dev)) ctrls) as Hvalid
    by (repeat (constructor; [vm_compute; eauto|]); constructor).
  assert (rejects_generic (s_ext_ctrls (driver dev) request) request) as Hrej.
  { split; [done|]. split; [done|]. split; [right; simpl; lia|].
    apply limiting_reply_keeps. }
  split; [exact Hne|]. split; [exact Hvalid|]. split; [exact Hrej|].
  exact (setControls_generic_failure dev ctrls Hne Hvalid Hrej).
Defined.

End V4L2_properties.

(** ** The RkISP1 auto-exposure loop *)

Module RkISP1_properties.
Import RkISP1.

Lemma wrap_u32_small z : 0 <= z < 2 ^ 32 -> wrap_u32 z = z.
Proof. intros H. unfold wrap_u32. by apply Z.mod_small. Qed.

Lemma wrap_u32_range z : 0 <= wrap_u32 z < 2 ^ 32.
Proof. unfold wrap_u32. apply Z.mod_pos_bound. lia. Qed.

Lemma wrap_u8_range z : 0 <= wrap_u8 z < 256.
Proof. unfold wrap_u8. apply Z.mod_pos_bound. lia. Qed.

Lemma ae_samples_bytes stats : Forall (fun x => 0 <= x < 256) (ae_samples stats).
Proof.
  unfold ae_samples. apply Forall_forall. intros x Hx.
  apply list_elem_of_fmap in Hx as (i & -> & _). apply wrap_u8_range.
Qed.

Lemma ae_samples_length stats :
  length (ae_samples stats) = RKISP1_CIF_ISP_AE_MEAN_MAX_V10.
Proof. unfold ae_samples. by rewrite length_map, length_seq. Qed.

(** The loop adds up the samples above the floor and counts them; on
    bytes neither the sum nor the count wraps. *)
Lemma ae_loop (l : list Z) (value num : Z) :
  Forall (fun x => 0 <= x < 256) l ->
  0 <= value -> 0 <= num ->
  value + 255 * Z.of_nat (length l) < 2 ^ 32 ->
  num + Z.of_nat (length l) < 2 ^ 32 ->
  fold_left (fun acc x =>
               if x <=? 15 then acc
               else (wrap_u32 (acc.1 + x), wrap_u32 (acc.2 + 1)))
            l (value, num)
  = (value + total (filter (fun x => 15 < x) l),
     num + Z.of_nat (length (filter (fun x => 15 < x) l))).
Proof.
  revert value num. induction l as [|x l IH]; intros value num Hl Hv Hn Hvb Hnb.
  - simpl. f_equal; lia.
  - apply Forall_cons in Hl as [Hx Hl]. simpl in Hvb, Hnb |- *.
    rewrite filter_cons. destruct (Z.leb_spec x 15) as [Hle|Hgt].
    + rewrite decide_False by lia. apply IH; try done; lia.
    + rewrite decide_True by lia. simpl.
      rewrite !wrap_u32_small by lia. rewrite IH; try done; try lia.
      f_equal; lia.
Qed.

Lemma ae_accumulate_retained stats :
  ae_accumulate stats = (total (retained stats), Z.of_nat (length (retained stats))).
Proof.
  unfold ae_accumulate, retained.
  rewrite ae_loop; try done; try apply ae_samples_bytes;
    rewrite ae_samples_length; by vm_compute.
Qed.

Lemma total_bounds (l : list Z) :
  Forall (fun x => 16 <= x <= 255) l ->
  16 * Z.of_nat (length l) <= total l <= 255 * Z.of_nat (length l).
Proof.
  induction 1 as [|x l Hx _ IH]; [simpl; lia|].
  change (total (x :: l)) with (x + total l).
  change (length (x :: l)) with (S (length l)). lia.
Qed.

Lemma retained_bounds stats :
  16 * Z.of_nat (length (retained stats)) <= total (retained stats)
  <= 255 * Z.of_nat (length (retained stats)).
Proof.
  apply total_bounds. unfold retained. apply Forall_forall. intros x Hx.
  apply list_elem_of_filter in Hx as [Hgt Hx].
  pose proof (proj1 (Forall_forall _ _) (ae_samples_bytes stats) x Hx) as Hb.
  simpl in Hb. lia.
Qed.

Lemma ae_mean_retained stats :
  ae_mean stats =
    if decide (retained stats = []) then None
    else Some (total (retained stats) / Z.of_nat (length (retained stats))).
Proof.
  unfold ae_mean. rewrite ae_accumulate_retained.
  destruct (retained stats) as [|x l]; [done|].
  rewrite decide_False by done.
  destruct (Z.eqb_spec (Z.of_nat (length (x :: l))) 0) as [H|H]; [simpl in H; lia|done].
Qed.

(** The mean of bytes above the floor is a byte above the floor. *)
Lemma ae_mean_bounds stats value :
  ae_mean stats = Some value -> 16 <= value <= 255.
Proof.
  rewrite ae_mean_retained. destruct (decide (retained stats = [])) as [|Hne]; [done|].
  intros [= <-]. pose proof (retained_bounds stats) as [Hlo Hhi].
  assert (0 < Z.of_nat (length (retained stats))) as Hpos.
  { destruct (retained stats); [done|simpl; lia]. }
  split.
  - apply Z.div_le_lower_bound; lia.
  - apply Z.div_le_upper_bound; lia.
Qed.

Lemma within_toleranceb_spec value :
  within_toleranceb value = true <-> within_tolerance value.
Proof.
  unfold within_toleranceb, within_tolerance.
  rewrite negb_true_iff, <- not_true_iff_false, Qle_bool_iff.
  split; [apply Qnot_le_lt | apply Qlt_not_le].
Qed.

(** The comparison made in double agrees with the one over the rationals
    for every mean the loop can produce. *)
Lemma tolerance_agrees_all :
  forallb tolerance_agrees (map Z.of_nat (seq 16 240)) = true.
Proof. vm_compute. reflexivity. Qed.

Lemma ae_state_tolerance value :
  16 <= value <= 255 ->
  ae_state (ae_factor value) = 2 <-> within_tolerance value.
Proof.
  intros Hv. rewrite <- within_toleranceb_spec.
  pose proof (proj1 (forallb_forall _ _) tolerance_agrees_all value) as H.
  assert (tolerance_agrees value = true) as Hag.
  { apply H. apply in_map_iff. exists (Z.to_nat value). split; [lia|].
    apply in_seq. lia. }
  unfold tolerance_agrees in Hag. apply eqb_prop in Hag. rewrite <- Hag.
  symmetry. apply Z.eqb_eq.
Qed.

Lemma metadataReady_state frame factor :
  metadataReady frame (ae_state factor) = [metadata_action frame (ae_state factor =? 2)].
Proof.
  unfold metadataReady, metadata_action, ae_state.
  by destruct (PrimFloat.ltb _ _).
Qed.

(** C5.  With auto-exposure measurements whose robust mean is [value],
    the factor is [60 / value] in double; for a mean of 120 it is 0.5 and
    the state is not converged; the state is converged exactly when
    [|60 / value - 1| < 0.05]; and the metadata action of the step carries
    that state. *)
Theorem auto_exposure_convergence
    (s : IPARkISP1) (frame : Z) (stats : rkisp1_stat_buffer) (value : Z) :
  Z.land (meas_type stats) RKISP1_CIF_ISP_STAT_AUTOEXP <> 0 ->
  ae_mean stats = Some value ->
  let factor := ae_factor value in
  let report := [metadata_action frame (ae_state factor =? 2)] in
  (value = 120 -> factor = 0.5%float /\ ae_state factor = 1) /\
  (ae_state factor = 2 <-> within_tolerance value) /\
  updateStatistics s frame stats =
    (if frame mod 3 =? 0
     then match ae_update s factor with
          | Some s' => Some (s', setControls s' (wrap_u32 (frame + 1)) ++ report)
          | None => None
          end
     else Some (s, report)).
Proof.
  intros Hflag Hmean factor report. split; [|split].
  - intros ->. split; vm_compute; reflexivity.
  - apply ae_state_tolerance. by eapply ae_mean_bounds.
  - unfold updateStatistics. rewrite Hmean.
    destruct (Z.eqb_spec (Z.land (meas_type stats) RKISP1_CIF_ISP_STAT_AUTOEXP) 0);
      [done|].
    fold factor. by rewrite metadataReady_state.
Qed.

Lemma auto_exposure_convergence_witness :
  let stats := Samples.bright_stats in
  let s := Samples.configured_with {[0 := Samples.sensor_controls]} in
  Z.land (meas_type stats) RKISP1_CIF_ISP_STAT_AUTOEXP <> 0 /\
  ae_mean stats = Some 120 /\
  ae_factor 120 = 0.5%float /\
  updateStatistics s 1 stats = Some (s, [metadata_action 1 false]).
Proof.
  intros stats s.
  assert (Z.land (meas_type stats) RKISP1_CIF_ISP_STAT_AUTOEXP <> 0) as Hflag
    by (vm_compute; discriminate).
  assert (ae_mean stats = Some 120) as Hmean by (vm_compute; reflexivity).
  destruct (auto_exposure_convergence s 1 stats 120 Hflag Hmean) as (H120 & _ & Hstep).
  destruct (H120 eq_refl) as [Hfactor Hstate].
  split; [exact Hflag|]. split; [exact Hmean|]. split; [exact Hfactor|].
  rewrite Hstep, Hstate. reflexivity.
Defined.

(** The scenario of the specification on a frame of the cadence: with the
    exposure already at its minimum the step keeps it there, hands the
    settings to the pipeline for the next frame and reports an unlocked
    state. *)
Example updateStatistics_bright_frame_0 :
  let s := Samples.configured_with {[0 := Samples.sensor_controls]} in
  updateStatistics s 0 Samples.bright_stats
  = Some (s, [ (1, {| a_op := ActionV4L2Set;
                      a_controls := [ (V4L2_CID_EXPOSURE, CVInteger32 4);
                                      (V4L2_CID_ANALOGUE_GAIN, CVInteger32 16) ] |});
               metadata_action 0 false ]).
Proof. vm_compute. reflexivity. Qed.

Lemma clamp_range v lo hi : lo <= hi -> lo <= clamp v lo hi <= hi.
Proof.
  intros H. unfold clamp.
  destruct (Z.ltb_spec v lo); [lia|]. destruct (Z.ltb_spec hi v); lia.
Qed.

(** What the body of [if (frame % 3 == 0)] stores: the exposure first,
    then the gain from the residual taken against the new exposure. *)
Lemma ae_update_Some s factor s' :
  ae_update s factor = Some s' ->
  exists e g,
    to_u64 (ae_exposure s factor) = Some e /\
    exposure_ s' = wrap_u32 (clamp e (minExposure_ s) (maxExposure_ s)) /\
    to_u64 (ae_residual s (ae_exposure s factor) (exposure_ s')) = Some g /\
    gain_ s' = wrap_u32 (clamp g (minGain_ s) (maxGain_ s)) /\
    minExposure_ s' = minExposure_ s /\ maxExposure_ s' = maxExposure_ s /\
    minGain_ s' = minGain_ s /\ maxGain_ s' = maxGain_ s.
Proof.
  unfold ae_update. destruct (to_u64 (ae_exposure s factor)) as [e|] eqn:He; [|done].
  destruct (to_u64 (ae_residual _ _ _)) as [g|] eqn:Hg; [|done].
  intros [= <-]. exists e, g. simpl. by rewrite Hg.
Qed.

Lemma configure_inv s0 entityControls s :
  configure s0 entityControls = Returned 0 s -> settings_inv s.
Proof.
  unfold configure. destruct (decide (entityControls = ∅)); [done|].
  destruct (entityControls !! 0) as [at0|]; [|done].
  destruct (at0 !! V4L2_CID_EXPOSURE) as [itExp|]; [|done].
  destruct (at0 !! V4L2_CID_ANALOGUE_GAIN) as [itGain|]; [|done].
  destruct (get_int32 (ci_min itExp.2)) as [expMin|]; [|done].
  destruct (get_int32 (ci_max itExp.2)) as [expMax|]; [|done].
  destruct (get_int32 (ci_min itGain.2)) as [gainMin|]; [|done].
  destruct (get_int32 (ci_max itGain.2)) as [gainMax|]; [|done].
  intros [= <-]. unfold settings_inv. simpl.
  pose proof (wrap_u32_range expMax).
  pose proof (wrap_u32_range gainMax).
  lia.
Qed.

Lemma ae_update_inv s factor s' :
  settings_inv s -> ae_update s factor = Some s' -> settings_inv s'.
Proof.
  intros (HminE & HmaxE & HminG & HmaxG & _ & _) Hupd.
  destruct (ae_update_Some _ _ _ Hupd)
    as (e & g & _ & He & _ & Hg & HminE' & HmaxE' & HminG' & HmaxG').
  unfold settings_inv. rewrite HminE', HmaxE', HminG', HmaxG', He, Hg.
  do 4 (split; [done|]). split; intros Hr.
  - pose proof (clamp_range e _ _ Hr). rewrite wrap_u32_small; lia.
  - pose proof (clamp_range g _ _ Hr). rewrite wrap_u32_small; lia.
Qed.

Lemma updateStatistics_inv s frame stats s' acts :
  settings_inv s -> updateStatistics s frame stats = Some (s', acts) -> settings_inv s'.
Proof.
  intros Hinv. unfold updateStatistics.
  destruct (_ =? 0); [by intros [= <- _]|].
  destruct (ae_mean stats) as [value|]; [|done].
  destruct (frame mod 3 =? 0); [|by intros [= <- _]].
  destruct (ae_update s (ae_factor value)) as [s1|] eqn:Hupd; [|done].
  intros [= <- _]. by eapply ae_update_inv.
Qed.

Lemma processEvent_inv s event s' acts :
  settings_inv s -> processEvent s event = Some (s', acts) -> settings_inv s'.
Proof.
  intros Hinv. unfold processEvent. destruct (e_op event).
  - destruct (buffersMemory_ s !! e_bufferId event) as [[stats|params]|]; try done.
    by apply updateStatistics_inv.
  - destruct (buffersMemory_ s !! e_bufferId event); [|done].
    by intros [= <- _].
  - by intros [= <- _].
Qed.

Lemma reachable_inv entityControls s :
  reachable entityControls s -> settings_inv s.
Proof.
  induction 1 as [s0 s Hcfg|s event s' acts _ IH Hev].
  - by eapply configure_inv.
  - by eapply processEvent_inv.
Qed.

(** C6, as the code has it.  In every state reached by a successful
    [configure] followed by events, when the stored minima do not exceed
    the stored maxima, exposure and gain lie within their ranges; a step
    of the loop stores the clamped exposure first and then clamps the
    residual, taken against the new exposure, into the gain. *)
Theorem ae_settings_within_ranges
    (entityControls : gmap Z ControlInfoMap) (s : IPARkISP1) :
  reachable entityControls s ->
  minExposure_ s <= maxExposure_ s ->
  minGain_ s <= maxGain_ s ->
  in_range s /\
  forall factor s', ae_update s factor = Some s' ->
    in_range s' /\
    exists e g,
      to_u64 (ae_exposure s factor) = Some e /\
      exposure_ s' = clamp e (minExposure_ s) (maxExposure_ s) /\
      to_u64 (ae_residual s (ae_exposure s factor) (exposure_ s')) = Some g /\
      gain_ s' = clamp g (minGain_ s) (maxGain_ s).
Proof.
  intros Hreach HrE HrG.
  pose proof (reachable_inv _ _ Hreach) as Hinv.
  split.
  - destruct Hinv as (_ & _ & _ & _ & HE & HG). split; auto.
  - intros factor s' Hupd.
    pose proof (ae_update_inv _ _ _ Hinv Hupd) as (_ & _ & _ & _ & HE' & HG').
    destruct Hinv as (HminE & HmaxE & HminG & HmaxG & _ & _).
    destruct (ae_update_Some _ _ _ Hupd)
      as (e & g & Hte & He & Htg & Hg & HminE' & HmaxE' & HminG' & HmaxG').
    split.
    + split; [apply HE'|apply HG']; lia.
    + exists e, g. pose proof (clamp_range e _ _ HrE). pose proof (clamp_range g _ _ HrG).
      rewrite wrap_u32_small in He, Hg by lia. done.
Qed.

Lemma configure_sample :
  configure Samples.unconfigured {[0 := Samples.sensor_controls]}
  = Returned 0 (Samples.configured_with {[0 := Samples.sensor_controls]}).
Proof. vm_compute. reflexivity. Qed.

Lemma ae_settings_within_ranges_witness :
  let ec : gmap Z ControlInfoMap := {[0 := Samples.sensor_controls]} in
  let s := Samples.after_event (Samples.configured_with ec) (Samples.stat_event 0 1) in
  reachable ec s /\
  minExposure_ s <= maxExposure_ s /\
  minGain_ s <= maxGain_ s /\
  in_range s.
Proof.
  intros ec s.
  assert (reachable ec s) as Hreach.
  { eapply (reach_event _ (Samples.configured_with ec) (Samples.stat_event 0 1)).
    - eapply reach_configure. apply configure_sample.
    - vm_compute. reflexivity. }
  assert (minExposure_ s <= maxExposure_ s) as HrE by (vm_compute; discriminate).
  assert (minGain_ s <= maxGain_ s) as HrG by (vm_compute; discriminate).
  split; [exact Hreach|]. split; [exact HrE|]. split; [exact HrG|].
  exact (proj1 (ae_settings_within_ranges ec s Hreach HrE HrG)).
Defined.

(** C6 as stated fails: a sensor whose exposure control has the range
    [0, 0] is configured successfully with a stored exposure of 1 and a
    stored maximum of 0. *)
Lemma configure_fixed_exposure_out_of_range :
  ~ (forall (entityControls : gmap Z ControlInfoMap) (s : IPARkISP1),
       reachable entityControls s -> in_range s).
Proof.
  intros H.
  assert (reachable {[0 := Samples.fixed_exposure_controls]}
            (Samples.configured_with {[0 := Samples.fixed_exposure_controls]})) as Hreach.
  { apply (reach_configure _ Samples.unconfigured). vm_compute. reflexivity. }
  apply H in Hreach. destruct Hreach as [[_ Hle] _].
  vm_compute in Hle. by apply Hle.
Qed.





(** The outcomes of [configure]. *)
Lemma configure_outcomes s entityControls :
  match entityControls !! 0 with
  | Some at0 =>
      configure s entityControls = AssertFails \/
      exists s',
        configure s entityControls
        = Returned (if decide (is_Some (at0 !! V4L2_CID_EXPOSURE)
                               /\ is_Some (at0 !! V4L2_CID_ANALOGUE_GAIN))
                    then 0 else - EINVAL) s'
  | None =>
      configure s entityControls
      = if decide (entityControls = ∅) then Returned (- EINVAL) s else ThrowsOutOfRange
  end.
Proof.
  unfold configure. destruct (entityControls !! 0) as [at0|] eqn:H0.
  - rewrite decide_False by (intros ->; by rewrite lookup_empty in H0).
    destruct (at0 !! V4L2_CID_EXPOSURE) as [itExp|].
    + destruct (at0 !! V4L2_CID_ANALOGUE_GAIN) as [itGain|].
      * rewrite decide_True by (split; eauto).
        destruct (get_int32 (ci_min itExp.2)); [|by left].
        destruct (get_int32 (ci_max itExp.2)); [|by left].
        destruct (get_int32 (ci_min itGain.2)); [|by left].
        destruct (get_int32 (ci_max itGain.2)); [|by left]. eauto.
      * rewrite decide_False by (intros [_ [? ?]]; done). eauto.
    + rewrite decide_False by (intros [[? ?] _]; done). eauto.
  - by destruct (decide (entityControls = ∅)).
Qed.

(** C8.  With a non-empty map that has no entry for key 0 (here the
    sensor controls, exposure and gain included, under key 1) [configure]
    neither fails with [-EINVAL] nor succeeds: [at(0)] throws. *)
Theorem configure_without_entity_0 :
  configure Samples.unconfigured {[1 := Samples.sensor_controls]} = ThrowsOutOfRange.
Proof. vm_compute. reflexivity. Qed.

(** C10.  The loop leaves in [value] the sum of the samples above 15 and
    in [num] their count; when a sample is above 15 the mean is their
    quotient; when every sample is at or below 15 the divisor is zero and
    the step has no defined outcome. *)
Theorem robust_mean_divisor (s : IPARkISP1) (frame : Z) (stats : rkisp1_stat_buffer) :
  ae_accumulate stats = (total (retained stats), Z.of_nat (length (retained stats))) /\
  (Exists (fun x => 15 < x) (ae_samples stats) ->
     (ae_accumulate stats).2 <> 0 /\
     ae_mean stats = Some (total (retained stats) / Z.of_nat (length (retained stats)))) /\
  (Forall (fun x => x <= 15) (ae_samples stats) ->
     (ae_accumulate stats).2 = 0 /\
     ae_mean stats = None /\
     (Z.land (meas_type stats) RKISP1_CIF_ISP_STAT_AUTOEXP <> 0 ->
      updateStatistics s frame stats = None)).
Proof.
  split; [apply ae_accumulate_retained|]. split.
  - intros Hex. assert (retained stats <> []) as Hne.
    { apply Exists_exists in Hex as (x & Hx & Hgt). intros Hnil.
      assert (x ∈ retained stats) as Hin by (by apply list_elem_of_filter).
      rewrite Hnil in Hin. by apply elem_of_nil in Hin. }
    rewrite ae_accumulate_retained, ae_mean_retained, decide_False by done.
    split; [|done]. simpl. destruct (retained stats); [done|simpl; lia].
  - intros Hall. assert (retained stats = []) as Hnil.
    { unfold retained. induction Hall as [|x l Hx _ IH]; [done|].
      rewrite filter_cons_False by lia. exact IH. }
    rewrite ae_accumulate_retained, ae_mean_retained, Hnil.
    split; [done|]. split; [done|]. intros Hflag. unfold updateStatistics.
    destruct (Z.eqb_spec (Z.land (meas_type stats) RKISP1_CIF_ISP_STAT_AUTOEXP) 0);
      [done|].
    by rewrite ae_mean_retained, Hnil.
Qed.

Lemma robust_mean_divisor_witness :
  let s := Samples.configured_with {[0 := Samples.sensor_controls]} in
  (Exists (fun x => 15 < x) (ae_samples Samples.bright_stats) /\
   ae_mean Samples.bright_stats = Some (2400 / 20)) /\
  (Forall (fun x => x <= 15) (ae_samples Samples.dark_stats) /\
   Z.land (meas_type Samples.dark_stats) RKISP1_CIF_ISP_STAT_AUTOEXP <> 0 /\
   (ae_accumulate Samples.dark_stats).2 = 0 /\
   updateStatistics s 1 Samples.dark_stats = None).
Proof.
  intros s. split.
  - assert (Exists (fun x => 15 < x) (ae_samples Samples.bright_stats)) as Hex
      by (apply Exists_cons_hd; vm_compute; reflexivity).
    split; [exact Hex|].
    destruct (robust_mean_divisor s 1 Samples.bright_stats) as (_ & Hsome & _).
    destruct (Hsome Hex) as [_ Hmean]. exact Hmean.
  - assert (Forall (fun x => x <= 15) (ae_samples Samples.dark_stats)) as Hall
      by (repeat constructor; vm_compute; discriminate).
    assert (Z.land (meas_type Samples.dark_stats) RKISP1_CIF_ISP_STAT_AUTOEXP <> 0) as Hflag
      by (vm_compute; discriminate).
    split; [exact Hall|]. split; [exact Hflag|].
    destruct (robust_mean_divisor s 1 Samples.dark_stats) as (_ & _ & Hnone).
    destruct (Hnone Hall) as (Hnum & _ & Hundef). split; [exact Hnum|]. exact (Hundef Hflag).
Defined.

End RkISP1_properties.

(** ** The IPU3 frame tracker *)

Module IPU3_properties.
Import IPU3.

(** C2.  [tryComplete] returns true exactly when the raw buffer has
    completed and both flags of the record are set, and it leaves the
    tracker (pools and records) as it was. *)
Theorem tryComplete_iff_all_three
    (completed : gset FrameBuffer) (frames : IPU3Frames) (info : Info) :
  ((tryComplete completed frames info).1 = true <->
   rawBuffer info ∈ completed /\ paramDequeued info = true /\ metadataProcessed info = true)
  /\ (tryComplete completed frames info).2 = frames.
Proof.
  split; [|done]. unfold tryComplete. simpl.
  rewrite !andb_true_iff, bool_decide_eq_true. tauto.
Qed.

(** The eight combinations of the three conditions. *)
Example tryComplete_eight_combinations :
  forall raw pd mp : bool,
    tryComplete (if raw then {[100%nat]} else ∅) Samples.sample_frames
                (Samples.sample_info_record pd mp)
    = (raw && pd && mp, Samples.sample_frames).
Proof. intros [] [] []; vm_compute; reflexivity. Qed.

End IPU3_properties.

(** ** Completion in the vimc pipeline *)

Module Vimc_properties.
Import Vimc.













End Vimc_properties.

(** * Further properties *)

(** ** [V4L2Device]: writing controls and listing them *)

Module V4L2_more_properties.
Import V4L2 V4L2_notions V4L2_properties.

Lemma ControlList_set_ids (ctrls : ControlList) cid v :
  cid ∈ ctrls.*1 -> (ControlList_set ctrls cid v).*1 = ctrls.*1.
Proof.
  induction ctrls as [|[k w] ctrls IH]; intros Hin; [by apply elem_of_nil in Hin|].
  simpl. destruct (decide (k = cid)) as [->|Hne]; [done|].
  rewrite fmap_cons in Hin. apply elem_of_cons in Hin as [Heq|Hin]; [simpl in Heq; congruence|].
  rewrite !fmap_cons. simpl. by rewrite IH.
Qed.

(** [updateControls] goes through when every element names a control of
    the device that is in the list, and it keeps the ids of the list. *)
Lemma updateControls_total (cs : ControlInfoMap) (ctrls : ControlList) vs :
  Forall (fun v => is_Some (cs !! id v) /\ id v ∈ ctrls.*1) vs ->
  exists ctrls', updateControls cs ctrls vs = Some ctrls' /\ ctrls'.*1 = ctrls.*1.
Proof.
  revert ctrls. induction vs as [|v vs IH]; intros ctrls Hvs; [by exists ctrls|].
  apply Forall_cons in Hvs as [[[[ctrlId info] Hc] Hin] Hvs]. simpl. rewrite Hc.
  set (cv := match cid_type ctrlId with
             | ControlTypeInteger64 => CVInteger64 (value64 v)
             | ControlTypeByte => ControlList_get ctrls (id v)
             | _ => CVInteger32 (value v)
             end).
  destruct (IH (ControlList_set ctrls (id v) cv)) as (ctrls' & Hupd & Hids).
  - eapply Forall_impl; [exact Hvs|]. intros v' [Hk Hin']. split; [done|].
    by rewrite ControlList_set_ids.
  - exists ctrls'. split; [done|]. by rewrite Hids, ControlList_set_ids.
Qed.

Lemma fill_elements (cs : ControlInfoMap) (ctrls : ControlList) req :
  fill_v4l2Ctrls cs ctrls = Filled req ->
  Forall (fun v => is_Some (cs !! id v) /\ id v ∈ ctrls.*1) req.
Proof.
  intros Hfill. apply Forall_forall. intros v Hv.
  apply list_elem_of_lookup in Hv as [j Hj].
  assert (is_Some (ctrls !! j)) as [e He].
  { apply lookup_lt_is_Some. rewrite <- (proj1 (fill_lookup _ _ _ Hfill)).
    apply lookup_lt_is_Some. eauto. }
  destruct (proj2 (fill_lookup _ _ _ Hfill) _ _ He) as (c & Hc & Hone).
  rewrite Hj in Hc. injection Hc as <-.
  rewrite (fill_one_id _ _ _ Hone).
  destruct (fill_one_p_u8 _ _ _ Hone) as (ctrlId & info & Hcs & _).
  split; [eauto|]. apply list_elem_of_fmap. exists e. split; [done|].
  apply list_elem_of_lookup. eauto.
Qed.

Lemma after_ioctl_elements (cs : ControlInfoMap) (ctrls : ControlList) r req n :
  Forall (fun v => is_Some (cs !! id v) /\ id v ∈ ctrls.*1) req ->
  Forall (fun v => is_Some (cs !! id v) /\ id v ∈ (shared_storage r req ctrls).*1)
         (take n (after_ioctl r req)).
Proof.
  intros Hreq. apply Forall_take. apply Forall_forall. intros v Hv.
  unfold after_ioctl in Hv. apply elem_of_lookup_imap in Hv as (j & c & -> & Hc).
  simpl. rewrite shared_storage_ids.
  apply (proj1 (Forall_forall _ _) Hreq c). apply list_elem_of_lookup. eauto.
Qed.

(** X1.  On a list whose values are of the type the first loop reads for
    their controls, [setControls] always returns: no accessor fails its
    assertion and the ASSERT of [updateControls] never fires, whatever
    the driver answers; the list keeps its ids in their order, and at
    most one batch goes to the driver. *)
Theorem setControls_returns_and_keeps_ids (dev : V4L2Device) (ctrls : ControlList) :
  Forall (readable (controls_ dev)) ctrls ->
  exists ret ctrls' io,
    setControls dev ctrls = Some (ret, ctrls', io) /\
    ctrls'.*1 = ctrls.*1 /\
    (io = [] \/ io = [VIDIOC_S_EXT_CTRLS (batch (controls_ dev) ctrls)]).
Proof.
  intros Hread. apply fill_readable in Hread.
  unfold setControls. destruct ctrls as [|e0 ctrls0] eqn:Hctrls; [by eauto 10|].
  rewrite <- Hctrls in *. clear Hctrls e0 ctrls0.
  destruct (fill_v4l2Ctrls (controls_ dev) ctrls) as [req| |] eqn:Hfill;
    [|by eauto 10|done].
  assert (batch (controls_ dev) ctrls = req) as -> by (unfold batch; by rewrite Hfill).
  cbv zeta. set (reply := s_ext_ctrls (driver dev) req).
  pose proof (fill_elements _ _ _ Hfill) as Hreq.
  destruct (decide (ioctl_ret reply = 0)).
  - pose proof (after_ioctl_elements (controls_ dev) ctrls reply req (length req) Hreq) as Hel.
    rewrite take_ge in Hel by (unfold after_ioctl; by rewrite length_imap).
    destruct (updateControls_total _ _ _ Hel) as (ctrls' & -> & Hids).
    exists (ioctl_ret reply), ctrls', [VIDIOC_S_EXT_CTRLS req].
    split; [done|]. split; [|by right]. by rewrite Hids, shared_storage_ids.
  - destruct (decide (error_idx reply = 0 ∨ _)).
    + eexists _, _, _. split; [done|]. split; [apply shared_storage_ids|by right].
    + pose proof (after_ioctl_elements (controls_ dev) ctrls reply req
                    (Z.to_nat (error_idx reply)) Hreq) as Hel.
      destruct (updateControls_total _ _ _ Hel) as (ctrls' & -> & Hids).
      eexists _, _, _. split; [done|]. split; [|by right].
      by rewrite Hids, shared_storage_ids.
Qed.

Lemma setControls_returns_and_keeps_ids_witness :
  Forall (readable (controls_ accepting)) Samples.five_entries /\
  exists ret ctrls' io,
    setControls accepting Samples.five_entries = Some (ret, ctrls', io) /\
    ctrls'.*1 = Samples.five_entries.*1 /\
    (io = [] \/
     io = [VIDIOC_S_EXT_CTRLS (batch (controls_ accepting) Samples.five_entries)]).
Proof.
  assert (Forall (readable (controls_ accepting)) Samples.five_entries) as Hread
    by (repeat (constructor; [vm_compute; eauto|]); constructor).
  split; [exact Hread|].
  exact (setControls_returns_and_keeps_ids accepting Samples.five_entries Hread).
Defined.

(** X2.  The value [setControls] returns is 0, [-EINVAL], or the driver's
    [error_idx] when that lies strictly between 0 and the number of
    entries; the driver's errno is never returned.  ([error_idx] is an
    unsigned member, hence the hypothesis.) *)
Theorem setControls_return_value
    (dev : V4L2Device) (ctrls ctrls' : ControlList) (ret : Z) (io : list io_event) :
  (forall request, 0 <= error_idx (s_ext_ctrls (driver dev) request)) ->
  setControls dev ctrls = Some (ret, ctrls', io) ->
  ret = 0 \/ ret = - EINVAL \/
  (0 < ret < Z.of_nat (length ctrls) /\
   ret = error_idx (s_ext_ctrls (driver dev) (batch (controls_ dev) ctrls))).
Proof.
  intros Hidx. unfold setControls.
  destruct ctrls as [|e0 ctrls0] eqn:Hctrls; [intros [= <- _ _]; by left|].
  rewrite <- Hctrls. clear Hctrls e0 ctrls0.
  destruct (fill_v4l2Ctrls (controls_ dev) ctrls) as [req| |] eqn:Hfill;
    [|intros [= <- _ _]; right; by left|done].
  assert (batch (controls_ dev) ctrls = req) as -> by (unfold batch; by rewrite Hfill).
  cbv zeta. set (reply := s_ext_ctrls (driver dev) req).
  destruct (decide (ioctl_ret reply = 0)) as [Hz|Hnz].
  - destruct (updateControls _ _ _); [|done]. intros [= <- _ _]. by left.
  - destruct (decide (error_idx reply = 0 ∨ _)) as [|Hmid].
    + intros [= <- _ _]. right. by left.
    + destruct (updateControls _ _ _); [|done]. intros [= <- _ _]. right. right.
      assert (length (after_ioctl reply req) = length ctrls) as Hlen.
      { unfold after_ioctl. rewrite length_imap. apply (fill_lookup _ _ _ Hfill). }
      rewrite Hlen in Hmid. specialize (Hidx req). fold reply in Hidx. split; [lia|done].
Qed.

Lemma setControls_return_value_witness :
  (forall request,
     0 <= error_idx (s_ext_ctrls (driver Samples.rejecting_at_2) request)) /\
  (0 < 2 < Z.of_nat (length Samples.five_entries) /\
   2 = error_idx (s_ext_ctrls (driver Samples.rejecting_at_2)
                    (batch (controls_ Samples.rejecting_at_2) Samples.five_entries))).
Proof.
  assert (forall request,
            0 <= error_idx (s_ext_ctrls (driver Samples.rejecting_at_2) request)) as Hidx
    by (intros request; simpl; lia).
  split; [exact Hidx|].
  destruct (setControls_return_value _ _ _ _ _ Hidx setControls_rejected_at_2_of_5)
    as [H|[H|H]]; [discriminate H|discriminate H|exact H].
Defined.

(** X3.  When the ioctl succeeds, [setControls] returns 0 and every entry
    of a list with distinct, valid ids holds the value the driver
    applied, in place. *)
Theorem setControls_success (dev : V4L2Device) (ctrls : ControlList) :
  NoDup ctrls.*1 ->
  Forall (valid_entry (controls_ dev)) ctrls ->
  ctrls <> [] ->
  let request := batch (controls_ dev) ctrls in
  let reply := s_ext_ctrls (driver dev) request in
  failed reply = false ->
  exists ctrls',
    setControls dev ctrls = Some (0, ctrls', [VIDIOC_S_EXT_CTRLS request]) /\
    length ctrls' = length ctrls /\
    forall j cid v, ctrls !! j = Some (cid, v) ->
      ctrls' !! j = Some (cid, applied_value (controls_ dev) cid (written reply j)).
Proof.
  intros Hnd Hvalid Hne.
  destruct (proj1 (fill_valid _ _) Hvalid) as [req Hfill].
  assert (batch (controls_ dev) ctrls = req) as Hb by (unfold batch; by rewrite Hfill).
  cbv zeta. rewrite Hb. set (reply := s_ext_ctrls (driver dev) req). intros Hok.
  destruct (fill_lookup _ _ _ Hfill) as [Hlen Hlk].
  set (ctrls1 := shared_storage reply req ctrls).
  set (vs1 := after_ioctl reply req).
  assert (length vs1 = length ctrls) as Hlen1.
  { unfold vs1, after_ioctl. by rewrite length_imap. }
  assert (updateControls (controls_ dev) ctrls1 vs1
          = Some (updated (controls_ dev) ctrls1 vs1)) as Hupd.
  { apply (updateControls_prefix _ [] ctrls1).
    - simpl. unfold ctrls1. by rewrite shared_storage_ids.
    - unfold ctrls1, vs1.
      rewrite after_ioctl_ids, shared_storage_ids, (fill_ids _ _ _ Hfill).
      rewrite take_ge; [done|]. rewrite length_fmap. fold vs1. lia.
    - apply Forall_forall. intros e He.
      assert (e.1 ∈ ctrls.*1) as Hin.
      { unfold ctrls1 in He. rewrite <- (shared_storage_ids reply req).
        by apply list_elem_of_fmap_2. }
      apply list_elem_of_fmap in Hin as (e0 & -> & He0).
      by apply (proj1 (Forall_forall _ _) (valid_known _ _ Hvalid)). }
  exists (updated (controls_ dev) ctrls1 vs1). split; [|split].
  - unfold setControls. rewrite Hfill. cbv zeta. fold reply ctrls1 vs1.
    destruct ctrls as [|e0 ctrls0]; [done|].
    unfold ioctl_ret. rewrite Hok. rewrite decide_True by done. by rewrite Hupd.
  - unfold ctrls1. by rewrite updated_length, shared_storage_length.
  - intros j cid v Hcj.
    destruct (shared_storage_lookup _ reply _ _ _ _ _ Hfill Hcj)
      as (ctrlId & info & Hcs & Hst).
    destruct (Hlk _ _ Hcj) as (c & Hc & _).
    destruct (after_ioctl_lookup reply _ _ _ Hc) as (c' & Hc' & Hv & Hv64).
    rewrite (updated_lookup_lt _ _ _ _ _ c' Hst) by done.
    unfold update_entry, applied_value. simpl. rewrite Hcs.
    destruct (cid_type ctrlId); by rewrite ?Hv, ?Hv64.
Qed.

Lemma setControls_success_witness :
  let dev := accepting in
  let ctrls := Samples.five_entries in
  let request := batch (controls_ dev) ctrls in
  let reply := s_ext_ctrls (driver dev) request in
  NoDup ctrls.*1 /\
  Forall (valid_entry (controls_ dev)) ctrls /\
  ctrls <> [] /\
  failed reply = false /\
  exists ctrls',
    setControls dev ctrls = Some (0, ctrls', [VIDIOC_S_EXT_CTRLS request]) /\
    length ctrls' = length ctrls /\
    forall j cid v, ctrls !! j = Some (cid, v) ->
      ctrls' !! j = Some (cid, applied_value (controls_ dev) cid (written reply j)).
Proof.
  intros dev ctrls request reply.
  assert (NoDup ctrls.*1) as Hnd by (apply (bool_decide_unpack _); vm_compute; reflexivity).
  assert (Forall (valid_entry (controls_ dev)) ctrls) as Hvalid
    by (repeat (constructor; [vm_compute; eauto|]); constructor).
  assert (ctrls <> []) as Hne by done.
  assert (failed reply = false) as Hok by reflexivity.
  split; [exact Hnd|]. split; [exact Hvalid|]. split; [exact Hne|]. split; [exact Hok|].
  exact (setControls_success dev ctrls Hnd Hvalid Hne Hok).
Defined.

(** *** [listControls] *)

Lemma emplace_lookup {V} (k k' : Z) (v : V) (m : gmap Z V) :
  emplace k v m !! k' =
    match m !! k' with
    | Some w => Some w
    | None => if decide (k = k') then Some v else None
    end.
Proof.
  unfold emplace. destruct (m !! k) as [w|] eqn:Hk.
  - destruct (m !! k') eqn:Hk'; [done|]. case_decide; [congruence|done].
  - destruct (decide (k = k')) as [<-|Hne].
    + by rewrite lookup_insert_eq, Hk.
    + rewrite lookup_insert_ne by done. by destruct (m !! k').
Qed.

Lemma listControls_step_kept acc ctrl :
  listControls_step acc ctrl =
    if decide (kept ctrl)
    then (emplace (q_id ctrl) ctrl acc.1,
          emplace (q_id ctrl) (v4l2ControlId ctrl, v4l2ControlInfo ctrl) acc.2)
    else acc.
Proof.
  unfold listControls_step.
  destruct (decide (kept ctrl)) as [(Hclass & Hen & Hty)|Hk].
  - rewrite Hclass, Hen, Hty. done.
  - destruct (is_ctrl_class (q_type ctrl)) eqn:Hclass; [done|].
    destruct (Z.eqb_spec (Z.land (q_flags ctrl) V4L2_CTRL_FLAG_DISABLED) 0) as [Hz|Hnz];
      [|done].
    destruct (listed_type (q_type ctrl)) eqn:Hty; [|done].
    exfalso. apply Hk. done.
Qed.

Lemma listed_snoc seen ctrl k :
  listed (seen ++ [ctrl]) k =
    match listed seen k with
    | Some q => Some q
    | None => if decide (kept ctrl /\ q_id ctrl = k) then Some ctrl else None
    end.
Proof.
  unfold listed. rewrite filter_app, filter_cons, filter_nil.
  destruct (filter _ seen) as [|q l]; simpl; [|done].
  by destruct (decide (kept ctrl /\ q_id ctrl = k)).
Qed.

Lemma listing_inv_step before seen acc ctrl :
  listing_inv before seen acc ->
  listing_inv before (seen ++ [ctrl]) (listControls_step acc ctrl).
Proof.
  intros Hinv k. destruct (Hinv k) as [H2 H1].
  rewrite listControls_step_kept, listed_snoc.
  destruct (decide (kept ctrl)) as [Hk|Hk]; simpl.
  - rewrite !emplace_lookup, H2, H1.
    destruct (decide (q_id ctrl = k)) as [Heq|Hne].
    + rewrite (decide_True (P := kept ctrl /\ q_id ctrl = k)) by done.
      destruct (listed seen k), (before !! k); done.
    + rewrite (decide_False (P := kept ctrl /\ q_id ctrl = k)) by (by intros [_ ?]).
      destruct (listed seen k), (before !! k); done.
  - rewrite decide_False by (by intros [? _]).
    rewrite H2, H1. destruct (listed seen k), (before !! k); done.
Qed.

Lemma listing_inv_fold before seen rest acc :
  listing_inv before seen acc ->
  listing_inv before (seen ++ rest) (fold_left listControls_step rest acc).
Proof.
  revert seen acc. induction rest as [|ctrl rest IH]; intros seen acc Hinv.
  - by rewrite app_nil_r.
  - simpl. rewrite (cons_middle ctrl seen rest), app_assoc.
    apply IH. by apply listing_inv_step.
Qed.

Lemma listControls_inv dev :
  listing_inv (controlInfo_ dev) (enumerated (driver dev))
    (controlInfo_ (listControls dev), controls_ (listControls dev)).
Proof.
  unfold listControls. simpl.
  pose proof (listing_inv_fold (controlInfo_ dev) [] (enumerated (driver dev))
                (controlInfo_ dev, ∅)) as H.
  simpl in H.
  destruct (fold_left listControls_step (enumerated (driver dev)) (controlInfo_ dev, ∅))
    as [ci cs].
  apply H. intros k. unfold listed. simpl. rewrite lookup_empty.
  by destruct (controlInfo_ dev !! k).
Qed.

Lemma head_filter_Some {A} (P : A -> Prop) `{!forall x, Decision (P x)} (l : list A) x :
  head (filter P l) = Some x -> x ∈ l /\ P x.
Proof.
  intros Hhead. assert (x ∈ filter P l) as Hin.
  { destruct (filter P l) as [|y l']; [done|]. injection Hhead as ->. left. }
  by apply list_elem_of_filter in Hin as [? ?].
Qed.

(** With each id reported once, the control listed under an id is the
    one control of that id, when it is kept. *)
Lemma listed_unique seen k q :
  NoDup (q_id <$> seen) ->
  listed seen k = Some q <-> q ∈ seen /\ kept q /\ q_id q = k.
Proof.
  intros Hnd. split.
  - intros H. apply head_filter_Some in H as [Hin [Hk Hid]]. done.
  - intros (Hin & Hk & Hid). unfold listed.
    induction seen as [|q0 seen IH]; [by apply elem_of_nil in Hin|].
    rewrite fmap_cons in Hnd. apply NoDup_cons in Hnd as [Hfresh Hnd].
    rewrite filter_cons. apply elem_of_cons in Hin as [->|Hin].
    + by rewrite decide_True.
    + rewrite decide_False; [by apply IH|].
      intros [_ Hid0]. apply Hfresh. rewrite Hid0, <- Hid. by apply list_elem_of_fmap_2.
Qed.

(** X4.  [listControls] on a driver that reports each id once: the
    device then knows, under each id, the control reported for it now
    when that control is neither a class nor disabled and of a supported
    type, with the [ControlId] and [ControlInfo] derived from it, and no
    other control.  [controlInfo_] keeps every entry it held before the
    call (an object that is opened again keeps those of its first open)
    and takes the control reported now only under an id it did not
    hold. *)
Theorem listControls_first_kept (dev : V4L2Device) (k : Z) :
  NoDup (q_id <$> enumerated (driver dev)) ->
  let dev' := listControls dev in
  let now := listed (enumerated (driver dev)) k in
  (forall q, now = Some q <-> q ∈ enumerated (driver dev) /\ kept q /\ q_id q = k) /\
  controls_ dev' !! k = (fun q => (v4l2ControlId q, v4l2ControlInfo q)) <$> now /\
  controlInfo_ dev' !! k = match controlInfo_ dev !! k with
                           | Some old => Some old
                           | None => now
                           end.
Proof.
  intros Hnd dev' now. destruct (listControls_inv dev k) as [H2 H1]. cbn [fst snd] in H1, H2.
  split; [|done]. intros q. by apply listed_unique.
Qed.

Lemma listControls_first_kept_witness :
  NoDup (q_id <$> enumerated (driver closed)) /\
  controls_ (listControls closed) !! 1
  = Some ({| cid_id := 1; cid_type := ControlTypeInteger32 |},
          {| ci_min := CVInteger32 0; ci_max := CVInteger32 15; ci_def := CVInteger32 0 |}) /\
  controlInfo_ (listControls closed) !! 1 = controlInfo_ accepting !! 1 /\
  controls_ (listControls closed) !! 2 = None /\
  controlInfo_ (listControls closed) !! 2 = controlInfo_ accepting !! 2.
Proof.
  assert (NoDup (q_id <$> enumerated (driver closed))) as Hnd
    by (apply (bool_decide_unpack _); vm_compute; reflexivity).
  split; [exact Hnd|].
  destruct (listControls_first_kept closed 1 Hnd) as (_ & Hc1 & Hi1).
  destruct (listControls_first_kept closed 2 Hnd) as (_ & Hc2 & Hi2).
  split; [rewrite Hc1; vm_compute; reflexivity|].
  split; [rewrite Hi1; vm_compute; reflexivity|].
  split; [rewrite Hc2; vm_compute; reflexivity|].
  rewrite Hi2. vm_compute. reflexivity.
Defined.

(** X5.  A disabled control, a control class or a control of an
    unsupported type is never listed: every control the device knows is
    one the driver enumerated under that id, enabled and of a supported
    type, and its libcamera type is never [ControlTypeNone]. *)
Theorem listControls_only_kept
    (dev : V4L2Device) (k : Z) (ctrlId : ControlId) (info : ControlInfo) :
  controls_ (listControls dev) !! k = Some (ctrlId, info) ->
  exists q, q ∈ enumerated (driver dev) /\ q_id q = k /\
            Z.land (q_flags q) V4L2_CTRL_FLAG_DISABLED = 0 /\
            q_type q <> V4L2_CTRL_TYPE_CTRL_CLASS /\
            ctrlId = v4l2ControlId q /\ info = v4l2ControlInfo q /\
            cid_id ctrlId = k /\ cid_type ctrlId <> ControlTypeNone.
Proof.
  intros Hk. destruct (listControls_inv dev k) as [H2 _]. cbn [fst snd] in H2.
  rewrite H2 in Hk.
  destruct (listed (enumerated (driver dev)) k) as [q|] eqn:Hq; [|done].
  injection Hk as <- <-.
  apply head_filter_Some in Hq as [Hin [(Hclass & Hen & Hty) Hid]].
  exists q. do 3 (split; [done|]). split.
  { intros Hc. by rewrite Hc in Hclass. }
  do 3 (split; [done|]).
  unfold v4l2ControlId. simpl. by destruct (q_type q).
Qed.

Lemma listControls_only_kept_witness :
  controls_ (listControls (unopened (driver accepting))) !! 4
  = Some ({| cid_id := 4; cid_type := ControlTypeByte |},
          {| ci_min := CVByte 0; ci_max := CVByte 255; ci_def := CVByte 0 |}) /\
  exists q, q ∈ enumerated (driver accepting) /\ q_id q = 4 /\
            Z.land (q_flags q) V4L2_CTRL_FLAG_DISABLED = 0.
Proof.
  assert (controls_ (listControls (unopened (driver accepting))) !! 4
          = Some ({| cid_id := 4; cid_type := ControlTypeByte |},
                  {| ci_min := CVByte 0; ci_max := CVByte 255; ci_def := CVByte 0 |})) as H
    by (vm_compute; reflexivity).
  split; [exact H|].
  destruct (listControls_only_kept _ _ _ _ H) as (q & Hin & Hid & Hen & _).
  exists q. split; [exact Hin|]. split; [exact Hid|exact Hen].
Defined.

End V4L2_more_properties.

(** ** [V4L2Device]: reading controls and refreshing their information *)

Module V4L2_read_properties.
Import V4L2 V4L2_notions V4L2_more V4L2_properties.

Lemma get_collect_unknown (cs : ControlInfoMap) ids (acc : ControlList) :
  (exists cid, cid ∈ ids /\ cs !! cid = None) -> get_collect cs ids acc = None.
Proof.
  intros (cid & Hin & Hnone). revert acc.
  induction ids as [|c ids IH]; intros acc; [by apply elem_of_nil in Hin|].
  simpl. apply elem_of_cons in Hin as [<-|Hin]; [by rewrite Hnone|].
  destruct (cs !! c); [by apply IH|done].
Qed.

(** X6.  When one of the requested ids is unknown to the device,
    [getControls] returns an empty list and hands nothing to the driver. *)
Theorem getControls_unknown_id
    (dev : V4L2Device) (g_ext_ctrls : list v4l2_ext_control -> ioctl_reply)
    (reserved : Z -> list Z) (walk : ControlList -> ControlList) (ids : list Z) :
  (exists cid, cid ∈ ids /\ controls_ dev !! cid = None) ->
  getControls dev g_ext_ctrls reserved walk ids = GetReturned [] [].
Proof.
  intros Hex. unfold getControls. rewrite (get_collect_unknown _ _ _ Hex).
  by destruct ids.
Qed.

Lemma getControls_unknown_id_witness :
  (exists cid, cid ∈ [1; 99; 3] /\ controls_ accepting !! cid = None) /\
  getControls accepting (reading_reply false 0 0) (fun n => replicate (Z.to_nat n) 0)
    reverse [1; 99; 3] = GetReturned [] [].
Proof.
  assert (exists cid, cid ∈ [1; 99; 3] /\ controls_ accepting !! cid = None) as Hex.
  { exists 99. split; [set_solver|vm_compute; reflexivity]. }
  split; [exact Hex|]. exact (getControls_unknown_id _ _ _ _ _ Hex).
Defined.

Lemma ControlList_set_absent (ctrls : ControlList) cid v :
  cid ∉ ctrls.*1 -> ControlList_set ctrls cid v = ctrls ++ [(cid, v)].
Proof.
  induction ctrls as [|[k w] ctrls IH]; intros Hnin; [done|].
  rewrite fmap_cons in Hnin. apply not_elem_of_cons in Hnin as [Hne Hnin]. simpl in Hne.
  simpl. rewrite decide_False by congruence. by rewrite IH.
Qed.

Lemma get_collect_distinct (cs : ControlInfoMap) ids (acc : ControlList) :
  NoDup (acc.*1 ++ ids) ->
  Forall (fun cid => is_Some (cs !! cid)) ids ->
  get_collect cs ids acc = Some (acc ++ unset ids).
Proof.
  revert acc. induction ids as [|cid ids IH]; intros acc Hnd Hknown.
  - simpl. by rewrite app_nil_r.
  - apply Forall_cons in Hknown as [[c Hc] Hknown]. simpl. rewrite Hc.
    assert (cid ∉ acc.*1) as Hfresh.
    { apply NoDup_app in Hnd as (_ & Hd & _). intros Hin. apply (Hd _ Hin). left. }
    rewrite ControlList_set_absent by done. rewrite IH; [|
      by rewrite fmap_app, <- app_assoc | done].
    by rewrite <- app_assoc.
Qed.

Lemma unset_ids ids : (unset ids).*1 = ids.
Proof. unfold unset. rewrite <- list_fmap_compose. apply list_fmap_id. Qed.

Lemma unset_of_empty (l : ControlList) :
  Forall (fun e => e.2 = CVNone) l -> l = unset l.*1.
Proof.
  induction 1 as [|[cid v] l Hv _ IH]; [done|]. simpl in Hv. subst v.
  unfold unset in *. rewrite !fmap_cons. simpl. by f_equal.
Qed.

(** A walk that visits the entries put in, each once, visits the ids
    each once, and the list walked is one of empty values. *)
Lemma walked_unset (walk : ControlList -> ControlList) ids :
  walk (unset ids) ≡ₚ unset ids ->
  walk (unset ids) = unset (walked walk ids) /\ walked walk ids ≡ₚ ids.
Proof.
  intros Hperm. split.
  - unfold walked. apply unset_of_empty.
    rewrite Hperm. unfold unset. apply Forall_fmap. by apply Forall_true.
  - unfold walked. rewrite Hperm. by rewrite unset_ids.
Qed.

(** The element and the entry the second loop produces for an id the
    device describes. *)
Lemma get_prepare_described dev reserved cid :
  payload_described dev cid ->
  exists e' c ctrlId info,
    get_prepare (controlInfo_ dev) reserved (cid, CVNone) = Prepared e' c /\
    controls_ dev !! cid = Some (ctrlId, info) /\
    id c = cid /\ e'.1 = cid /\
    match cid_type ctrlId with
    | ControlTypeByte => exists bytes, p_u8 c = Some bytes /\ e'.2 = CVByteArray bytes
    | _ => p_u8 c = None /\ e'.2 = CVNone
    end.
Proof.
  intros (ctrlId & info & q & Hcs & Hci & Hno & Hyes).
  unfold get_prepare. simpl. rewrite Hci.
  destruct (Z.eqb_spec (Z.land (q_flags q) V4L2_CTRL_FLAG_HAS_PAYLOAD) 0) as [Hz|Hnz].
  - eexists _, _, ctrlId, info. split; [done|]. split; [done|]. split; [done|].
    split; [done|]. specialize (Hno Hz). by destruct (cid_type ctrlId).
  - destruct (Hyes Hnz) as [-> Hty].
    eexists _, _, ctrlId, info. split; [done|]. split; [done|]. split; [done|].
    split; [done|]. rewrite Hty. eauto.
Qed.

Lemma get_fill_described dev reserved ids :
  Forall (payload_described dev) ids ->
  exists ctrls0 filled,
    get_fill (controlInfo_ dev) reserved (unset ids) = inr (ctrls0, filled) /\
    ctrls0.*1 = ids /\ id <$> filled = ids /\
    forall j cid, ids !! j = Some cid ->
      exists e' c ctrlId info,
        ctrls0 !! j = Some e' /\ filled !! j = Some c /\
        controls_ dev !! cid = Some (ctrlId, info) /\ e'.1 = cid /\
        match cid_type ctrlId with
        | ControlTypeByte => exists bytes, p_u8 c = Some bytes /\ e'.2 = CVByteArray bytes
        | _ => p_u8 c = None /\ e'.2 = CVNone
        end.
Proof.
  induction 1 as [|cid ids Hd _ IH].
  - exists [], []. do 3 (split; [done|]). intros j cid Hj. by rewrite lookup_nil in Hj.
  - destruct IH as (ctrls0 & filled & Hfill & Hids0 & Hidsf & Hlk).
    destruct (get_prepare_described dev reserved cid Hd)
      as (e' & c & ctrlId & info & Hprep & Hcs & Hidc & He' & Hty).
    exists (e' :: ctrls0), (c :: filled).
    change (unset (cid :: ids)) with ((cid, CVNone) :: unset ids).
    cbn [get_fill]. rewrite Hprep, Hfill.
    split; [done|]. split; [cbn; by rewrite He', Hids0|].
    split; [cbn; by rewrite Hidc, Hidsf|].
    intros [|j] cid' Hj; simpl in Hj.
    + injection Hj as <-. exists e', c, ctrlId, info. done.
    + by apply Hlk.
Qed.

Lemma take_min_length {A} (l : list A) n : take (n `min` length l) l = take n l.
Proof.
  destruct (le_lt_dec n (length l)).
  - by rewrite Nat.min_l.
  - rewrite Nat.min_r by lia. by rewrite !take_ge by lia.
Qed.

Lemma update_entry_id (cs : ControlInfoMap) e v : (update_entry cs e v).1 = e.1.
Proof.
  unfold update_entry. destruct (cs !! e.1) as [[ctrlId info]|]; [|done].
  by destruct (cid_type ctrlId).
Qed.

Lemma updated_ids (cs : ControlInfoMap) (ctrls : ControlList) vs :
  (updated cs ctrls vs).*1 = ctrls.*1.
Proof.
  revert ctrls. induction vs as [|v vs IH]; intros [|e ctrls]; simpl; try done.
  by rewrite update_entry_id, IH.
Qed.

(** How [getControls] runs on distinct ids the device describes, when
    the walk visits each entry once: [order] is the order of the walk. *)
Lemma getControls_run dev g_ext_ctrls reserved walk ids :
  NoDup ids -> ids <> [] -> Forall (payload_described dev) ids ->
  walk (unset ids) ≡ₚ unset ids ->
  exists ctrls0,
    let order := walked walk ids in
    let request := get_batch dev reserved walk ids in
    let reply := g_ext_ctrls request in
    let ctrls1 := shared_storage reply request ctrls0 in
    let vs1 := after_ioctl reply request in
    order ≡ₚ ids /\
    ctrls0.*1 = order /\ id <$> request = order /\
    (forall j cid, order !! j = Some cid ->
       exists e' c ctrlId info,
         ctrls0 !! j = Some e' /\ request !! j = Some c /\
         controls_ dev !! cid = Some (ctrlId, info) /\ e'.1 = cid /\
         match cid_type ctrlId with
         | ControlTypeByte => exists bytes, p_u8 c = Some bytes /\ e'.2 = CVByteArray bytes
         | _ => p_u8 c = None /\ e'.2 = CVNone
         end) /\
    getControls dev g_ext_ctrls reserved walk ids =
      if decide (ioctl_ret reply = 0)
      then GetReturned (updated (controls_ dev) ctrls1 vs1) [request]
      else if decide (error_idx reply = 0 ∨ error_idx reply >= Z.of_nat (length ids))
      then GetReturned [] [request]
      else GetReturned (updated (controls_ dev) ctrls1
                          (take (Z.to_nat (error_idx reply)) vs1)) [request].
Proof.
  intros Hnd Hne Hdesc Hwalk.
  destruct (walked_unset walk ids Hwalk) as [Hunset Hperm].
  set (order := walked walk ids) in *.
  assert (NoDup order) as Hndo by (by rewrite Hperm).
  assert (Forall (payload_described dev) order) as Hdesco by (by rewrite Hperm).
  assert (length order = length ids) as Hleno by (by rewrite Hperm).
  destruct (get_fill_described dev reserved order Hdesco)
    as (ctrls0 & filled & Hfill & Hids0 & Hidsf & Hlk).
  exists ctrls0. unfold get_batch. rewrite Hunset, Hfill. cbv zeta.
  split; [done|]. split; [done|]. split; [done|]. split; [done|].
  assert (Forall (fun cid => is_Some (controls_ dev !! cid)) ids) as Hknown.
  { eapply Forall_impl; [exact Hdesc|]. intros cid (? & ? & ? & -> & _). eauto. }
  assert (Forall (fun cid => is_Some (controls_ dev !! cid)) order) as Hknowno
    by (by rewrite Hperm).
  unfold getControls. rewrite (get_collect_distinct _ _ []) by done. simpl app.
  cbn [fmap option_fmap option_map]. rewrite Hunset, Hfill.
  assert ((length ids - length (unset order))%nat = 0%nat) as ->
    by (unfold unset; rewrite length_fmap; lia).
  simpl replicate. rewrite app_nil_r. cbv zeta.
  set (reply := g_ext_ctrls filled).
  assert (length (after_ioctl reply filled) = length ids) as Hlen.
  { unfold after_ioctl. by rewrite length_imap, <- Hleno, <- Hidsf, length_fmap. }
  assert (forall n, updateControls (controls_ dev) (shared_storage reply filled ctrls0)
                      (take n (after_ioctl reply filled))
                    = Some (updated (controls_ dev) (shared_storage reply filled ctrls0)
                              (take n (after_ioctl reply filled)))) as Hupd.
  { intros n. apply (updateControls_prefix _ []).
    - simpl. by rewrite shared_storage_ids, Hids0.
    - rewrite fmap_take, after_ioctl_ids, shared_storage_ids, Hidsf, Hids0.
      rewrite length_take, Hlen, <- Hleno. by rewrite take_min_length.
    - apply Forall_forall. intros e He.
      assert (e.1 ∈ order) as Hin.
      { rewrite <- Hids0, <- (shared_storage_ids reply filled). by apply list_elem_of_fmap_2. }
      by apply (proj1 (Forall_forall _ _) Hknowno). }
  destruct ids as [|cid0 ids0] eqn:Hidseq; [done|]. rewrite <- Hidseq in *.
  destruct (decide (ioctl_ret reply = 0)).
  - specialize (Hupd (length (after_ioctl reply filled))).
    rewrite take_ge in Hupd by lia. by rewrite Hupd.
  - rewrite Hlen. destruct (decide (error_idx reply = 0 ∨ _)); [done|].
    by rewrite Hupd.
Qed.

(** X7.  For distinct ids that the device describes, when the ioctl
    succeeds [getControls] returns every requested id once, each with
    the value the driver reported for its element of the batch.  The
    list returned and the batch are in the order of the walk over the
    container, which need not be the order requested. *)
Theorem getControls_success
    (dev : V4L2Device) (g_ext_ctrls : list v4l2_ext_control -> ioctl_reply)
    (reserved : Z -> list Z) (walk : ControlList -> ControlList) (ids : list Z) :
  NoDup ids -> ids <> [] -> Forall (payload_described dev) ids ->
  walk (unset ids) ≡ₚ unset ids ->
  let request := get_batch dev reserved walk ids in
  let reply := g_ext_ctrls request in
  failed reply = false ->
  exists ctrls,
    getControls dev g_ext_ctrls reserved walk ids = GetReturned ctrls [request] /\
    ctrls.*1 = walked walk ids /\ ctrls.*1 ≡ₚ ids /\ id <$> request = ctrls.*1 /\
    forall j cid, ctrls.*1 !! j = Some cid ->
      ctrls !! j = Some (cid, applied_value (controls_ dev) cid (written reply j)).
Proof.
  intros Hnd Hne Hdesc Hwalk.
  destruct (getControls_run dev g_ext_ctrls reserved walk ids Hnd Hne Hdesc Hwalk)
    as (ctrls0 & Hperm & Hids0 & Hidsr & Hlk & Hrun).
  cbv zeta in *. set (request := get_batch dev reserved walk ids) in *.
  set (reply := g_ext_ctrls request) in *. intros Hok.
  assert (ioctl_ret reply = 0) as Hret by (unfold ioctl_ret; by rewrite Hok).
  rewrite decide_True in Hrun by done.
  eexists. split; [exact Hrun|].
  rewrite updated_ids, shared_storage_ids, Hids0.
  split; [done|]. split; [done|]. split; [done|].
  intros j cid Hj.
  destruct (Hlk _ _ Hj) as (e' & c & ctrlId & info & He' & Hc & Hcs & Hid & Hty).
  destruct (after_ioctl_lookup reply _ _ _ Hc) as (c' & Hc' & Hv & Hv64).
  assert (shared_storage reply request ctrls0 !! j
          = Some (match p_u8 c with
                  | Some _ => (e'.1, CVByteArray (w_payload (written reply j)))
                  | None => e'
                  end)) as Hst.
  { unfold shared_storage. by rewrite list_lookup_imap, He', Hc. }
  rewrite (updated_lookup_lt _ _ _ _ _ c' Hst Hc').
  unfold update_entry, applied_value. rewrite Hcs.
  destruct (cid_type ctrlId) eqn:Hct.
  all: try (destruct Hty as [-> _]; simpl; rewrite Hid, Hcs, Hct, ?Hv, ?Hv64; done).
  destruct Hty as (bytes & -> & _). simpl. rewrite Hid, Hcs, Hct. done.
Qed.

Lemma sample_ids_described :
  Forall (payload_described accepting) [3; 4; 1].
Proof.
  repeat constructor.
  - eexists _, _, _. split; [vm_compute; reflexivity|]. split; [vm_compute; reflexivity|].
    split; [by intros _|]. intros H. by vm_compute in H.
  - eexists _, _, _. split; [vm_compute; reflexivity|]. split; [vm_compute; reflexivity|].
    split; [intros H; by vm_compute in H|]. by intros _.
  - eexists _, _, _. split; [vm_compute; reflexivity|]. split; [vm_compute; reflexivity|].
    split; [by intros _|]. intros H. by vm_compute in H.
Qed.

Lemma getControls_success_witness :
  let ids := [3; 4; 1] in
  let reserved := fun n => replicate (Z.to_nat n) 0 in
  let request := get_batch accepting reserved reverse ids in
  NoDup ids /\ ids <> [] /\ Forall (payload_described accepting) ids /\
  reverse (unset ids) ≡ₚ unset ids /\
  failed (reading_reply false 0 0 request) = false /\
  exists ctrls,
    getControls accepting (reading_reply false 0 0) reserved reverse ids
    = GetReturned ctrls [request] /\
    ctrls.*1 = [1; 4; 3] /\ id <$> request = [1; 4; 3] /\
    ctrls !! 0%nat
    = Some (1, applied_value (controls_ accepting) 1
                 (written (reading_reply false 0 0 request) 0%nat)).
Proof.
  intros ids reserved request.
  assert (NoDup ids) as Hnd by (apply (bool_decide_unpack _); vm_compute; reflexivity).
  assert (ids <> []) as Hne by done.
  assert (reverse (unset ids) ≡ₚ unset ids) as Hwalk by apply reverse_Permutation.
  assert (failed (reading_reply false 0 0 request) = false) as Hok by reflexivity.
  split; [exact Hnd|]. split; [exact Hne|]. split; [exact sample_ids_described|].
  split; [exact Hwalk|]. split; [exact Hok|].
  destruct (getControls_success accepting (reading_reply false 0 0) reserved reverse ids
              Hnd Hne sample_ids_described Hwalk Hok)
    as (ctrls & Hget & Hids & _ & Hreq & Hvalues).
  exists ctrls. split; [exact Hget|]. split; [exact Hids|].
  split; [exact (eq_trans Hreq Hids)|].
  apply Hvalues. by rewrite Hids.
Defined.

(** X8.  When the ioctl fails with an [error_idx] of 0 or at least the
    number of requested ids, [getControls] returns an empty list. *)
Theorem getControls_generic_failure
    (dev : V4L2Device) (g_ext_ctrls : list v4l2_ext_control -> ioctl_reply)
    (reserved : Z -> list Z) (walk : ControlList -> ControlList) (ids : list Z) :
  NoDup ids -> ids <> [] -> Forall (payload_described dev) ids ->
  walk (unset ids) ≡ₚ unset ids ->
  let request := get_batch dev reserved walk ids in
  let reply := g_ext_ctrls request in
  failed reply = true -> errno reply <> 0 ->
  error_idx reply = 0 \/ error_idx reply >= Z.of_nat (length ids) ->
  getControls dev g_ext_ctrls reserved walk ids = GetReturned [] [request].
Proof.
  intros Hnd Hne Hdesc Hwalk.
  destruct (getControls_run dev g_ext_ctrls reserved walk ids Hnd Hne Hdesc Hwalk)
    as (ctrls0 & _ & _ & _ & _ & Hrun).
  cbv zeta in *. intros Hfail Herrno Hidx. rewrite Hrun.
  rewrite decide_False by (unfold ioctl_ret; rewrite Hfail; lia).
  by rewrite decide_True.
Qed.

Lemma getControls_generic_failure_witness :
  let ids := [3; 4; 1] in
  let reserved := fun n => replicate (Z.to_nat n) 0 in
  let reply := reading_reply true 22 3 (get_batch accepting reserved reverse ids) in
  NoDup ids /\ ids <> [] /\ Forall (payload_described accepting) ids /\
  reverse (unset ids) ≡ₚ unset ids /\
  failed reply = true /\ errno reply <> 0 /\
  (error_idx reply = 0 \/ error_idx reply >= Z.of_nat (length ids)) /\
  getControls accepting (reading_reply true 22 3) reserved reverse ids
  = GetReturned [] [get_batch accepting reserved reverse ids].
Proof.
  intros ids reserved reply.
  assert (NoDup ids) as Hnd by (apply (bool_decide_unpack _); vm_compute; reflexivity).
  assert (ids <> []) as Hne by done.
  assert (reverse (unset ids) ≡ₚ unset ids) as Hwalk by apply reverse_Permutation.
  assert (failed reply = true) as Hfail by reflexivity.
  assert (errno reply <> 0) as Herrno by done.
  assert (error_idx reply = 0 \/ error_idx reply >= Z.of_nat (length ids)) as Hidx
    by (right; simpl; lia).
  split; [exact Hnd|]. split; [exact Hne|]. split; [exact sample_ids_described|].
  split; [exact Hwalk|].
  split; [exact Hfail|]. split; [exact Herrno|]. split; [exact Hidx|].
  exact (getControls_generic_failure accepting (reading_reply true 22 3) reserved reverse
           ids Hnd Hne sample_ids_described Hwalk Hfail Herrno Hidx).
Defined.

(** X9.  When the driver fails the read at an index [i] strictly between
    0 and the number of ids, the result of [getControls] is not empty: it
    lists every requested id once, in the order of the walk over the
    container; the first [i] entries of the walk hold the value the
    driver reported, and every entry from position [i] of the walk on
    that is not a byte array holds an empty value. *)
Theorem getControls_partial_failure
    (dev : V4L2Device) (g_ext_ctrls : list v4l2_ext_control -> ioctl_reply)
    (reserved : Z -> list Z) (walk : ControlList -> ControlList) (ids : list Z) (i : nat) :
  NoDup ids -> Forall (payload_described dev) ids ->
  walk (unset ids) ≡ₚ unset ids ->
  (0 < i < length ids)%nat ->
  let request := get_batch dev reserved walk ids in
  let reply := g_ext_ctrls request in
  failed reply = true -> errno reply <> 0 -> error_idx reply = Z.of_nat i ->
  exists ctrls,
    getControls dev g_ext_ctrls reserved walk ids = GetReturned ctrls [request] /\
    ctrls.*1 = walked walk ids /\ ctrls.*1 ≡ₚ ids /\ id <$> request = ctrls.*1 /\
    (forall j cid, (j < i)%nat -> ctrls.*1 !! j = Some cid ->
       ctrls !! j = Some (cid, applied_value (controls_ dev) cid (written reply j))) /\
    (forall j cid ctrlId info, (i <= j)%nat -> ctrls.*1 !! j = Some cid ->
       controls_ dev !! cid = Some (ctrlId, info) ->
       cid_type ctrlId <> ControlTypeByte ->
       ctrls !! j = Some (cid, CVNone)).
Proof.
  intros Hnd Hdesc Hwalk Hi.
  assert (ids <> []) as Hne by (intros ->; simpl in Hi; lia).
  destruct (getControls_run dev g_ext_ctrls reserved walk ids Hnd Hne Hdesc Hwalk)
    as (ctrls0 & Hperm & Hids0 & Hidsr & Hlk & Hrun).
  cbv zeta in *. set (request := get_batch dev reserved walk ids) in *.
  set (reply := g_ext_ctrls request) in *. intros Hfail Herrno Hidx.
  rewrite decide_False in Hrun by (unfold ioctl_ret; rewrite Hfail; lia).
  rewrite decide_False in Hrun by lia. rewrite Hidx, Nat2Z.id in Hrun.
  assert (forall j (cid : Z) e' c, ctrls0 !! j = Some e' -> request !! j = Some c ->
            shared_storage reply request ctrls0 !! j
            = Some (match p_u8 c with
                    | Some _ => (e'.1, CVByteArray (w_payload (written reply j)))
                    | None => e'
                    end)) as Hst.
  { intros j cid e' c He' Hc. unfold shared_storage. by rewrite list_lookup_imap, He', Hc. }
  eexists. split; [exact Hrun|].
  rewrite updated_ids, shared_storage_ids, Hids0.
  split; [done|]. split; [done|]. split; [done|]. split.
  - intros j cid Hj Hcid.
    destruct (Hlk _ _ Hcid) as (e' & c & ctrlId & info & He' & Hc & Hcs & Hid & Hty).
    destruct (after_ioctl_lookup reply _ _ _ Hc) as (c' & Hc' & Hv & Hv64).
    rewrite (updated_lookup_lt _ _ _ _ _ c' (Hst _ cid _ _ He' Hc))
      by (by rewrite lookup_take_lt).
    unfold update_entry, applied_value. rewrite Hcs.
    destruct (cid_type ctrlId) eqn:Hct.
    all: try (destruct Hty as [-> _]; simpl; rewrite Hid, Hcs, Hct, ?Hv, ?Hv64; done).
    destruct Hty as (bytes & -> & _). simpl. rewrite Hid, Hcs, Hct. done.
  - intros j cid ctrlId info Hj Hcid Hcs Hnb.
    destruct (Hlk _ _ Hcid) as (e' & c & ctrlId' & info' & He' & Hc & Hcs' & Hid & Hty).
    rewrite Hcs in Hcs'. injection Hcs' as <- <-.
    rewrite updated_lookup_ge.
    + rewrite (Hst _ cid _ _ He' Hc).
      destruct (cid_type ctrlId); try done; destruct Hty as [-> Hv]; destruct e';
        simpl in *; by subst.
    + rewrite length_take. lia.
Qed.

Lemma getControls_partial_failure_witness :
  let ids := [3; 4; 1] in
  let reserved := fun n => replicate (Z.to_nat n) 0 in
  let request := get_batch accepting reserved reverse ids in
  let reply := reading_reply true 22 2 request in
  NoDup ids /\ Forall (payload_described accepting) ids /\
  reverse (unset ids) ≡ₚ unset ids /\ (0 < 2 < length ids)%nat /\
  failed reply = true /\ errno reply <> 0 /\ error_idx reply = 2 /\
  exists ctrls,
    getControls accepting (reading_reply true 22 2) reserved reverse ids
    = GetReturned ctrls [request] /\
    ctrls.*1 = [1; 4; 3] /\ ctrls !! 2%nat = Some (3, CVNone).
Proof.
  intros ids reserved request reply.
  assert (NoDup ids) as Hnd by (apply (bool_decide_unpack _); vm_compute; reflexivity).
  assert (reverse (unset ids) ≡ₚ unset ids) as Hwalk by apply reverse_Permutation.
  assert ((0 < 2 < length ids)%nat) as Hi by (simpl; lia).
  assert (failed reply = true) as Hfail by reflexivity.
  assert (errno reply <> 0) as Herrno by done.
  assert (error_idx reply = Z.of_nat 2) as Hidx by reflexivity.
  split; [exact Hnd|]. split; [exact sample_ids_described|]. split; [exact Hwalk|].
  split; [exact Hi|].
  split; [exact Hfail|]. split; [exact Herrno|]. split; [exact Hidx|].
  destruct (getControls_partial_failure accepting (reading_reply true 22 2) reserved reverse
              ids 2 Hnd sample_ids_described Hwalk Hi Hfail Herrno Hidx)
    as (ctrls & Hget & Hids & _ & _ & _ & Hrest).
  exists ctrls. split; [exact Hget|]. split; [exact Hids|].
  apply (Hrest 2%nat 3 {| cid_id := 3; cid_type := ControlTypeInteger64 |}
           {| ci_min := CVInteger64 0; ci_max := CVInteger64 255; ci_def := CVInteger64 0 |});
    [lia|by rewrite Hids|vm_compute; reflexivity|discriminate].
Defined.

(** *** [updateControlInfo] *)

Lemma listControls_in_sync drv : in_sync (listControls (unopened drv)).
Proof.
  intros k ctrlId info Hk.
  pose proof (V4L2_more_properties.listControls_inv (unopened drv) k) as [H2 H1].
  cbn [fst snd] in H2, H1. cbn [controlInfo_ driver unopened] in H1, H2.
  rewrite lookup_empty in H1. rewrite H2 in Hk. rewrite H1.
  destruct (listed (enumerated drv) k) as [q|] eqn:Hq; [|done].
  injection Hk as <- <-.
  apply V4L2_more_properties.head_filter_Some in Hq as [_ [_ Hid]].
  split; [done|]. eauto.
Qed.

Lemma updateControlInfo_fold query (ci0 : gmap Z v4l2_query_ext_ctrl) (m : ControlInfoMap) :
  (forall k control, m !! k = Some control ->
     cid_id control.1 = k /\ is_Some (ci0 !! k)) ->
  exists ci cs,
    map_fold (updateControlInfo_step query) (Some (ci0, ∅)) m = Some (ci, cs) /\
    forall k,
      cs !! k = refreshed_control query (ci0 !! k) <$> m !! k /\
      ci !! k = match m !! k with
                | Some _ => refreshed_query query <$> ci0 !! k
                | None => ci0 !! k
                end.
Proof.
  apply (map_fold_weak_ind
    (fun acc (m : ControlInfoMap) =>
       (forall k control, m !! k = Some control ->
          cid_id control.1 = k /\ is_Some (ci0 !! k)) ->
       exists ci cs,
         acc = Some (ci, cs) /\
         forall k,
           cs !! k = refreshed_control query (ci0 !! k) <$> m !! k /\
           ci !! k = match m !! k with
                     | Some _ => refreshed_query query <$> ci0 !! k
                     | None => ci0 !! k
                     end)).
  - intros _. exists ci0, ∅. split; [done|]. intros k. by rewrite !lookup_empty.
  - intros i x m' r Hi IH Hm.
    destruct IH as (ci & cs & -> & Hchar).
    { intros k control Hk. apply Hm. rewrite lookup_insert_ne; [done|]. congruence. }
    destruct (Hm i x) as [Hid [q Hq]]; [by rewrite lookup_insert_eq|].
    unfold updateControlInfo_step. rewrite Hid.
    assert (ci !! i = Some q) as Hci.
    { destruct (Hchar i) as [_ ->]. by rewrite Hi. }
    rewrite Hci. destruct (query q) as [q'|] eqn:Hquery.
    + eexists _, _. split; [done|]. intros k. destruct (decide (i = k)) as [<-|Hne].
      * rewrite !lookup_insert_eq, Hq. simpl.
        unfold refreshed_control, refreshed_query. simpl. by rewrite Hquery.
      * rewrite !lookup_insert_ne by done. apply Hchar.
    + eexists _, _. split; [done|]. intros k. destruct (decide (i = k)) as [<-|Hne].
      * rewrite !lookup_insert_eq, Hq, Hci. simpl.
        unfold refreshed_control, refreshed_query. simpl. by rewrite Hquery.
      * rewrite !lookup_insert_ne by done. apply Hchar.
Qed.

Lemma updateControlInfo_char
    (dev : V4L2Device) (query : v4l2_query_ext_ctrl -> option v4l2_query_ext_ctrl) :
  in_sync dev ->
  exists dev',
    updateControlInfo dev query = Some dev' /\
    driver dev' = driver dev /\
    forall k,
      controls_ dev' !! k
        = refreshed_control query (controlInfo_ dev !! k) <$> controls_ dev !! k /\
      controlInfo_ dev' !! k
        = match controls_ dev !! k with
          | Some _ => refreshed_query query <$> controlInfo_ dev !! k
          | None => controlInfo_ dev !! k
          end.
Proof.
  intros Hsync.
  destruct (updateControlInfo_fold query (controlInfo_ dev) (controls_ dev))
    as (ci & cs & Hfold & Hchar).
  { intros k [ctrlId info] Hk. destruct (Hsync _ _ _ Hk) as [Hid (q & Hq & _)]. eauto. }
  unfold updateControlInfo. rewrite Hfold. eexists. split; [done|]. split; [done|].
  exact Hchar.
Qed.

(** X10.  On a device whose two maps describe the same controls,
    [updateControlInfo] goes through every control: each keeps its id and
    its [ControlId]; a control whose query fails keeps its information as
    it was, without stopping the refresh of the others; a control whose
    query succeeds holds the [ControlInfo] derived from the answer, and
    [controlInfo_] holds the answer.  Controls that are not in
    [controls_] are not touched. *)
Theorem updateControlInfo_refreshes
    (dev : V4L2Device) (query : v4l2_query_ext_ctrl -> option v4l2_query_ext_ctrl) :
  in_sync dev ->
  exists dev',
    updateControlInfo dev query = Some dev' /\
    driver dev' = driver dev /\
    forall k,
      controls_ dev' !! k
        = refreshed_control query (controlInfo_ dev !! k) <$> controls_ dev !! k /\
      controlInfo_ dev' !! k
        = match controls_ dev !! k with
          | Some _ => refreshed_query query <$> controlInfo_ dev !! k
          | None => controlInfo_ dev !! k
          end.
Proof. apply updateControlInfo_char. Qed.

Lemma updateControlInfo_refreshes_witness :
  let query := fun q : v4l2_query_ext_ctrl =>
    if q_id q =? 1 then None
    else Some {| q_id := q_id q; q_type := q_type q; q_minimum := 5; q_maximum := 9;
                 q_default_value := 5; q_flags := q_flags q; q_elems := q_elems q |} in
  in_sync accepting /\
  exists dev',
    updateControlInfo accepting query = Some dev' /\
    controls_ dev' !! 1 = controls_ accepting !! 1 /\
    controls_ dev' !! 2
    = Some ({| cid_id := 2; cid_type := ControlTypeInteger32 |},
            {| ci_min := CVInteger32 5; ci_max := CVInteger32 9; ci_def := CVInteger32 5 |}).
Proof.
  intros query.
  assert (in_sync accepting) as Hsync by apply listControls_in_sync.
  split; [exact Hsync|].
  destruct (updateControlInfo_refreshes accepting query Hsync) as (dev' & Hupd & _ & Hchar).
  exists dev'. split; [exact Hupd|]. split.
  - rewrite (proj1 (Hchar 1)). vm_compute. reflexivity.
  - rewrite (proj1 (Hchar 2)). vm_compute. reflexivity.
Defined.

(** X11.  The two maps stay in step across a refresh, so that a device
    can be refreshed again and read from. *)
Theorem updateControlInfo_keeps_in_sync
    (dev dev' : V4L2Device) (query : v4l2_query_ext_ctrl -> option v4l2_query_ext_ctrl) :
  in_sync dev ->
  updateControlInfo dev query = Some dev' ->
  in_sync dev'.
Proof.
  intros Hsync Hupd.
  destruct (updateControlInfo_char dev query Hsync) as (dev'' & Hupd' & _ & Hchar).
  rewrite Hupd in Hupd'. injection Hupd' as <-.
  intros k ctrlId info Hk. destruct (Hchar k) as [Hcs Hci]. rewrite Hcs in Hk.
  destruct (controls_ dev !! k) as [[ctrlId0 info0]|] eqn:Hk0; [|done].
  destruct (Hsync _ _ _ Hk0) as [Hid (q & Hq & Hinfo)].
  rewrite Hci, Hq. simpl in Hk |- *. unfold refreshed_control, refreshed_query in *.
  rewrite Hq in Hk. simpl in Hk.
  destruct (query q) as [q'|]; simpl in *; injection Hk as <- <-; eauto.
Qed.

Lemma updateControlInfo_keeps_in_sync_witness :
  let query := fun q : v4l2_query_ext_ctrl =>
    if q_id q =? 2 then None
    else Some {| q_id := q_id q; q_type := q_type q; q_minimum := 1; q_maximum := 3;
                 q_default_value := 2; q_flags := q_flags q; q_elems := q_elems q |} in
  in_sync accepting /\
  exists dev', updateControlInfo accepting query = Some dev' /\ in_sync dev'.
Proof.
  intros query.
  assert (in_sync accepting) as Hsync by apply listControls_in_sync.
  split; [exact Hsync|].
  destruct (updateControlInfo_char accepting query Hsync) as (dev' & Hupd & _).
  exists dev'. split; [exact Hupd|].
  exact (updateControlInfo_keeps_in_sync accepting dev' query Hsync Hupd).
Defined.



End V4L2_read_properties.

(** ** [V4L2Device]: frame start events *)

Module V4L2_node_properties.
Import V4L2_node.

(** X13.  On a device whose notifier is enabled exactly when frame start
    events are, [setFrameStartEnabled] keeps it so; it returns what the
    ioctl returned (0 when there is nothing to change); a failed
    subscription changes nothing, while disabling takes effect even when
    the ioctl fails. *)
Theorem setFrameStartEnabled_armed (d : node) (enable : bool) (ioctl_ret : Z) :
  armed d ->
  exists ret d' io,
    setFrameStartEnabled d enable ioctl_ret = Some (ret, d', io) /\
    armed d' /\ fd_ d' = fd_ d /\
    (ret = 0 \/ ret = ioctl_ret) /\
    (ret = 0 -> frameStartEnabled_ d' = enable) /\
    (enable = false -> frameStartEnabled_ d' = false) /\
    (ret <> 0 -> enable = true -> d' = d).
Proof.
  destruct d as [fd [n|] fs]; unfold armed, setFrameStartEnabled; simpl;
    intros Harmed; [injection Harmed as ->|discriminate Harmed].
  destruct fs, enable; simpl; try destruct (Z.eqb_spec ioctl_ret 0) as [Hz|Hnz]; simpl;
    eexists _, _, _; (split; [reflexivity|]); simpl;
    (split; [reflexivity|]); (split; [reflexivity|]);
    (split; [auto|]); (split; [auto; intros; congruence|]);
    (split; [auto; intros; congruence|]); auto; intros; congruence.
Qed.

Lemma setFrameStartEnabled_armed_witness :
  let d := (setFd constructed 5).2 in
  armed d /\
  exists ret d' io,
    setFrameStartEnabled d true 0 = Some (ret, d', io) /\
    armed d' /\ fd_ d' = 5 /\ (ret = 0 -> frameStartEnabled_ d' = true).
Proof.
  intros d. assert (armed d) as Harmed by reflexivity.
  split; [exact Harmed|].
  destruct (setFrameStartEnabled_armed d true 0 Harmed)
    as (ret & d' & io & Hset & Harmed' & Hfd & _ & Hon & _).
  exists ret, d', io. split; [exact Hset|]. split; [exact Harmed'|].
  split; [exact Hfd|exact Hon].
Defined.

(** X14.  When [eventAvailable], run by the enabled notifier of a device
    with frame start events enabled, cannot dequeue an event, or dequeues
    one that is not a frame sync event, it disables the notifier but
    frame start events stay marked enabled; a following
    [setFrameStartEnabled(true)] then returns 0 without any ioctl and the
    notifier stays disabled. *)
Theorem eventAvailable_failure_disarms (d : node) (dq_ret event_type sequence r : Z) :
  fdEventNotifier_ d = Some true ->
  frameStartEnabled_ d = true ->
  dq_ret < 0 \/ event_type <> V4L2_EVENT_FRAME_SYNC ->
  let d1 := (eventAvailable d dq_ret event_type sequence).1 in
  (eventAvailable d dq_ret event_type sequence).2 = None /\
  fdEventNotifier_ d1 = Some false /\
  frameStartEnabled_ d1 = true /\
  setFrameStartEnabled d1 true r = Some (0, d1, []).
Proof.
  intros _ Hfs Hbad. cbv zeta. unfold eventAvailable.
  destruct (Z.ltb_spec dq_ret 0) as [Hlt|Hge].
  - simpl. unfold setFrameStartEnabled. simpl. by rewrite Hfs.
  - destruct Hbad as [Hlt|Hty]; [lia|].
    destruct (Z.eqb_spec event_type V4L2_EVENT_FRAME_SYNC) as [|_]; [done|].
    simpl. unfold setFrameStartEnabled. simpl. by rewrite Hfs.
Qed.

Lemma eventAvailable_failure_disarms_witness :
  let d := {| fd_ := 5; fdEventNotifier_ := Some true; frameStartEnabled_ := true |} in
  let d1 := (eventAvailable d (-11) 0 0).1 in
  fdEventNotifier_ d = Some true /\
  frameStartEnabled_ d = true /\
  (-11 < 0 \/ 0 <> V4L2_EVENT_FRAME_SYNC) /\
  fdEventNotifier_ d1 = Some false /\
  setFrameStartEnabled d1 true 0 = Some (0, d1, []).
Proof.
  intros d d1.
  assert (fdEventNotifier_ d = Some true) as Hon by reflexivity.
  assert (frameStartEnabled_ d = true) as Hfs by reflexivity.
  assert (-11 < 0 \/ 0 <> V4L2_EVENT_FRAME_SYNC) as Hbad by (left; lia).
  split; [exact Hon|]. split; [exact Hfs|]. split; [exact Hbad|].
  destruct (eventAvailable_failure_disarms d (-11) 0 0 0 Hon Hfs Hbad)
    as (_ & Hn & _ & Hset).
  split; [exact Hn|exact Hset].
Defined.

(** X15.  [close] does not clear the frame start flag: a device closed
    with frame start events enabled and given a new file descriptor has a
    disabled notifier, and [setFrameStartEnabled(true)] returns 0 without
    subscribing or enabling it. *)
Theorem close_keeps_frame_start_flag (d : node) (fd r : Z) :
  isOpen d = true ->
  frameStartEnabled_ d = true ->
  let d1 := close d in
  let d2 := (setFd d1 fd).2 in
  isOpen d1 = false /\
  (setFd d1 fd).1 = 0 /\
  fd_ d2 = fd /\ fdEventNotifier_ d2 = Some false /\
  setFrameStartEnabled d2 true r = Some (0, d2, []).
Proof.
  intros Hopen Hfs. cbv zeta. unfold close. rewrite Hopen.
  unfold setFd, isOpen. simpl. unfold setFrameStartEnabled. simpl. by rewrite Hfs.
Qed.

Lemma close_keeps_frame_start_flag_witness :
  let d := {| fd_ := 5; fdEventNotifier_ := Some true; frameStartEnabled_ := true |} in
  let d2 := (setFd (close d) 6).2 in
  isOpen d = true /\ frameStartEnabled_ d = true /\
  fdEventNotifier_ d2 = Some false /\
  setFrameStartEnabled d2 true 0 = Some (0, d2, []).
Proof.
  intros d d2.
  assert (isOpen d = true) as Hopen by reflexivity.
  assert (frameStartEnabled_ d = true) as Hfs by reflexivity.
  split; [exact Hopen|]. split; [exact Hfs|].
  destruct (close_keeps_frame_start_flag d 6 0 Hopen Hfs) as (_ & _ & _ & Hn & Hset).
  split; [exact Hn|exact Hset].
Defined.

End V4L2_node_properties.

(** ** The RkISP1 module: more on the auto-exposure loop *)

Module RkISP1_more_properties.
Import RkISP1 RkISP1_notions RkISP1_properties.

Lemma band_agrees_all :
  forallb band_agrees (map Z.of_nat (seq 16 240)) = true.
Proof. vm_compute. reflexivity. Qed.

Lemma ae_state_band value :
  16 <= value <= 255 ->
  (ae_state (ae_factor value) =? 2) = bool_decide (58 <= value <= 63).
Proof.
  intros Hv.
  pose proof (proj1 (forallb_forall _ _) band_agrees_all value) as H.
  assert (band_agrees value = true) as Hag.
  { apply H. apply in_map_iff. exists (Z.to_nat value). split; [lia|].
    apply in_seq. lia. }
  unfold band_agrees in Hag. apply eqb_prop in Hag. rewrite Hag.
  destruct (Z.leb_spec 58 value), (Z.leb_spec value 63); simpl;
    [by rewrite bool_decide_eq_true_2 by lia| | |];
    by rewrite bool_decide_eq_false_2 by lia.
Qed.

Lemma setControls_set_action s frame : setControls s frame = [set_action s frame].
Proof.
  unfold setControls, set_action. cbn [ControlList_set].
  destruct (decide (V4L2_CID_EXPOSURE = V4L2_CID_ANALOGUE_GAIN)) as [H|_]; [|done].
  by vm_compute in H.
Qed.

(** X16.  With auto-exposure measurements, the metadata action closing a
    statistics step reports [AeLocked] as true exactly when the robust
    mean lies between 58 and 63. *)
Theorem ae_locked_between_58_and_63
    (s s' : IPARkISP1) (frame : Z) (stats : rkisp1_stat_buffer) (acts : actions) :
  Z.land (meas_type stats) RKISP1_CIF_ISP_STAT_AUTOEXP <> 0 ->
  updateStatistics s frame stats = Some (s', acts) ->
  exists value,
    ae_mean stats = Some value /\
    last acts = Some (metadata_action frame (bool_decide (58 <= value <= 63))).
Proof.
  intros Hflag. unfold updateStatistics.
  destruct (Z.eqb_spec (Z.land (meas_type stats) RKISP1_CIF_ISP_STAT_AUTOEXP) 0); [done|].
  destruct (ae_mean stats) as [value|] eqn:Hmean; [|done].
  rewrite metadataReady_state, (ae_state_band value) by (by eapply ae_mean_bounds).
  destruct (frame mod 3 =? 0).
  - destruct (ae_update s (ae_factor value)) as [s1|]; [|done].
    intros [= <- <-]. exists value. split; [done|]. reflexivity.
  - intros [= <- <-]. exists value. done.
Qed.

Lemma ae_locked_between_58_and_63_witness :
  let s := Samples.configured_with {[0 := Samples.sensor_controls]} in
  Z.land (meas_type Samples.bright_stats) RKISP1_CIF_ISP_STAT_AUTOEXP <> 0 /\
  updateStatistics s 1 Samples.bright_stats = Some (s, [metadata_action 1 false]) /\
  exists value,
    ae_mean Samples.bright_stats = Some value /\
    last [metadata_action 1 false]
    = Some (metadata_action 1 (bool_decide (58 <= value <= 63))).
Proof.
  intros s.
  assert (Z.land (meas_type Samples.bright_stats) RKISP1_CIF_ISP_STAT_AUTOEXP <> 0) as Hflag
    by (vm_compute; discriminate).
  assert (updateStatistics s 1 Samples.bright_stats = Some (s, [metadata_action 1 false]))
    as Hstep by (vm_compute; reflexivity).
  split; [exact Hflag|]. split; [exact Hstep|].
  exact (ae_locked_between_58_and_63 s s 1 Samples.bright_stats _ Hflag Hstep).
Defined.

Lemma ae_update_autoExposure s enabled factor :
  ae_update (with_autoExposure s enabled) factor
  = (fun s' => with_autoExposure s' enabled) <$> ae_update s factor.
Proof.
  unfold ae_update, ae_exposure, ae_residual. simpl.
  destruct (to_u64 _) as [e|]; [|done]. simpl.
  destruct (to_u64 _) as [g|]; done.
Qed.

(** X17.  The loop does not look at the auto-exposure flag: a statistics
    step of a module with the flag cleared (or set) computes the same
    exposure and gain and emits the same actions as with the flag as it
    was. *)
Theorem updateStatistics_ignores_autoExposure
    (s : IPARkISP1) (enabled : bool) (frame : Z) (stats : rkisp1_stat_buffer) :
  updateStatistics (with_autoExposure s enabled) frame stats
  = (fun r => (with_autoExposure r.1 enabled, r.2)) <$> updateStatistics s frame stats.
Proof.
  unfold updateStatistics.
  destruct (_ =? 0); [done|]. destruct (ae_mean stats) as [value|]; [|done].
  destruct (frame mod 3 =? 0); [|done].
  rewrite ae_update_autoExposure. by destruct (ae_update s (ae_factor value)).
Qed.

(** X18.  In every state reached after a successful [configure] whose
    stored ranges are not empty, the quantities the step divides by are
    at least 1: the stored exposure, and the minimum gain; so are the
    stored gain and minimum exposure, and all fit 32 bits. *)
Theorem ae_divisors_positive (entityControls : gmap Z ControlInfoMap) (s : IPARkISP1) :
  reachable entityControls s ->
  minExposure_ s <= maxExposure_ s ->
  minGain_ s <= maxGain_ s ->
  1 <= minGain_ s /\ 1 <= exposure_ s < 2 ^ 32 /\
  1 <= minExposure_ s /\ 1 <= gain_ s < 2 ^ 32.
Proof.
  intros Hreach HrE HrG.
  destruct (reachable_inv _ _ Hreach) as (HminE & HmaxE & HminG & HmaxG & HE & HG).
  specialize (HE HrE). specialize (HG HrG). lia.
Qed.

Lemma ae_divisors_positive_witness :
  let ec : gmap Z ControlInfoMap := {[0 := Samples.sensor_controls]} in
  let s := Samples.configured_with ec in
  reachable ec s /\ minExposure_ s <= maxExposure_ s /\ minGain_ s <= maxGain_ s /\
  1 <= minGain_ s /\ 1 <= exposure_ s < 2 ^ 32.
Proof.
  intros ec s.
  assert (reachable ec s) as Hreach by (eapply reach_configure; apply configure_sample).
  assert (minExposure_ s <= maxExposure_ s) as HrE by (vm_compute; discriminate).
  assert (minGain_ s <= maxGain_ s) as HrG by (vm_compute; discriminate).
  split; [exact Hreach|]. split; [exact HrE|]. split; [exact HrG|].
  destruct (ae_divisors_positive ec s Hreach HrE HrG) as (H1 & H2 & _).
  split; [exact H1|exact H2].
Defined.

(** X19.  A statistics event with a defined outcome emits one metadata
    action for its frame, last; it is preceded by a controls-to-apply
    action only on a frame that is a multiple of 3 carrying
    auto-exposure measurements, and that action carries the exposure and
    gain just stored and is addressed to the next frame. *)
Theorem statistics_event_actions
    (s s' : IPARkISP1) (event : RkISP1Event) (acts : actions) :
  e_op event = EventSignalStatBuffer ->
  processEvent s event = Some (s', acts) ->
  exists stats report,
    buffersMemory_ s !! e_bufferId event = Some (StatBuffer stats) /\
    a_op report = ActionMetadata /\
    ((acts = [(e_frame event, report)] /\ s' = s) \/
     (acts = [set_action s' (wrap_u32 (e_frame event + 1)); (e_frame event, report)] /\
      e_frame event mod 3 = 0 /\
      Z.land (meas_type stats) RKISP1_CIF_ISP_STAT_AUTOEXP <> 0)).
Proof.
  intros Hop. unfold processEvent. rewrite Hop.
  destruct (buffersMemory_ s !! e_bufferId event) as [[stats|params]|]; try done.
  unfold updateStatistics.
  destruct (Z.eqb_spec (Z.land (meas_type stats) RKISP1_CIF_ISP_STAT_AUTOEXP) 0) as [|Hflag].
  { intros [= <- <-]. eexists stats, _. split; [done|]. split; [|left; done]. done. }
  destruct (ae_mean stats) as [value|]; [|done].
  destruct (Z.eqb_spec (e_frame event mod 3) 0) as [Hmod|Hmod].
  - destruct (ae_update s (ae_factor value)) as [s1|]; [|done].
    rewrite setControls_set_action, metadataReady_state. intros [= <- <-].
    eexists stats, _. split; [done|]. split; [|right; done]. done.
  - rewrite metadataReady_state. intros [= <- <-].
    eexists stats, _. split; [done|]. split; [|left; done]. done.
Qed.

Lemma statistics_event_actions_witness :
  let s := Samples.configured_with {[0 := Samples.sensor_controls]} in
  let event := Samples.stat_event 0 1 in
  e_op event = EventSignalStatBuffer /\
  processEvent s event
  = Some (s, [set_action s 1; metadata_action 0 false]) /\
  exists stats report,
    buffersMemory_ s !! e_bufferId event = Some (StatBuffer stats) /\
    a_op report = ActionMetadata.
Proof.
  intros s event.
  assert (e_op event = EventSignalStatBuffer) as Hop by reflexivity.
  assert (processEvent s event = Some (s, [set_action s 1; metadata_action 0 false]))
    as Hev by (vm_compute; reflexivity).
  split; [exact Hop|]. split; [exact Hev|].
  destruct (statistics_event_actions s s event _ Hop Hev) as (stats & report & Hb & Hr & _).
  exists stats, report. split; [exact Hb|exact Hr].
Defined.

(** X20.  [configure] returns 0 or [-EINVAL] when it returns; a failed
    call leaves the exposure, the gain and their ranges as they were; a
    successful one stores the controls of entity 0, enables
    auto-exposure and starts from the minimum exposure and gain. *)
Theorem configure_settings
    (s s' : IPARkISP1) (entityControls : gmap Z ControlInfoMap) (ret : Z) :
  configure s entityControls = Returned ret s' ->
  (ret = - EINVAL /\ settings s' = settings s /\ autoExposure_ s' = autoExposure_ s) \/
  (ret = 0 /\ entityControls !! 0 = Some (ctrls_ s') /\ autoExposure_ s' = true /\
   exposure_ s' = minExposure_ s' /\ gain_ s' = minGain_ s').
Proof.
  unfold configure. destruct (decide (entityControls = ∅)).
  { intros [= <- <-]. by left. }
  destruct (entityControls !! 0) as [at0|]; [|done].
  destruct (at0 !! V4L2_CID_EXPOSURE) as [itExp|]; [|intros [= <- <-]; by left].
  destruct (at0 !! V4L2_CID_ANALOGUE_GAIN) as [itGain|]; [|intros [= <- <-]; by left].
  destruct (get_int32 (ci_min itExp.2)) as [expMin|]; [|done].
  destruct (get_int32 (ci_max itExp.2)) as [expMax|]; [|done].
  destruct (get_int32 (ci_min itGain.2)) as [gainMin|]; [|done].
  destruct (get_int32 (ci_max itGain.2)) as [gainMax|]; [|done].
  intros [= <- <-]. by right.
Qed.

Lemma configure_settings_witness :
  configure Samples.unconfigured {[0 := Samples.sensor_controls]}
  = Returned 0 (Samples.configured_with {[0 := Samples.sensor_controls]}) /\
  exposure_ (Samples.configured_with {[0 := Samples.sensor_controls]}) = 4 /\
  gain_ (Samples.configured_with {[0 := Samples.sensor_controls]}) = 16.
Proof.
  split; [exact configure_sample|].
  destruct (configure_settings _ _ _ _ configure_sample) as [[Hret _]|(_ & _ & _ & He & Hg)].
  - discriminate Hret.
  - rewrite He, Hg. split; vm_compute; reflexivity.
Defined.

End RkISP1_more_properties.

(** ** The IMX477 camera helper *)

Module Imx477_properties.
Import RkISP1 Imx477.

Lemma code_round_trip_all :
  forallb code_round_trip (map Z.of_nat (seq 0 1024)) = true.
Proof. vm_compute. reflexivity. Qed.

(** X21.  A gain code from 0 to 1023 converted to a gain by [Gain] and
    back by [GainCode] comes back as itself or as the code below it: the
    truncation in [GainCode] loses one step for some codes, 5 among them
    (it comes back as 4). *)
Theorem gain_code_round_trip (gain_code : Z) :
  0 <= gain_code <= 1023 ->
  (GainCode (Gain gain_code) = Some gain_code \/
   GainCode (Gain gain_code) = Some (gain_code - 1)) /\
  GainCode (Gain 5) = Some 4.
Proof.
  intros Hc. split; [|vm_compute; reflexivity].
  pose proof (proj1 (forallb_forall _ _) code_round_trip_all gain_code) as H.
  assert (code_round_trip gain_code = true) as Hrt.
  { apply H. apply in_map_iff. exists (Z.to_nat gain_code). split; [lia|].
    apply in_seq. lia. }
  unfold code_round_trip in Hrt. destruct (GainCode (Gain gain_code)) as [c|]; [|done].
  apply orb_true_iff in Hrt as [Heq|Heq]; apply Z.eqb_eq in Heq; subst; auto.
Qed.

Lemma gain_code_round_trip_witness :
  0 <= 512 <= 1023 /\ GainCode (Gain 512) = Some 512.
Proof.
  assert (0 <= 512 <= 1023) as Hc by lia.
  split; [exact Hc|].
  destruct (gain_code_round_trip 512 Hc) as [[H|H] _]; [exact H|].
  vm_compute in H. discriminate H.
Defined.

Lemma byte_at_range buffer offset b : byte_at buffer offset = Some b -> 0 <= b < 256.
Proof.
  unfold byte_at. destruct (offset <? 0); [done|].
  destruct (buffer !! Z.to_nat offset); [|done]. intros [= <-].
  unfold wrap_u8. apply Z.mod_pos_bound. lia.
Qed.

(** What the reading loop of [Parse] leaves in the values array. *)
Lemma read_values_all buffer offsets values values' :
  read_values buffer offsets values 0 4 = Some values' ->
  forall i, (i < 4)%nat ->
    if get4 offsets i =? -1 then get4 values' i = get4 values i
    else byte_at buffer (get4 offsets i) = Some (get4 values' i).
Proof.
  destruct offsets as [o0 o1 o2 o3], values as [v0 v1 v2 v3].
  cbn [read_values get4 set4 i0 i1 i2 i3].
  destruct (o0 =? -1) eqn:H0; [|destruct (byte_at buffer o0) eqn:B0; [|done]];
  (destruct (o1 =? -1) eqn:H1; [|destruct (byte_at buffer o1) eqn:B1; [|done]]);
  (destruct (o2 =? -1) eqn:H2; [|destruct (byte_at buffer o2) eqn:B2; [|done]]);
  (destruct (o3 =? -1) eqn:H3; [|destruct (byte_at buffer o3) eqn:B3; [|done]]);
  intros [= <-] [|[|[|[|i]]]] Hi; cbn [get4 i0 i1 i2 i3];
    rewrite ?H0, ?H1, ?H2, ?H3; try done; try lia.
Qed.

Lemma Parse_OK findRegs p buffer p' :
  Parse findRegs p buffer = Some (OK, p') ->
  read_values buffer (reg_offsets_ p') (reg_values_ p) 0 4 = Some (reg_values_ p').
Proof.
  unfold Parse. destruct (reset_ p).
  - destruct (_ || _); [done|].
    destruct (findRegs _ _ _) as [ret offsets].
    destruct (0 <? ret).
    + destruct (read_values _ _ _ _ _) eqn:Hr; [|done]. by intros [= <-].
    + destruct (ret <? 0); [done|].
      destruct (read_values _ _ _ _ _) eqn:Hr; [|done]. by intros [= <-].
  - destruct (read_values _ _ _ _ _) eqn:Hr; [|done]. by intros [= <-].
Qed.

(** X22.  After a [Parse] that returned OK, an exposure or gain value
    that the parser reports as found is made of the two bytes of the
    buffer just parsed, at the offsets of the two registers (high byte
    times 256 plus low byte), and is below 65536; it is never a value
    left from an earlier buffer. *)
Theorem parsed_registers_are_fresh
    (findRegs : list Z -> list Z -> int4 -> Z * int4)
    (p p' : MdParserImx477) (buffer : list Z) :
  Parse findRegs p buffer = Some (OK, p') ->
  (forall lines, GetExposureLines p' = (OK, Some lines) ->
     exists hi lo,
       byte_at buffer (get4 (reg_offsets_ p') EXPHI_INDEX) = Some hi /\
       byte_at buffer (get4 (reg_offsets_ p') EXPLO_INDEX) = Some lo /\
       lines = hi * 256 + lo /\ 0 <= lines < 65536) /\
  (forall code, GetGainCode p' = (OK, Some code) ->
     exists hi lo,
       byte_at buffer (get4 (reg_offsets_ p') GAINHI_INDEX) = Some hi /\
       byte_at buffer (get4 (reg_offsets_ p') GAINLO_INDEX) = Some lo /\
       code = hi * 256 + lo /\ 0 <= code < 65536).
Proof.
  intros Hparse. pose proof (read_values_all _ _ _ _ (Parse_OK _ _ _ _ Hparse)) as Hread.
  split.
  - intros lines. unfold GetExposureLines.
    pose proof (Hread EXPHI_INDEX ltac:(unfold EXPHI_INDEX; lia)) as Hhi.
    pose proof (Hread EXPLO_INDEX ltac:(unfold EXPLO_INDEX; lia)) as Hlo.
    destruct (get4 (reg_offsets_ p') EXPHI_INDEX =? -1); [done|].
    destruct (get4 (reg_offsets_ p') EXPLO_INDEX =? -1); [done|].
    intros [= <-]. eexists _, _. split; [exact Hhi|]. split; [exact Hlo|].
    pose proof (byte_at_range _ _ _ Hhi). pose proof (byte_at_range _ _ _ Hlo).
    unfold EXPHI_INDEX, EXPLO_INDEX, GAINHI_INDEX, GAINLO_INDEX in *.
    cbn [get4] in *. unfold wrap_u32. rewrite Z.mod_small by lia. lia.
  - intros code. unfold GetGainCode.
    pose proof (Hread GAINHI_INDEX ltac:(unfold GAINHI_INDEX; lia)) as Hhi.
    pose proof (Hread GAINLO_INDEX ltac:(unfold GAINLO_INDEX; lia)) as Hlo.
    destruct (get4 (reg_offsets_ p') GAINHI_INDEX =? -1); [done|].
    destruct (get4 (reg_offsets_ p') GAINLO_INDEX =? -1); [done|].
    intros [= <-]. eexists _, _. split; [exact Hhi|]. split; [exact Hlo|].
    pose proof (byte_at_range _ _ _ Hhi). pose proof (byte_at_range _ _ _ Hlo).
    unfold EXPHI_INDEX, EXPLO_INDEX, GAINHI_INDEX, GAINLO_INDEX in *.
    cbn [get4] in *. unfold wrap_u32. rewrite Z.mod_small by lia. lia.
Qed.

Lemma parsed_registers_are_fresh_witness :
  Parse sample_findRegs sample_parser sample_metadata = Some (OK, sample_parsed) /\
  GetExposureLines sample_parsed = (OK, Some 1000) /\
  GetGainCode sample_parsed = (OK, Some 300) /\
  (forall lines, GetExposureLines sample_parsed = (OK, Some lines) ->
     exists hi lo,
       byte_at sample_metadata (get4 (reg_offsets_ sample_parsed) EXPHI_INDEX) = Some hi /\
       byte_at sample_metadata (get4 (reg_offsets_ sample_parsed) EXPLO_INDEX) = Some lo /\
       lines = hi * 256 + lo /\ 0 <= lines < 65536) /\
  (forall code, GetGainCode sample_parsed = (OK, Some code) ->
     exists hi lo,
       byte_at sample_metadata (get4 (reg_offsets_ sample_parsed) GAINHI_INDEX) = Some hi /\
       byte_at sample_metadata (get4 (reg_offsets_ sample_parsed) GAINLO_INDEX) = Some lo /\
       code = hi * 256 + lo /\ 0 <= code < 65536).
Proof.
  split; [reflexivity|]. split; [reflexivity|]. split; [reflexivity|].
  apply (parsed_registers_are_fresh sample_findRegs sample_parser sample_parsed
           sample_metadata).
  reflexivity.
Defined.

End Imx477_properties.

(** ** [IPARkISP1]: mapping and unmapping buffers *)

Module RkISP1_buffers_properties.
Import RkISP1_buffers.

Lemma mapBuffers_step_char mmap m io b m' io' :
  mapBuffers_step mmap m io b = Some (m', io') ->
  exists planes p0 addr,
    V4L2.emplace (b_id b) (b_planes b) (buffers_ m) !! b_id b = Some planes /\
    head planes = Some p0 /\
    addr = mmap io (plane_length p0) (plane_fd p0) /\
    buffers_ m' = V4L2.emplace (b_id b) (b_planes b) (buffers_ m) /\
    buffersMemory_ m' = <[b_id b := addr]> (buffersMemory_ m) /\
    io' = io ++ [Mmap (plane_length p0) (plane_fd p0) addr].
Proof.
  unfold mapBuffers_step.
  destruct (V4L2.emplace _ _ _ !! b_id b) as [planes|] eqn:Hp; [|done].
  destruct (head planes) as [p0|] eqn:Hh; [|done].
  destruct (_ =? MAP_FAILED); [done|]. intros [= <- <-].
  by exists planes, p0, (mmap io (plane_length p0) (plane_fd p0)).
Qed.

Lemma emplace_lookup_ne {V} (k k' : Z) (v : V) (m : gmap Z V) :
  k <> k' -> V4L2.emplace k v m !! k' = m !! k'.
Proof.
  intros Hne. unfold V4L2.emplace. destruct (m !! k); [done|].
  by rewrite lookup_insert_ne.
Qed.

Lemma emplace_lookup_eq {V} (k : Z) (v : V) (m : gmap Z V) :
  V4L2.emplace k v m !! k = Some (default v (m !! k)).
Proof.
  unfold V4L2.emplace. destruct (m !! k) eqn:Hk; simpl; [done|].
  by rewrite lookup_insert_eq.
Qed.

Lemma mapBuffers_step_consistent mmap m io b m' io' :
  consistent m ->
  mapBuffers_step mmap m io b = Some (m', io') ->
  consistent m' /\ is_Some (buffers_ m' !! b_id b) /\
  (forall k, is_Some (buffers_ m !! k) -> is_Some (buffers_ m' !! k)).
Proof.
  intros Hc Hstep.
  destruct (mapBuffers_step_char _ _ _ _ _ _ Hstep)
    as (planes & p0 & addr & Hp & Hh & _ & Hb & Hm & _).
  split; [|split].
  - intros k. rewrite Hb, Hm. destruct (decide (b_id b = k)) as [<-|Hne].
    + rewrite Hp, lookup_insert_eq. split; [done|]. intros [= ->]. discriminate Hh.
    + rewrite emplace_lookup_ne, lookup_insert_ne by done. apply Hc.
  - rewrite Hb, Hp. done.
  - intros k Hk. rewrite Hb. destruct (decide (b_id b = k)) as [<-|Hne].
    + by rewrite Hp.
    + by rewrite emplace_lookup_ne.
Qed.

Lemma mapBuffers_consistent mmap bs : forall m io m' io',
  consistent m ->
  mapBuffers mmap m io bs = Some (m', io') ->
  consistent m' /\
  (forall b, b ∈ bs -> is_Some (buffers_ m' !! b_id b)) /\
  (forall k, is_Some (buffers_ m !! k) -> is_Some (buffers_ m' !! k)).
Proof.
  induction bs as [|b bs IH]; intros m io m' io' Hc; simpl.
  - intros [= <- <-]. split; [done|]. split; [|done]. intros b Hb. by apply elem_of_nil in Hb.
  - destruct (mapBuffers_step mmap m io b) as [[m1 io1]|] eqn:Hstep; [|done].
    intros Hrest.
    destruct (mapBuffers_step_consistent _ _ _ _ _ _ Hc Hstep) as (Hc1 & Hb1 & Hkeep1).
    destruct (IH _ _ _ _ Hc1 Hrest) as (Hc' & Hall & Hkeep).
    split; [done|]. split.
    + intros b' [->|Hin]%elem_of_cons; [by apply Hkeep|by apply Hall].
    + intros k Hk. by apply Hkeep, Hkeep1.
Qed.

Lemma unmapBuffers_step_consistent m io id :
  consistent m ->
  exists m' io',
    unmapBuffers_step m io id = Some (m', io') /\ consistent m' /\
    buffers_ m' !! id = None /\ buffersMemory_ m' !! id = None /\
    (forall k, buffers_ m !! k = None -> buffers_ m' !! k = None) /\
    (forall k, buffersMemory_ m !! k = None -> buffersMemory_ m' !! k = None).
Proof.
  intros Hc. unfold unmapBuffers_step.
  destruct (buffers_ m !! id) as [planes|] eqn:Hb.
  - destruct planes as [|p0 planes]; [by destruct (Hc id) as [_ []]|]. cbn [head].
    eexists _, _. split; [reflexivity|]. unfold consistent.
    cbn [buffers_ buffersMemory_]. split; [|split; [|split; [|split]]].
    + intros k. destruct (decide (id = k)) as [<-|Hne].
      * rewrite !lookup_delete_eq. split; [|done]. split; by intros [? ?].
      * rewrite !lookup_delete_ne by done. apply Hc.
    + apply lookup_delete_eq.
    + apply lookup_delete_eq.
    + intros k Hk. destruct (decide (id = k)) as [<-|Hne];
        [apply lookup_delete_eq|by rewrite lookup_delete_ne].
    + intros k Hk. destruct (decide (id = k)) as [<-|Hne];
        [apply lookup_delete_eq|by rewrite lookup_delete_ne].
  - exists m, io. split; [done|]. split; [done|]. split; [done|]. split; [|done].
    destruct (Hc id) as [[_ Hm] _]. rewrite Hb in Hm.
    destruct (buffersMemory_ m !! id); [|done]. by destruct Hm as [? ?].
Qed.

Lemma unmapBuffers_consistent ids : forall m io,
  consistent m ->
  exists m' io',
    unmapBuffers m io ids = Some (m', io') /\ consistent m' /\
    (forall id, id ∈ ids -> buffers_ m' !! id = None /\ buffersMemory_ m' !! id = None) /\
    (forall k, buffers_ m !! k = None -> buffers_ m' !! k = None) /\
    (forall k, buffersMemory_ m !! k = None -> buffersMemory_ m' !! k = None).
Proof.
  induction ids as [|id ids IH]; intros m io Hc; simpl.
  - exists m, io. split; [done|]. split; [done|]. split; [|done].
    intros id Hid. by apply elem_of_nil in Hid.
  - destruct (unmapBuffers_step_consistent m io id Hc)
      as (m1 & io1 & -> & Hc1 & Hb1 & Hm1 & Hkb1 & Hkm1).
    destruct (IH m1 io1 Hc1) as (m' & io' & -> & Hc' & Hall & Hkb & Hkm).
    exists m', io'. split; [done|]. split; [done|]. split; [|split].
    + intros id' [->|Hin]%elem_of_cons; [split; [by apply Hkb|by apply Hkm]|by apply Hall].
    + intros k Hk. by apply Hkb, Hkb1.
    + intros k Hk. by apply Hkm, Hkm1.
Qed.

(** X23.  When the two maps hold the same ids and every buffer has a
    plane, a [mapBuffers] that returns keeps it so and knows every buffer
    it was handed; [unmapBuffers] always returns, keeps it so too, and
    afterwards neither map holds any of the ids it was handed. *)
Theorem buffer_maps_stay_consistent (m : buffer_maps) :
  consistent m ->
  (forall mmap io buffers m' io',
     mapBuffers mmap m io buffers = Some (m', io') ->
     consistent m' /\ forall b, b ∈ buffers -> is_Some (buffers_ m' !! b_id b)) /\
  (forall io ids,
     exists m' io',
       unmapBuffers m io ids = Some (m', io') /\ consistent m' /\
       forall id, id ∈ ids -> buffers_ m' !! id = None /\ buffersMemory_ m' !! id = None).
Proof.
  intros Hc. split.
  - intros mmap io buffers m' io' Hmap.
    destruct (mapBuffers_consistent _ _ _ _ _ _ Hc Hmap) as (Hc' & Hall & _). done.
  - intros io ids.
    destruct (unmapBuffers_consistent ids m io Hc) as (m' & io' & Hun & Hc' & Hall & _).
    by exists m', io'.
Qed.

Lemma no_buffers_consistent : consistent no_buffers.
Proof. intros k. unfold no_buffers. simpl. rewrite !lookup_empty. split; [|done]. split; by intros [? ?]. Qed.

Lemma buffer_maps_stay_consistent_witness :
  consistent no_buffers /\
  exists m' io',
    mapBuffers sample_mmap no_buffers [] sample_buffers = Some (m', io') /\
    consistent m' /\ forall b, b ∈ sample_buffers -> is_Some (buffers_ m' !! b_id b).
Proof.
  split; [exact no_buffers_consistent|].
  assert (exists m' io', mapBuffers sample_mmap no_buffers [] sample_buffers = Some (m', io'))
    as (m' & io' & Hmap) by (eexists _, _; vm_compute; reflexivity).
  exists m', io'. split; [exact Hmap|].
  exact (proj1 (buffer_maps_stay_consistent no_buffers no_buffers_consistent)
           _ _ _ _ _ Hmap).
Defined.

Lemma mapBuffers_trace mmap bs : forall m io m1 io1,
  NoDup (b_id <$> bs) ->
  (forall b, b ∈ bs -> buffers_ m !! b_id b = None) ->
  mapBuffers mmap m io bs = Some (m1, io1) ->
  exists mmaps,
    io1 = io ++ mmaps /\
    Forall2 (fun b c => exists p0 planes addr,
               c = Mmap (plane_length p0) (plane_fd p0) addr /\
               buffers_ m1 !! b_id b = Some (p0 :: planes) /\
               buffersMemory_ m1 !! b_id b = Some addr) bs mmaps /\
    (forall k, k ∉ b_id <$> bs ->
       buffers_ m1 !! k = buffers_ m !! k /\
       buffersMemory_ m1 !! k = buffersMemory_ m !! k).
Proof.
  induction bs as [|b bs IH]; intros m io m1 io1 Hnd Hfresh; cbn [mapBuffers].
  - intros [= <- <-]. exists []. rewrite app_nil_r. split; [done|]. split; [constructor|done].
  - rewrite fmap_cons in Hnd |- *. destruct (mapBuffers_step mmap m io b) as [[m' io']|] eqn:Hstep; [|done].
    intros Hrest. apply NoDup_cons in Hnd as [Hnotin Hnd].
    destruct (mapBuffers_step_char _ _ _ _ _ _ Hstep)
      as (planes & p0 & addr & Hp & Hh & _ & Hb & Hm & ->).
    assert (forall k, b_id b <> k ->
              buffers_ m' !! k = buffers_ m !! k /\
              buffersMemory_ m' !! k = buffersMemory_ m !! k) as Hother.
    { intros k Hne. rewrite Hb, Hm. by rewrite emplace_lookup_ne, lookup_insert_ne. }
    assert (forall b', b' ∈ bs -> buffers_ m' !! b_id b' = None) as Hfresh'.
    { intros b' Hb'. destruct (Hother (b_id b')) as [-> _].
      - intros Heq. apply Hnotin. rewrite Heq. apply list_elem_of_fmap. by exists b'.
      - apply Hfresh. by right. }
    destruct (IH _ _ _ _ Hnd Hfresh' Hrest) as (mmaps & -> & Hall & Hkeep).
    exists (Mmap (plane_length p0) (plane_fd p0) addr :: mmaps).
    split; [by rewrite <- app_assoc|]. split.
    + constructor; [|exact Hall]. destruct (Hkeep _ Hnotin) as [Hkb Hkm].
      destruct planes as [|p0' planes]; [done|]. injection Hh as ->.
      exists p0, planes, addr. split; [done|]. rewrite Hkb, Hkm, Hb, Hm, Hp.
      by rewrite lookup_insert_eq.
    + intros k Hk. apply not_elem_of_cons in Hk as [Hne Hk].
      destruct (Hkeep k Hk) as [-> ->]. apply Hother. done.
Qed.

Lemma unmapBuffers_trace ids : forall m io,
  NoDup ids ->
  (forall id, id ∈ ids -> exists p0 planes, buffers_ m !! id = Some (p0 :: planes)) ->
  exists m2 munmaps,
    unmapBuffers m io ids = Some (m2, io ++ munmaps) /\
    Forall2 (fun id c => exists p0 planes,
               buffers_ m !! id = Some (p0 :: planes) /\
               c = Munmap (default 0 (buffersMemory_ m !! id)) (plane_length p0))
            ids munmaps /\
    (forall k, buffers_ m2 !! k = (if decide (k ∈ ids) then None else buffers_ m !! k) /\
               buffersMemory_ m2 !! k
               = (if decide (k ∈ ids) then None else buffersMemory_ m !! k)).
Proof.
  induction ids as [|id ids IH]; intros m io Hnd Hknown; cbn [unmapBuffers].
  - exists m, []. rewrite app_nil_r. split; [done|]. split; [constructor|].
    intros k. by destruct (decide (k ∈ [])) as [Hk%elem_of_nil|].
  - apply NoDup_cons in Hnd as [Hnotin Hnd].
    destruct (Hknown id) as (p0 & planes & Hb); [by left|].
    unfold unmapBuffers_step. rewrite Hb. cbn [head].
    set (m' := {| buffers_ := delete id (buffers_ m);
                  buffersMemory_ := delete id (buffersMemory_ m) |}).
    assert (forall k, id <> k ->
              buffers_ m' !! k = buffers_ m !! k /\
              buffersMemory_ m' !! k = buffersMemory_ m !! k) as Hother.
    { intros k Hne. unfold m'. cbn [buffers_ buffersMemory_].
      by rewrite !lookup_delete_ne. }
    destruct (IH m' (io ++ [Munmap (default 0 (buffersMemory_ m !! id)) (plane_length p0)]) Hnd)
      as (m2 & munmaps & -> & Hall & Hlook).
    { intros id' Hin. destruct (Hknown id') as (p & pl & Hid'); [by right|].
      exists p, pl. destruct (Hother id') as [-> _]; [|done]. by intros <-. }
    exists m2, (Munmap (default 0 (buffersMemory_ m !! id)) (plane_length p0) :: munmaps).
    split; [by rewrite <- app_assoc|]. split.
    + constructor; [by exists p0, planes|].
      eapply Forall2_impl; [exact Hall|]. intros id' c (p & pl & Hid' & ->).
      destruct (decide (id = id')) as [<-|Hne].
      { unfold m' in Hid'. cbn [buffers_] in Hid'. by rewrite lookup_delete_eq in Hid'. }
      destruct (Hother id' Hne) as [Hkb Hkm]. exists p, pl. by rewrite <- Hkb, <- Hkm.
    + intros k. destruct (Hlook k) as [-> ->].
      destruct (decide (k ∈ ids)) as [Hin|Hout].
      * rewrite !decide_True by (by right). done.
      * destruct (decide (id = k)) as [<-|Hne].
        -- rewrite !decide_True by (by left). unfold m'. cbn [buffers_ buffersMemory_].
           by rewrite !lookup_delete_eq.
        -- rewrite !decide_False by (intros [->|?]%elem_of_cons; done).
           by apply Hother.
Qed.

Lemma Forall2_lookup_l_elem {A B} (P : A -> B -> Prop) (l : list A) (lb : list B) (a : A) :
  Forall2 P l lb -> a ∈ l -> exists b, P a b.
Proof.
  intros HP. induction HP as [|x y l lb Hxy _ IH]; intros Hin.
  - by apply elem_of_nil in Hin.
  - apply elem_of_cons in Hin as [->|Hin]; [by exists y|by apply IH].
Qed.

Lemma Forall2_join {A B C} (P : A -> B -> Prop) (Q : A -> C -> Prop) (R : B -> C -> Prop)
    (l : list A) : forall (lb : list B) (lc : list C),
  (forall a b c, P a b -> Q a c -> R b c) ->
  Forall2 P l lb -> Forall2 Q l lc -> Forall2 R lb lc.
Proof.
  induction l as [|a l IH]; intros lb lc HR HP HQ.
  - apply Forall2_nil_inv_l in HP as ->. apply Forall2_nil_inv_l in HQ as ->. constructor.
  - apply Forall2_cons_inv_l in HP as (b & lb' & Hb & HP & ->).
    apply Forall2_cons_inv_l in HQ as (c & lc' & Hc & HQ & ->).
    constructor; [by eapply HR|by apply IH].
Qed.

(** X24.  Buffers with distinct ids that the module does not know yet,
    once mapped, are all unmapped again by [unmapBuffers] on their ids:
    the two maps are back as they were, and the calls are one [mmap] per
    buffer followed by one [munmap] per buffer, each with the address
    and length of the corresponding [mmap], in the same order. *)
Theorem map_then_unmap_restores
    (mmap : list mem_call -> Z -> Z -> Z) (m m1 : buffer_maps) (io io1 : list mem_call)
    (buffers : list IPABuffer) :
  NoDup (b_id <$> buffers) ->
  (forall b, b ∈ buffers ->
     buffers_ m !! b_id b = None /\ buffersMemory_ m !! b_id b = None) ->
  mapBuffers mmap m io buffers = Some (m1, io1) ->
  exists mmaps munmaps,
    io1 = io ++ mmaps /\
    unmapBuffers m1 io1 (b_id <$> buffers) = Some (m, io1 ++ munmaps) /\
    length mmaps = length buffers /\
    Forall2 undoes mmaps munmaps.
Proof.
  intros Hnd Hfresh Hmap.
  destruct (mapBuffers_trace _ _ _ _ _ _ Hnd (fun b Hb => proj1 (Hfresh b Hb)) Hmap)
    as (mmaps & -> & Hmaps & Hkeep).
  destruct (unmapBuffers_trace (b_id <$> buffers) m1 (io ++ mmaps) Hnd)
    as (m2 & munmaps & Hun & Hunmaps & Hlook).
  { intros id (b & -> & Hb)%list_elem_of_fmap.
    destruct (Forall2_lookup_l_elem _ _ _ _ Hmaps Hb) as (c & p0 & planes & addr & _ & H1 & _).
    by exists p0, planes. }
  exists mmaps, munmaps. split; [done|]. split; [|split].
  - rewrite Hun. f_equal. f_equal. destruct m as [mb mm], m2 as [mb2 mm2].
    cbn [buffers_ buffersMemory_] in *. f_equal.
    + apply map_eq. intros k. destruct (Hlook k) as [-> _].
      destruct (decide (k ∈ b_id <$> buffers)) as [(b & -> & Hb)%list_elem_of_fmap|Hout].
      * symmetry. apply Hfresh. done.
      * apply Hkeep. done.
    + apply map_eq. intros k. destruct (Hlook k) as [_ ->].
      destruct (decide (k ∈ b_id <$> buffers)) as [(b & -> & Hb)%list_elem_of_fmap|Hout].
      * symmetry. apply Hfresh. done.
      * apply Hkeep. done.
  - symmetry. eapply Forall2_length. exact Hmaps.
  - apply Forall2_fmap_l in Hunmaps.
    eapply (Forall2_join _ _ _ buffers); [|exact Hmaps|exact Hunmaps].
    intros b c1 c2 (p0 & planes & addr & -> & Hb & Hm) (p0' & planes' & Hb' & ->).
    rewrite Hb in Hb'. injection Hb' as <- <-. rewrite Hm. done.
Qed.

Lemma map_then_unmap_restores_witness :
  NoDup (b_id <$> sample_buffers) /\
  (forall b, b ∈ sample_buffers ->
     buffers_ no_buffers !! b_id b = None /\ buffersMemory_ no_buffers !! b_id b = None) /\
  exists m1 io1 mmaps munmaps,
    mapBuffers sample_mmap no_buffers [] sample_buffers = Some (m1, io1) /\
    io1 = [] ++ mmaps /\
    unmapBuffers m1 io1 (b_id <$> sample_buffers) = Some (no_buffers, io1 ++ munmaps) /\
    length mmaps = length sample_buffers /\
    Forall2 undoes mmaps munmaps.
Proof.
  assert (NoDup (b_id <$> sample_buffers)) as Hnd
    by (apply (bool_decide_unpack _); vm_compute; reflexivity).
  assert (forall b, b ∈ sample_buffers ->
            buffers_ no_buffers !! b_id b = None /\
            buffersMemory_ no_buffers !! b_id b = None) as Hfresh
    by (intros b _; split; apply lookup_empty).
  assert (exists m1 io1, mapBuffers sample_mmap no_buffers [] sample_buffers = Some (m1, io1))
    as (m1 & io1 & Hmap) by (eexists _, _; vm_compute; reflexivity).
  split; [exact Hnd|]. split; [exact Hfresh|].
  destruct (map_then_unmap_restores sample_mmap no_buffers m1 [] io1 sample_buffers
              Hnd Hfresh Hmap) as (mmaps & munmaps & Hio & Hun & Hlen & Hundo).
  exists m1, io1, mmaps, munmaps.
  split; [exact Hmap|]. split; [exact Hio|]. split; [exact Hun|].
  split; [exact Hlen|exact Hundo].
Defined.

Lemma unmapped_app io io' : unmapped (io ++ io') = unmapped io ++ unmapped io'.
Proof. unfold unmapped. apply omap_app. Qed.

(** X25.  [mapBuffers] on an id the module already knows keeps the
    buffer it has and ignores the planes handed in: it maps the first
    plane of the known buffer again and stores the new address over the
    old one.  [unmapBuffers] on that id then unmaps the new address only,
    so an old address that differs and had not been unmapped before is
    never unmapped. *)
Theorem mapBuffers_known_id_drops_mapping
    (mmap : list mem_call -> Z -> Z -> Z) (m m' : buffer_maps) (io io' : list mem_call)
    (b : IPABuffer) (p0 : Plane) (planes : list Plane) (addr : Z) :
  buffers_ m !! b_id b = Some (p0 :: planes) ->
  buffersMemory_ m !! b_id b = Some addr ->
  mapBuffers mmap m io [b] = Some (m', io') ->
  let addr' := mmap io (plane_length p0) (plane_fd p0) in
  buffers_ m' = buffers_ m /\
  buffersMemory_ m' = <[b_id b := addr']> (buffersMemory_ m) /\
  io' = io ++ [Mmap (plane_length p0) (plane_fd p0) addr'] /\
  exists m2 io2,
    unmapBuffers m' io' [b_id b] = Some (m2, io2) /\
    io2 = io' ++ [Munmap addr' (plane_length p0)] /\
    buffers_ m2 !! b_id b = None /\ buffersMemory_ m2 !! b_id b = None /\
    (addr <> addr' -> addr ∉ unmapped io -> addr ∉ unmapped io2).
Proof.
  intros Hb Hm Hmap addr'. cbn [mapBuffers] in Hmap.
  destruct (mapBuffers_step mmap m io b) as [[m1 io1]|] eqn:Hstep; [|done].
  injection Hmap as <- <-.
  destruct (mapBuffers_step_char _ _ _ _ _ _ Hstep)
    as (planes' & p0' & a & Hp & Hh & Ha & Hb1 & Hm1 & Hio).
  rewrite emplace_lookup_eq, Hb in Hp. injection Hp as <-. injection Hh as <-.
  assert (V4L2.emplace (b_id b) (b_planes b) (buffers_ m) = buffers_ m) as Hsame
    by (unfold V4L2.emplace; by rewrite Hb).
  rewrite Hsame in Hb1. subst a. fold addr' in Hm1, Hio.
  split; [exact Hb1|]. split; [exact Hm1|]. split; [exact Hio|].
  cbn [unmapBuffers]. unfold unmapBuffers_step. rewrite Hb1, Hb. cbn [head].
  rewrite Hm1, lookup_insert_eq. cbn [default].
  eexists _, _. split; [reflexivity|]. split; [reflexivity|].
  cbn [buffers_ buffersMemory_]. rewrite !lookup_delete_eq.
  split; [done|]. split; [done|].
  intros Hne Hnot. rewrite Hio, !unmapped_app. cbn. rewrite app_nil_r.
  intros [Hin|Hin%list_elem_of_singleton]%elem_of_app; done.
Qed.

Lemma mapBuffers_known_id_drops_mapping_witness :
  let m := {| buffers_ := {[ 1 := [ {| plane_fd := 10; plane_length := 4096 |} ] ]};
              buffersMemory_ := {[ 1 := 4096 ]} |} in
  let io := [Mmap 4096 10 4096] in
  let b := {| b_id := 1; b_planes := [ {| plane_fd := 20; plane_length := 100 |} ] |} in
  buffers_ m !! b_id b = Some [ {| plane_fd := 10; plane_length := 4096 |} ] /\
  buffersMemory_ m !! b_id b = Some 4096 /\
  exists m' io',
    mapBuffers sample_mmap m io [b] = Some (m', io') /\
    buffers_ m' = buffers_ m /\
    io' = io ++ [Mmap 4096 10 8192] /\
    exists m2 io2,
      unmapBuffers m' io' [b_id b] = Some (m2, io2) /\
      io2 = io' ++ [Munmap 8192 4096].
Proof.
  intros m io b.
  assert (buffers_ m !! b_id b = Some [ {| plane_fd := 10; plane_length := 4096 |} ]) as Hb
    by (vm_compute; reflexivity).
  assert (buffersMemory_ m !! b_id b = Some 4096) as Hm by (vm_compute; reflexivity).
  assert (exists m' io', mapBuffers sample_mmap m io [b] = Some (m', io'))
    as (m' & io' & Hmap) by (eexists _, _; vm_compute; reflexivity).
  split; [exact Hb|]. split; [exact Hm|].
  destruct (mapBuffers_known_id_drops_mapping sample_mmap m m' io io' b _ _ _ Hb Hm Hmap)
    as (Hb' & _ & Hio & m2 & io2 & Hun & Hio2 & _).
  exists m', io'. split; [exact Hmap|]. split; [exact Hb'|]. split; [exact Hio|].
  exists m2, io2. split; [exact Hun|exact Hio2].
Defined.

End RkISP1_buffers_properties.

(** ** The vimc pipeline: configurations *)

Module Vimc_config_properties.
Import Vimc_config.

Lemma aligned_width v :
  48 <= aligned 4096 v <= 4092 /\ aligned 4096 v mod 6 = 0 /\
  aligned 4096 v <= Z.max 48 v /\
  (aligned 4096 v = v <-> 48 <= v <= 4096 /\ v mod 6 = 0).
Proof.
  unfold aligned, wrap_u32. cbv zeta. change (2 ^ 32) with 4294967296.
  rewrite Z.mod_small by (Z.to_euclidean_division_equations; lia).
  Z.to_euclidean_division_equations; lia.
Qed.

Lemma aligned_height v :
  48 <= aligned 2160 v <= 2160 /\ aligned 2160 v mod 6 = 0 /\
  aligned 2160 v <= Z.max 48 v /\
  (aligned 2160 v = v <-> 48 <= v <= 2160 /\ v mod 6 = 0).
Proof.
  unfold aligned, wrap_u32. cbv zeta. change (2 ^ 32) with 4294967296.
  rewrite Z.mod_small by (Z.to_euclidean_division_equations; lia).
  Z.to_euclidean_division_equations; lia.
Qed.

Lemma aligned_settled s :
  settled {| width := aligned 4096 (width s); height := aligned 2160 (height s) |}.
Proof.
  unfold settled. cbn [width height].
  pose proof (aligned_width (width s)). pose proof (aligned_height (height s)). lia.
Qed.

Lemma Size_eqb_eq a b : Size_eqb a b = true <-> a = b.
Proof.
  unfold Size_eqb. rewrite andb_true_iff, !Z.eqb_eq. destruct a, b; simpl.
  split; [by intros [-> ->]|by intros [= -> ->]].
Qed.

Lemma settled_aligned s :
  settled s ->
  {| width := aligned 4096 (width s); height := aligned 2160 (height s) |} = s.
Proof.
  intros (Hw & Hw6 & Hh & Hh6). destruct s as [w h]. cbn [width height] in *.
  f_equal; [apply aligned_width|apply aligned_height]; lia.
Qed.

Lemma validate_shape
    (data : VimcCameraData) (c c' : CameraConfiguration) (status : Status)
    (cfg : StreamConfiguration) :
  head (config_ c) = Some cfg ->
  validate data c = (status, c') ->
  exists cfg',
    config_ c' = [cfg'] /\ transform c' = Identity /\
    bufferCount cfg' = 4 /\ settled (size cfg') /\
    width (size cfg') <= Z.max 48 (width (size cfg)) /\
    height (size cfg') <= Z.max 48 (height (size cfg)) /\
    formats cfg' = formats cfg /\
    (pixelFormat cfg' = pixelFormat cfg /\ is_Some (formats cfg !! pixelFormat cfg) \/
     pixelFormat cfg' = BGR888 /\ formats cfg !! pixelFormat cfg = None).
Proof.
  unfold validate. destruct (config_ c) as [|cfg0 rest]; [done|]. intros [= ->].
  destruct (tryFormat data _) as [ret format'].
  destruct (ret =? 0); intros [= <- <-]; eexists; (split; [reflexivity|]);
    cbn [transform bufferCount size formats pixelFormat];
    (split; [reflexivity|]); (split; [reflexivity|]);
    (split; [apply aligned_settled|]);
    (split; [apply aligned_width|]); (split; [apply aligned_height|]);
    (split; [reflexivity|]);
    (destruct (formats cfg !! pixelFormat cfg) as [ranges|] eqn:Hknown;
     [left; by rewrite bool_decide_eq_true_2 by eauto
     |right; by rewrite bool_decide_eq_false_2 by (by intros [? ?])]).
Qed.


(** X26.  Whatever is asked for, [validate] on a configuration that is
    not empty leaves one stream configuration with the identity
    transform, four buffers, a width from 48 to 4092 and a height from
    48 to 2160, both multiples of 6 and neither above the larger of 48
    and what was asked; the pixel format is the one asked for when the
    stream lists it and BGR888 otherwise.  This holds also when the
    status is Invalid. *)
Theorem validate_result
    (data : VimcCameraData) (c c' : CameraConfiguration) (status : Status)
    (cfg : StreamConfiguration) :
  head (config_ c) = Some cfg ->
  validate data c = (status, c') ->
  exists cfg',
    config_ c' = [cfg'] /\ transform c' = Identity /\
    bufferCount cfg' = 4 /\ settled (size cfg') /\
    width (size cfg') <= Z.max 48 (width (size cfg)) /\
    height (size cfg') <= Z.max 48 (height (size cfg)) /\
    formats cfg' = formats cfg /\
    (pixelFormat cfg' = pixelFormat cfg /\ is_Some (formats cfg !! pixelFormat cfg) \/
     pixelFormat cfg' = BGR888 /\ formats cfg !! pixelFormat cfg = None).
Proof. apply validate_shape. Qed.

Lemma validate_result_witness :
  head (config_ requested)
  = Some {| pixelFormat := 0x56595559; size := {| width := 5000; height := 1001 |};
            stride := 0; frameSize := 0; bufferCount := 7; stream := false;
            formats := supported_formats (KERNEL_VERSION 5 10 0) |} /\
  validate (accepting_devices (KERNEL_VERSION 5 10 0)) requested
  = (Adjusted,
     {| transform := Identity;
        config_ := [ {| pixelFormat := BGR888; size := {| width := 4092; height := 996 |};
                        stride := 12276; frameSize := 12226896; bufferCount := 4;
                        stream := false;
                        formats := supported_formats (KERNEL_VERSION 5 10 0) |} ] |}) /\
  exists cfg',
    [ {| pixelFormat := BGR888; size := {| width := 4092; height := 996 |};
         stride := 12276; frameSize := 12226896; bufferCount := 4; stream := false;
         formats := supported_formats (KERNEL_VERSION 5 10 0) |} ] = [cfg'] /\
    settled (size cfg').
Proof.
  assert (validate (accepting_devices (KERNEL_VERSION 5 10 0)) requested
          = (Adjusted,
             {| transform := Identity;
                config_ := [ {| pixelFormat := BGR888;
                                size := {| width := 4092; height := 996 |};
                                stride := 12276; frameSize := 12226896; bufferCount := 4;
                                stream := false;
                                formats := supported_formats (KERNEL_VERSION 5 10 0) |} ] |}))
    as Hv by (vm_compute; reflexivity).
  split; [reflexivity|]. split; [exact Hv|].
  destruct (validate_result _ requested _ _ _ eq_refl Hv) as (cfg' & Hcfg & _ & _ & Hsettled & _).
  exists cfg'. split; [exact Hcfg|exact Hsettled].
Defined.

(** X27.  A status of Valid means that the transform, the number of
    stream configurations, the pixel format and the size were left as
    asked, and that the size asked was within the limits and a multiple
    of 6 both ways; the buffer count is set to 4 and the stride and frame
    size are filled in without the status telling. *)
Theorem validate_valid_keeps_request
    (data : VimcCameraData) (c c' : CameraConfiguration) :
  validate data c = (Valid, c') ->
  exists cfg cfg',
    config_ c = [cfg] /\ config_ c' = [cfg'] /\
    transform c = Identity /\ transform c' = Identity /\
    pixelFormat cfg' = pixelFormat cfg /\ size cfg' = size cfg /\
    settled (size cfg) /\ is_Some (formats cfg !! pixelFormat cfg) /\
    formats cfg' = formats cfg /\ stream cfg' = stream cfg /\
    bufferCount cfg' = 4.
Proof.
  unfold validate. destruct (config_ c) as [|cfg rest]; [done|].
  destruct (tryFormat data _) as [ret format'].
  destruct (ret =? 0); [|done].
  destruct (Size_eqb _ (size cfg)) eqn:Hsize; [|done].
  destruct (bool_decide (is_Some (formats cfg !! pixelFormat cfg))) eqn:Hknown; [|done].
  destruct rest as [|? ?]; [|done].
  destruct (Z.eqb_spec (transform c) Identity) as [Hid|]; [|done].
  intros [= <-]. apply Size_eqb_eq in Hsize. apply bool_decide_eq_true_1 in Hknown.
  eexists _, _. split; [reflexivity|]. split; [reflexivity|].
  cbn [transform pixelFormat size formats stream bufferCount].
  split; [done|]. split; [done|]. split; [done|]. split; [done|].
  split; [rewrite <- Hsize; apply aligned_settled|]. done.
Qed.

Lemma validate_valid_keeps_request_witness :
  let asked :=
    {| transform := Identity;
       config_ := [ {| pixelFormat := RGB888; size := {| width := 1296; height := 720 |};
                       stride := 0; frameSize := 0; bufferCount := 7; stream := false;
                       formats := supported_formats (KERNEL_VERSION 5 10 0) |} ] |} in
  exists c',
    validate (accepting_devices (KERNEL_VERSION 5 10 0)) asked = (Valid, c') /\
    exists cfg', config_ c' = [cfg'] /\
                 size cfg' = {| width := 1296; height := 720 |} /\ bufferCount cfg' = 4.
Proof.
  intros asked.
  assert (exists c', validate (accepting_devices (KERNEL_VERSION 5 10 0)) asked = (Valid, c'))
    as [c' Hv] by (eexists; vm_compute; reflexivity).
  exists c'. split; [exact Hv|].
  destruct (validate_valid_keeps_request _ _ _ Hv)
    as (cfg & cfg' & Hc & Hc' & _ & _ & _ & Hsize & _ & _ & _ & _ & Hcount).
  exists cfg'. split; [exact Hc'|]. split; [|exact Hcount].
  rewrite Hsize. injection Hc as <-. reflexivity.
Defined.

Lemma validate_again data c c' status cfg :
  head (config_ c) = Some cfg ->
  is_Some (formats cfg !! BGR888) ->
  validate data c = (status, c') ->
  status <> Invalid ->
  validate data c' = (Valid, c').
Proof.
  unfold validate at 1. destruct (config_ c) as [|cfg0 rest]; [done|]. intros [= ->] Hbgr.
  destruct (tryFormat data _) as [ret format'] eqn:Htry.
  destruct (ret =? 0) eqn:Hret; [|by intros [= <- <-]].
  intros [= _ <-] _. unfold validate.
  cbn [config_ transform pixelFormat size formats stream stride frameSize].
  rewrite (settled_aligned _ (aligned_settled (size cfg))).
  assert (bool_decide
            (is_Some (formats cfg !!
               (if bool_decide (is_Some (formats cfg !! pixelFormat cfg))
                then pixelFormat cfg else BGR888))) = true) as ->.
  { apply bool_decide_eq_true_2.
    destruct (bool_decide (is_Some (formats cfg !! pixelFormat cfg))) eqn:Hknown; [|done].
    by apply bool_decide_eq_true_1 in Hknown. }
  rewrite Htry, Hret.
  rewrite (proj2 (Size_eqb_eq _ _) eq_refl). reflexivity.
Qed.

(** X28.  When the stream lists BGR888, a configuration that [validate]
    did not find Invalid is found Valid and left as it is by a second
    [validate]. *)
Theorem validate_twice
    (data : VimcCameraData) (c c' : CameraConfiguration) (status : Status)
    (cfg : StreamConfiguration) :
  head (config_ c) = Some cfg ->
  is_Some (formats cfg !! BGR888) ->
  validate data c = (status, c') ->
  status <> Invalid ->
  validate data c' = (Valid, c').
Proof. apply validate_again. Qed.

Lemma supported_formats_BGR888 v : is_Some (supported_formats v !! BGR888).
Proof. unfold supported_formats. destruct (v <? KERNEL_VERSION 5 7 0); vm_compute; eauto. Qed.

Lemma validate_twice_witness :
  exists cfg c',
    head (config_ requested) = Some cfg /\
    is_Some (formats cfg !! BGR888) /\
    validate (accepting_devices (KERNEL_VERSION 5 10 0)) requested = (Adjusted, c') /\
    Adjusted <> Invalid /\
    validate (accepting_devices (KERNEL_VERSION 5 10 0)) c' = (Valid, c').
Proof.
  assert (exists c', validate (accepting_devices (KERNEL_VERSION 5 10 0)) requested
                     = (Adjusted, c')) as [c' Hv] by (eexists; vm_compute; reflexivity).
  assert (Adjusted <> Invalid) as Hne by discriminate.
  eexists _, c'. split; [reflexivity|].
  split; [exact (supported_formats_BGR888 _)|]. split; [exact Hv|]. split; [exact Hne|].
  exact (validate_twice _ requested _ _ _ eq_refl (supported_formats_BGR888 _) Hv Hne).
Defined.

Lemma supported_formats_known v f :
  is_Some (supported_formats v !! f) -> is_Some (pixelformats_find f).
Proof.
  unfold supported_formats, pixelformats, pixelformats_find.
  cbn [foldl find fst snd negb].
  destruct (Z.eqb_spec f BGR888) as [->|Hb]; [intros _; vm_compute; eauto|].
  destruct (Z.eqb_spec f RGB888) as [->|Hr]; [intros _; vm_compute; eauto|].
  destruct (v <? KERNEL_VERSION 5 7 0); cbn [andb negb];
    change (BGR888 =? BGR888) with true; change (RGB888 =? BGR888) with false;
    cbn [negb]; rewrite ?lookup_insert_ne, lookup_empty by done; by intros [? ?].
Qed.

Lemma supported_formats_old v :
  v < KERNEL_VERSION 5 7 0 -> supported_formats v !! RGB888 = None.
Proof.
  intros Hv. unfold supported_formats.
  rewrite (proj2 (Z.ltb_lt _ _) Hv). vm_compute. reflexivity.
Qed.

(** X29.  Asked for at least one role, [generateConfiguration] gives one
    stream configuration of 1920 by 1080 in BGR888 with four buffers,
    whose formats include BGR888 and are all keys of [pixelformats]
    (RGB888 is left out below kernel 5.7.0); [validate] does not adjust
    it: it returns Valid or Invalid and leaves it as it is. *)
Theorem generateConfiguration_settled (data : VimcCameraData) (roles : list Z) :
  roles <> [] ->
  let c := generateConfiguration data roles in
  exists cfg,
    config_ c = [cfg] /\ transform c = Identity /\
    pixelFormat cfg = BGR888 /\ size cfg = {| width := 1920; height := 1080 |} /\
    bufferCount cfg = 4 /\ stream cfg = false /\
    is_Some (formats cfg !! BGR888) /\
    (forall f, is_Some (formats cfg !! f) -> is_Some (pixelformats_find f)) /\
    (version data < KERNEL_VERSION 5 7 0 -> formats cfg !! RGB888 = None) /\
    (validate data c = (Valid, c) \/ validate data c = (Invalid, c)).
Proof.
  intros Hroles c. subst c. destruct roles as [|role roles]; [done|].
  unfold generateConfiguration. cbn [transform config_ app].
  set (cfg0 := {| pixelFormat := BGR888; size := {| width := 1920; height := 1080 |};
                  stride := 0; frameSize := 0; bufferCount := 4; stream := false;
                  formats := supported_formats (version data) |}).
  set (c0 := {| transform := Identity; config_ := [cfg0] |}).
  pose proof (supported_formats_BGR888 (version data)) as Hbgr.
  assert (validate data c0
          = let r := tryFormat data {| fourcc := toV4L2PixelFormat data BGR888;
                                       f_size := {| width := 1920; height := 1080 |};
                                       bpl := 0; plane_size := 0 |} in
            if r.1 =? 0
            then (Valid,
                  {| transform := Identity;
                     config_ := [ {| pixelFormat := BGR888;
                                     size := {| width := 1920; height := 1080 |};
                                     stride := bpl r.2; frameSize := plane_size r.2;
                                     bufferCount := 4; stream := false;
                                     formats := supported_formats (version data) |} ] |})
            else (Invalid, c0)) as Hfirst.
  { unfold validate, c0, cfg0.
    cbn [config_ transform pixelFormat size formats stream stride frameSize width height].
    rewrite (bool_decide_eq_true_2 _ Hbgr).
    change (aligned 4096 1920) with 1920. change (aligned 2160 1080) with 1080.
    cbv zeta. destruct (tryFormat data _) as [ret format']. cbn [fst snd].
    destruct (ret =? 0); reflexivity. }
  cbv zeta in Hfirst.
  destruct (tryFormat data _) as [ret format'] eqn:Htry. cbn [fst snd] in Hfirst.
  destruct (ret =? 0) eqn:Hret.
  - rewrite Hfirst. cbn [snd]. eexists. split; [reflexivity|].
    cbn [transform pixelFormat size bufferCount stream formats].
    split; [done|]. split; [done|]. split; [done|]. split; [done|]. split; [done|].
    split; [done|]. split; [apply supported_formats_known|].
    split; [apply supported_formats_old|]. left.
    eapply (validate_again data c0 _ Valid cfg0); [done|done|exact Hfirst|done].
  - rewrite Hfirst. cbn [snd]. exists cfg0. split; [reflexivity|].
    cbn [transform pixelFormat size bufferCount stream formats].
    split; [done|]. split; [done|]. split; [done|]. split; [done|]. split; [done|].
    split; [done|]. split; [apply supported_formats_known|].
    split; [apply supported_formats_old|]. right. exact Hfirst.
Qed.

Lemma generateConfiguration_settled_witness :
  [1] <> [] /\
  exists cfg,
    config_ (generateConfiguration (accepting_devices (KERNEL_VERSION 5 6 0)) [1]) = [cfg] /\
    pixelFormat cfg = BGR888 /\ size cfg = {| width := 1920; height := 1080 |} /\
    is_Some (formats cfg !! BGR888).
Proof.
  assert ([1] <> []) as Hroles by discriminate.
  split; [exact Hroles|].
  destruct (generateConfiguration_settled (accepting_devices (KERNEL_VERSION 5 6 0)) [1] Hroles)
    as (cfg & Hc & _ & Hpf & Hsize & _ & _ & Hbgr & _).
  exists cfg. split; [exact Hc|]. split; [exact Hpf|]. split; [exact Hsize|exact Hbgr].
Defined.

(** X30.  [configure] on what [validate] left of a configuration whose
    formats are all keys of [pixelformats] never reads past the map or
    the vector: it returns.  Its first call sets the sensor to the Bayer
    format at exactly a third of the stream size both ways, and both
    are even.  A call that does not return 0 leaves the configuration as
    it was; one that returns 0 has set the stream, changed nothing else,
    and made its last call to the raw capture node, with the same third
    of the size. *)
Theorem configure_after_validate
    (data : VimcCameraData) (c c' : CameraConfiguration) (status : Status)
    (cfg : StreamConfiguration) :
  head (config_ c) = Some cfg ->
  (forall f, is_Some (formats cfg !! f) -> is_Some (pixelformats_find f)) ->
  validate data c = (status, c') ->
  exists cfg' ret c'' rest,
    let third := {| width := width (size cfg') / 3; height := height (size cfg') / 3 |} in
    config_ c' = [cfg'] /\
    configure data c'
    = Some (ret, c'',
            SensorSetFormat {| mbus_code := MEDIA_BUS_FMT_SGRBG8_1X8; sf_size := third |}
              :: rest) /\
    3 * width third = width (size cfg') /\ 3 * height third = height (size cfg') /\
    width third mod 2 = 0 /\ height third mod 2 = 0 /\
    (ret <> 0 -> c'' = c') /\
    (ret = 0 ->
       transform c'' = transform c' /\
       config_ c'' = [ {| pixelFormat := pixelFormat cfg'; size := size cfg';
                          stride := stride cfg'; frameSize := frameSize cfg';
                          bufferCount := bufferCount cfg'; stream := true;
                          formats := formats cfg' |} ] /\
       exists raw, last rest = Some (RawSetFormat raw) /\
                   fourcc raw = V4L2_PIX_FMT_SGRBG8 /\ f_size raw = third).
Proof.
  intros Hhead Hkeys Hv.
  destruct (validate_shape _ _ _ _ _ Hhead Hv)
    as (cfg' & Hc' & _ & _ & (Hw & Hw6 & Hh & Hh6) & _ & _ & Hformats & Hpf).
  assert (is_Some (pixelformats_find (pixelFormat cfg'))) as [code Hfind].
  { destruct Hpf as [[-> Hknown]|[-> _]]; [by apply Hkeys|vm_compute; eauto]. }
  exists cfg'. unfold configure. rewrite Hc', Hfind. cbv zeta.
  repeat match goal with
  | |- context [match ?x with (_, _) => _ end] => destruct x as [? ?]
  | |- context [negb (?r =? 0)] => destruct (Z.eqb_spec r 0); cbn [negb]
  | |- context [if ?b then _ else _] => destruct b eqn:?
  end;
  eexists _, _, _; (split; [reflexivity|]); (split; [reflexivity|]);
  cbn [width height];
  (split; [Z.to_euclidean_division_equations; lia|]);
  (split; [Z.to_euclidean_division_equations; lia|]);
  (split; [Z.to_euclidean_division_equations; lia|]);
  (split; [Z.to_euclidean_division_equations; lia|]);
  (split; [done|]); intros Hret; try done; try (vm_compute in Hret; discriminate Hret);
  (split; [reflexivity|]); (split; [reflexivity|]);
  eexists; (split; [reflexivity|]); done.
Qed.

Lemma configure_after_validate_witness :
  exists cfg c' cfg' ret c'' rest,
    head (config_ requested) = Some cfg /\
    (forall f, is_Some (formats cfg !! f) -> is_Some (pixelformats_find f)) /\
    validate (accepting_devices (KERNEL_VERSION 5 10 0)) requested = (Adjusted, c') /\
    config_ c' = [cfg'] /\
    configure (accepting_devices (KERNEL_VERSION 5 10 0)) c'
    = Some (ret, c'',
            SensorSetFormat
              {| mbus_code := MEDIA_BUS_FMT_SGRBG8_1X8;
                 sf_size := {| width := width (size cfg') / 3;
                               height := height (size cfg') / 3 |} |} :: rest) /\
    3 * (width (size cfg') / 3) = width (size cfg').
Proof.
  assert (exists c', validate (accepting_devices (KERNEL_VERSION 5 10 0)) requested
                     = (Adjusted, c')) as [c' Hv] by (eexists; vm_compute; reflexivity).
  destruct (configure_after_validate _ requested _ _ _ eq_refl
              (supported_formats_known _) Hv)
    as (cfg' & ret & c'' & rest & Hc' & Hconf & Hw & _).
  eexists _, c', cfg', ret, c'', rest. split; [reflexivity|].
  split; [exact (supported_formats_known _)|]. split; [exact Hv|].
  split; [exact Hc'|]. split; [exact Hconf|exact Hw].
Defined.

End Vimc_config_properties.
